(** * ExternalInformationSkill: a shallow embedding and its properties

    The development follows
    [webapi/CopilotChat/Skills/ChatSkills/ExternalInformationSkill.cs].
    C# [int] values are integers of [Z] with the 32-bit wrap-around written
    out, exceptions are values of an error monad, the planner is a script
    indexed by the number of the call, and everything the class obtains from
    libraries (tokenizer, System.Text.Json, the Semantic Kernel plan
    executor) is gathered in the [Host] interface.

    A character of a [string] stands for one UTF-16 code unit of the range
    U+0000 to U+00FF, its number being the code point: the operations of
    [System.String] and [char] below act on one such character at a time,
    as the C# ones act on one [char]. *)

From Stdlib Require Import ZArith List String Ascii Bool Lia.
Import ListNotations.
Local Open Scope string_scope.
Local Open Scope Z_scope.

Set Implicit Arguments.

(* ------------------------------------------------------------------ *)
(** ** 32-bit signed integers (C# [int], unchecked arithmetic) *)

Module Int32.

Definition MinValue : Z := - 2 ^ 31.
Definition MaxValue : Z := 2 ^ 31 - 1.

(** The representative of [z] modulo 2^32 in [[MinValue, MaxValue]]. *)
Definition wrap (z : Z) : Z := (z + 2 ^ 31) mod 2 ^ 32 - 2 ^ 31.

Definition sub (a b : Z) : Z := wrap (a - b).

Definition in_range (z : Z) : Prop := MinValue <= z <= MaxValue.

End Int32.

(* ------------------------------------------------------------------ *)
(** ** Strings: the [System.String] operations the class uses *)

Module Str.

Definition LF : string := String (ascii_of_nat 10) EmptyString.
Definition QUOTE : string := String (ascii_of_nat 34) EmptyString.

(** [char.IsWhiteSpace] on U+0000 to U+00FF: TAB, LF, VT, FF, CR, SPACE,
    NEXT LINE (U+0085) and NO-BREAK SPACE (U+00A0). *)
Definition IsWhiteSpace (c : ascii) : bool :=
  let n := nat_of_ascii c in
  ((9 <=? n)%nat && (n <=? 13)%nat) || (n =? 32)%nat
  || (n =? 133)%nat || (n =? 160)%nat.

Fixpoint TrimStart (s : string) : string :=
  match s with
  | String c rest => if IsWhiteSpace c then TrimStart rest else s
  | EmptyString => EmptyString
  end.

Fixpoint rev_onto (s acc : string) : string :=
  match s with
  | String c rest => rev_onto rest (String c acc)
  | EmptyString => acc
  end.

Definition Reverse (s : string) : string := rev_onto s EmptyString.

Definition TrimEnd (s : string) : string := Reverse (TrimStart (Reverse s)).

Definition Trim (s : string) : string := TrimEnd (TrimStart s).

(** The white space that the number parser skips around the digits
    ([NumberStyles.AllowLeadingWhite], [AllowTrailingWhite]): TAB to CR and
    SPACE only. *)
Definition IsNumberWhite (c : ascii) : bool :=
  let n := nat_of_ascii c in
  ((9 <=? n)%nat && (n <=? 13)%nat) || (n =? 32)%nat.

Fixpoint SkipNumberWhite (s : string) : string :=
  match s with
  | String c rest => if IsNumberWhite c then SkipNumberWhite rest else s
  | EmptyString => EmptyString
  end.

Definition TrimNumberWhite (s : string) : string :=
  Reverse (SkipNumberWhite (Reverse (SkipNumberWhite s))).

(** [Regex.Replace(s, "[\n\r]", string.Empty)]. *)
Fixpoint RemoveLineBreaks (s : string) : string :=
  match s with
  | String c rest =>
      let n := nat_of_ascii c in
      if ((n =? 10) || (n =? 13))%nat then RemoveLineBreaks rest
      else String c (RemoveLineBreaks rest)
  | EmptyString => EmptyString
  end.

Fixpoint all_white (s : string) : bool :=
  match s with
  | String c rest => IsWhiteSpace c && all_white rest
  | EmptyString => true
  end.

(** [string.IsNullOrWhiteSpace]; [None] is the null reference. *)
Definition IsNullOrWhiteSpace (s : option string) : bool :=
  match s with
  | None => true
  | Some s => all_white s
  end.

(** Upper-casing of one character, as the ordinal comparison does it: the
    letters a to z, and U+00E0 to U+00FE without the division sign U+00F7.
    The upper-case forms of U+00B5 and U+00FF lie outside the range, and no
    other character of the range shares them. *)
Definition ToUpper (c : ascii) : ascii :=
  let n := nat_of_ascii c in
  if (((97 <=? n) && (n <=? 122))
      || ((224 <=? n) && (n <=? 254) && negb (n =? 247)))%nat
  then ascii_of_nat (n - 32) else c.

(** [a.Equals(b, StringComparison.OrdinalIgnoreCase)]. *)
Fixpoint EqualsIgnoreCase (a b : string) : bool :=
  match a, b with
  | EmptyString, EmptyString => true
  | String x a', String y b' =>
      Ascii.eqb (ToUpper x) (ToUpper y) && EqualsIgnoreCase a' b'
  | _, _ => false
  end.

(** [s.StartsWith(p, StringComparison.InvariantCultureIgnoreCase)]. *)
Fixpoint StartsWithIgnoreCase (s p : string) : bool :=
  match p, s with
  | EmptyString, _ => true
  | String y p', String x s' =>
      Ascii.eqb (ToUpper x) (ToUpper y) && StartsWithIgnoreCase s' p'
  | String _ _, EmptyString => false
  end.

(** [string.Join(sep, parts)]. *)
Fixpoint Join (sep : string) (parts : list string) : string :=
  match parts with
  | [] => EmptyString
  | [p] => p
  | p :: rest => p ++ sep ++ Join sep rest
  end.

Definition Length (s : string) : Z := Z.of_nat (String.length s).

End Str.

(* ------------------------------------------------------------------ *)
(** ** Exceptions and the error monad *)

(** [PlanningException.ErrorCodes]; the class only tests for [InvalidPlan]. *)
Inductive PlanningErrorCodes : Type :=
| PlanningUnknownError
| InvalidGoal
| InvalidPlan
| InvalidConfiguration
| CreatePlanError.

(** [KernelException.ErrorCodes]; the class only tests for
    [FunctionNotAvailable]. *)
Inductive KernelErrorCodes : Type :=
| KernelUnknownError
| InvalidFunctionDescription
| FunctionNotAvailable
| FunctionInvokeError
| ServiceNotFound.

Inductive ExceptionClass : Type :=
| PlanningException (ErrorCode : PlanningErrorCodes)
| KernelException (ErrorCode : KernelErrorCodes)
| JsonException
| InvalidOperationException
| NullReferenceException
| KeyNotFoundException
| FormatException
| OverflowException
| ArgumentOutOfRangeException
| OtherException (name : string).

#[local] Set Warnings "-register-all".

Inductive Exception : Type :=
| mkException (Class : ExceptionClass) (Message : string)
              (InnerException : option Exception).

Definition Class (e : Exception) : ExceptionClass :=
  match e with mkException c _ _ => c end.

Definition Message (e : Exception) : string :=
  match e with mkException _ m _ => m end.

Definition InnerException (e : Exception) : option Exception :=
  match e with mkException _ _ i => i end.

(** [e is PlanningException]. *)
Definition is_PlanningException (e : Exception) : bool :=
  match Class e with PlanningException _ => true | _ => false end.

(** [e as PlanningException], reduced to the error code it exposes;
    [None] is the null reference. *)
Definition as_PlanningException (e : option Exception)
  : option PlanningErrorCodes :=
  match e with
  | Some e' => match Class e' with
               | PlanningException c => Some c
               | _ => None
               end
  | None => None
  end.

(** [e as KernelException], reduced to the error code. *)
Definition as_KernelException (e : option Exception)
  : option KernelErrorCodes :=
  match e with
  | Some e' => match Class e' with
               | KernelException c => Some c
               | _ => None
               end
  | None => None
  end.

Definition is_InvalidPlan (c : PlanningErrorCodes) : bool :=
  match c with InvalidPlan => true | _ => false end.

Definition is_FunctionNotAvailable (c : KernelErrorCodes) : bool :=
  match c with FunctionNotAvailable => true | _ => false end.

Definition NullReference : Exception :=
  mkException NullReferenceException
    "Object reference not set to an instance of an object." None.

Inductive Result (A : Type) : Type :=
| Ok (a : A)
| Throw (e : Exception).

Arguments Ok {A} a.
Arguments Throw {A} e.

Definition bind {A B : Type} (r : Result A) (k : A -> Result B) : Result B :=
  match r with
  | Ok a => k a
  | Throw e => Throw e
  end.

Notation "x <- r ;; k" := (bind r (fun x => k))
  (at level 61, r at next level, right associativity).
Notation "' pat <- r ;; k" := (bind r (fun x => match x with pat => k end))
  (at level 61, pat pattern, r at next level, right associativity).

(** Dereferencing a possibly-null reference. *)
Definition deref {A : Type} (r : option A) : Result A :=
  match r with
  | Some a => Ok a
  | None => Throw NullReference
  end.

(* ------------------------------------------------------------------ *)
(** ** Data model *)

(** [PlanType] and [PlanState] are declared in [Models/ProposedPlan.cs];
    the class compares against [Action], [Sequential], [Approved] and
    stores [NoOp]. *)
Inductive PlanType : Type := Action | Sequential.

Inductive PlanState : Type := NoOp | Approved | Rejected.

Definition PlanType_eqb (a b : PlanType) : bool :=
  match a, b with
  | Action, Action | Sequential, Sequential => true
  | _, _ => false
  end.

Definition PlanState_eqb (a b : PlanState) : bool :=
  match a, b with
  | NoOp, NoOp | Approved, Approved | Rejected, Rejected => true
  | _, _ => false
  end.

Record MissingFunctionErrorOptions : Type := {
  AllowRetries : bool;
  MaxRetriesAllowed : Z
}.

Record PlannerOptions : Type := {
  PlannerType : PlanType;                       (* [Type] in the source *)
  AllowRetriesOnInvalidPlan : bool;
  MissingFunctionError : MissingFunctionErrorOptions
}.

(** [ContextVariables]: a dictionary from names to strings whose keys are
    compared with [StringComparer.OrdinalIgnoreCase]; kept as an association
    list in enumeration order. *)
Definition ContextVariables : Type := list (string * string).

Module Variables.

Fixpoint TryGetValue (vars : ContextVariables) (name : string)
  : option string :=
  match vars with
  | [] => None
  | (k, v) :: rest =>
      if Str.EqualsIgnoreCase k name then Some v else TryGetValue rest name
  end.

(** [Set(name, value)] with a non-null value: the entry under [name] gets
    the value, and a new entry is added when there is none. *)
Fixpoint Set_ (vars : ContextVariables) (name value : string)
  : ContextVariables :=
  match vars with
  | [] => [(name, value)]
  | (k, v) :: rest =>
      if Str.EqualsIgnoreCase k name then (k, value) :: rest
      else (k, v) :: Set_ rest name value
  end.

Definition Keys (vars : ContextVariables) : list string := map fst vars.

(** No two entries share a key: what a dictionary guarantees. *)
Fixpoint distinct_keys (vars : ContextVariables) : bool :=
  match vars with
  | [] => true
  | (k, _) :: rest =>
      negb (existsb (fun kv => Str.EqualsIgnoreCase k (fst kv)) rest)
      && distinct_keys rest
  end.

End Variables.

(** A [Plan]; its steps are plans themselves, each with a skill name, a
    function name and parameters of its own. *)
Inductive Plan : Type :=
| mkPlan (SkillName Name : string) (Parameters : ContextVariables)
         (Steps : list Plan).

Definition SkillName (p : Plan) : string :=
  match p with mkPlan s _ _ _ => s end.
Definition Name (p : Plan) : string :=
  match p with mkPlan _ n _ _ => n end.
Definition Parameters (p : Plan) : ContextVariables :=
  match p with mkPlan _ _ ps _ => ps end.
Definition Steps (p : Plan) : list Plan :=
  match p with mkPlan _ _ _ st => st end.

Definition with_Parameters (p : Plan) (ps : ContextVariables) : Plan :=
  mkPlan (SkillName p) (Name p) ps (Steps p).
Definition with_Steps (p : Plan) (st : list Plan) : Plan :=
  mkPlan (SkillName p) (Name p) (Parameters p) st.

Record ProposedPlan : Type := mkProposedPlan {
  ProposedPlan_Plan : Plan;
  ProposedPlan_Type : PlanType;
  ProposedPlan_State : PlanState
}.

(* ------------------------------------------------------------------ *)
(** ** JSON documents as [System.Text.Json] exposes them

    A [JsonElement] keeps the text it was read from ([GetRawText]); a
    property keeps the text of the whole [name: value] pair. *)

Module Json.

Inductive JsonValueKind : Type :=
| KindObject | KindArray | KindString | KindNumber
| KindTrue | KindFalse | KindNull.

Inductive JsonElement : Type :=
| JNull
| JTrue
| JFalse
| JNumber (raw : string)
| JString (raw value : string)
| JArray (raw : string) (items : list JsonElement)
| JObject (raw : string) (props : list (string * string * JsonElement)).

(** A property: the raw text of the pair, the name, the value. *)
Definition JsonProperty : Type := (string * string * JsonElement)%type.

Definition PropertyRawText (p : JsonProperty) : string := fst (fst p).
Definition PropertyName (p : JsonProperty) : string := snd (fst p).
Definition PropertyValue (p : JsonProperty) : JsonElement := snd p.

Definition ValueKind (e : JsonElement) : JsonValueKind :=
  match e with
  | JNull => KindNull
  | JTrue => KindTrue
  | JFalse => KindFalse
  | JNumber _ => KindNumber
  | JString _ _ => KindString
  | JArray _ _ => KindArray
  | JObject _ _ => KindObject
  end.

Definition is_Object (e : JsonElement) : bool :=
  match e with JObject _ _ => true | _ => false end.

Definition is_Array (e : JsonElement) : bool :=
  match e with JArray _ _ => true | _ => false end.

Definition GetRawText (e : JsonElement) : string :=
  match e with
  | JNull => "null"
  | JTrue => "true"
  | JFalse => "false"
  | JNumber raw => raw
  | JString raw _ => raw
  | JArray raw _ => raw
  | JObject raw _ => raw
  end.

(** [JsonElement.ToString()]: the string value for strings, the .NET
    names of the booleans, the empty string for null, the raw text
    otherwise. *)
Definition ToString (e : JsonElement) : string :=
  match e with
  | JNull => ""
  | JTrue => "True"
  | JFalse => "False"
  | JString _ value => value
  | _ => GetRawText e
  end.

(** [EnumerateObject()] and [EnumerateArray()] on an element of the
    right kind. *)
Definition EnumerateObject (e : JsonElement) : list JsonProperty :=
  match e with JObject _ props => props | _ => [] end.

Definition EnumerateArray (e : JsonElement) : list JsonElement :=
  match e with JArray _ items => items | _ => [] end.

(** [Utf8JsonWriter] output without indentation ([JsonElement.WriteTo]);
    strings and numbers are written as they were read. *)
Fixpoint WriteTo (e : JsonElement) : string :=
  match e with
  | JArray _ items =>
      "[" ++ Str.Join "," (map WriteTo items) ++ "]"
  | JObject _ props =>
      "{" ++ Str.Join ","
               (map (fun p : string * string * JsonElement =>
                       Str.QUOTE ++ snd (fst p) ++ Str.QUOTE ++ ":"
                       ++ WriteTo (snd p)) props)
          ++ "}"
  | _ => GetRawText e
  end.

(** [Utf8JsonWriter] output with indentation, as [JsonNode.ToString()]
    prints objects and arrays. *)
Fixpoint WriteIndented (indent : string) (e : JsonElement) : string :=
  let inner := indent ++ "  " in
  match e with
  | JArray _ [] => "[]"
  | JArray _ items =>
      "[" ++ Str.LF
      ++ Str.Join ("," ++ Str.LF)
           (map (fun i => inner ++ WriteIndented inner i) items)
      ++ Str.LF ++ indent ++ "]"
  | JObject _ [] => "{}"
  | JObject _ props =>
      "{" ++ Str.LF
      ++ Str.Join ("," ++ Str.LF)
           (map (fun p : string * string * JsonElement =>
                   inner ++ Str.QUOTE ++ snd (fst p) ++ Str.QUOTE ++ ": "
                   ++ WriteIndented inner (snd p)) props)
      ++ Str.LF ++ indent ++ "}"
  | _ => GetRawText e
  end.

(** [JsonNode.ToString()]: the value of a string, indented JSON text
    otherwise. *)
Definition NodeToString (e : JsonElement) : string :=
  match e with
  | JString _ value => value
  | _ => WriteIndented EmptyString e
  end.

(** *** A reader for JSON text *)

Definition is_ws (c : ascii) : bool :=
  let n := nat_of_ascii c in
  ((n =? 32) || (n =? 9) || (n =? 10) || (n =? 13))%nat.

Definition is_digit (c : ascii) : bool :=
  let n := nat_of_ascii c in ((48 <=? n) && (n <=? 57))%nat.

Fixpoint skip_ws (s : string) : string :=
  match s with
  | String c rest => if is_ws c then skip_ws rest else s
  | EmptyString => EmptyString
  end.

(** The part of [start] read so far, when [rest] is what remains. *)
Definition consumed (start rest : string) : string :=
  substring 0 (String.length start - String.length rest) start.

Definition drop (n : nat) (s : string) : string :=
  substring n (String.length s - n) s.

Fixpoint skip_digits (s : string) : string :=
  match s with
  | String c rest => if is_digit c then skip_digits rest else s
  | EmptyString => EmptyString
  end.

(** One or more digits. *)
Definition digits1 (s : string) : option string :=
  match s with
  | String c rest => if is_digit c then Some (skip_digits rest) else None
  | EmptyString => None
  end.

Definition opt_minus (s : string) : string :=
  match s with
  | String c rest => if Ascii.eqb c "-" then rest else s
  | EmptyString => s
  end.

Definition int_part (s : string) : option string :=
  match s with
  | String c rest =>
      if Ascii.eqb c "0" then Some rest
      else if is_digit c then Some (skip_digits rest) else None
  | EmptyString => None
  end.

Definition opt_frac (s : string) : option string :=
  match s with
  | String c rest => if Ascii.eqb c "." then digits1 rest else Some s
  | EmptyString => Some s
  end.

Definition opt_sign (s : string) : string :=
  match s with
  | String c rest =>
      if Ascii.eqb c "-" || Ascii.eqb c "+" then rest else s
  | EmptyString => s
  end.

Definition opt_exp (s : string) : option string :=
  match s with
  | String c rest =>
      if Ascii.eqb c "e" || Ascii.eqb c "E" then digits1 (opt_sign rest)
      else Some s
  | EmptyString => Some s
  end.

(** A JSON number; the rest of the input after it. *)
Definition read_number (s : string) : option string :=
  match int_part (opt_minus s) with
  | Some r1 => match opt_frac r1 with
               | Some r2 => opt_exp r2
               | None => None
               end
  | None => None
  end.

Definition hex_value (c : ascii) : option nat :=
  let n := nat_of_ascii c in
  if ((48 <=? n) && (n <=? 57))%nat then Some (n - 48)%nat
  else if ((65 <=? n) && (n <=? 70))%nat then Some (n - 55)%nat
  else if ((97 <=? n) && (n <=? 102))%nat then Some (n - 87)%nat
  else None.

(** The character of an escaped code point; a code point above U+00FF has
    no character in a [string] and the reader refuses it. *)
Definition code_unit (cp : nat) : option ascii :=
  if (cp <? 256)%nat then Some (ascii_of_nat cp) else None.

Definition read_hex4 (s : string) : option (nat * string) :=
  match s with
  | String a (String b (String c (String d rest))) =>
      match hex_value a, hex_value b, hex_value c, hex_value d with
      | Some x, Some y, Some z, Some w =>
          Some ((((x * 16 + y) * 16 + z) * 16 + w)%nat, rest)
      | _, _, _, _ => None
      end
  | _ => None
  end.

Definition simple_escape (c : ascii) : option ascii :=
  let n := nat_of_ascii c in
  if (n =? 34)%nat then Some c                        (* quote *)
  else if (n =? 92)%nat then Some c                   (* backslash *)
  else if (n =? 47)%nat then Some c                   (* solidus *)
  else if (n =? 98)%nat then Some (ascii_of_nat 8)    (* b *)
  else if (n =? 102)%nat then Some (ascii_of_nat 12)  (* f *)
  else if (n =? 110)%nat then Some (ascii_of_nat 10)  (* n *)
  else if (n =? 114)%nat then Some (ascii_of_nat 13)  (* r *)
  else if (n =? 116)%nat then Some (ascii_of_nat 9)   (* t *)
  else None.

(** The characters of a string up to its closing quote: the value with
    escapes resolved, and the rest of the input. *)
Fixpoint read_chars (fuel : nat) (s : string) : option (string * string) :=
  match fuel with
  | O => None
  | S fuel' =>
      match s with
      | EmptyString => None
      | String c rest =>
          let n := nat_of_ascii c in
          if (n =? 34)%nat then Some (EmptyString, rest)
          else if (n <? 32)%nat then None
          else if (n =? 92)%nat then
            match rest with
            | String e rest' =>
                if Ascii.eqb e "u" then
                  match read_hex4 rest' with
                  | Some (cp, rest'') =>
                      match code_unit cp, read_chars fuel' rest'' with
                      | Some x, Some (v, r) => Some (String x v, r)
                      | _, _ => None
                      end
                  | None => None
                  end
                else
                  match simple_escape e with
                  | Some x =>
                      match read_chars fuel' rest' with
                      | Some (v, r) => Some (String x v, r)
                      | None => None
                      end
                  | None => None
                  end
            | EmptyString => None
            end
          else
            match read_chars fuel' rest with
            | Some (v, r) => Some (String c v, r)
            | None => None
            end
      end
  end.

(** A string literal starting at its opening quote. *)
Definition read_string (s : string) : option (string * string) :=
  match s with
  | String c rest =>
      if (nat_of_ascii c =? 34)%nat
      then read_chars (S (String.length rest)) rest
      else None
  | EmptyString => None
  end.

Definition expect (c : ascii) (s : string) : option string :=
  match s with
  | String x rest => if Ascii.eqb x c then Some rest else None
  | EmptyString => None
  end.

Definition starts_with (c : ascii) (s : string) : bool :=
  match s with
  | String x _ => Ascii.eqb x c
  | EmptyString => false
  end.

Fixpoint read_value (fuel : nat) (s : string) {struct fuel}
  : option (JsonElement * string) :=
  match fuel with
  | O => None
  | S fuel' =>
      if String.prefix "null" s then Some (JNull, drop 4 s)
      else if String.prefix "true" s then Some (JTrue, drop 4 s)
      else if String.prefix "false" s then Some (JFalse, drop 5 s)
      else if starts_with (ascii_of_nat 34) s then
        match read_string s with
        | Some (v, rest) => Some (JString (consumed s rest) v, rest)
        | None => None
        end
      else if starts_with "[" s then
        let inner := skip_ws (drop 1 s) in
        if starts_with "]" inner
        then Some (JArray (consumed s (drop 1 inner)) [], drop 1 inner)
        else
          match read_items fuel' inner with
          | Some (items, rest) => Some (JArray (consumed s rest) items, rest)
          | None => None
          end
      else if starts_with "{" s then
        let inner := skip_ws (drop 1 s) in
        if starts_with "}" inner
        then Some (JObject (consumed s (drop 1 inner)) [], drop 1 inner)
        else
          match read_members fuel' inner with
          | Some (props, rest) => Some (JObject (consumed s rest) props, rest)
          | None => None
          end
      else
        match read_number s with
        | Some rest => Some (JNumber (consumed s rest), rest)
        | None => None
        end
  end

(** Array items after the opening bracket, through the closing one. *)
with read_items (fuel : nat) (s : string) {struct fuel}
  : option (list JsonElement * string) :=
  match fuel with
  | O => None
  | S fuel' =>
      match read_value fuel' s with
      | Some (v, rest) =>
          let after := skip_ws rest in
          if starts_with "," after then
            match read_items fuel' (skip_ws (drop 1 after)) with
            | Some (vs, rest') => Some (v :: vs, rest')
            | None => None
            end
          else if starts_with "]" after then Some ([v], drop 1 after)
          else None
      | None => None
      end
  end

(** Object members after the opening brace, through the closing one. *)
with read_members (fuel : nat) (s : string) {struct fuel}
  : option (list (string * string * JsonElement) * string) :=
  match fuel with
  | O => None
  | S fuel' =>
      match read_string s with
      | Some (name, rest) =>
          match expect ":" (skip_ws rest) with
          | Some rest1 =>
              match read_value fuel' (skip_ws rest1) with
              | Some (v, rest2) =>
                  let prop := (consumed s rest2, name, v) in
                  let after := skip_ws rest2 in
                  if starts_with "," after then
                    match read_members fuel' (skip_ws (drop 1 after)) with
                    | Some (ps, rest') => Some (prop :: ps, rest')
                    | None => None
                    end
                  else if starts_with "}" after
                  then Some ([prop], drop 1 after)
                  else None
              | None => None
              end
          | None => None
          end
      | None => None
      end
  end.

Definition JsonError : Exception :=
  mkException JsonException "The input is not valid JSON." None.

(** [JsonDocument.Parse(text).RootElement]. *)
Definition Parse (text : string) : Result JsonElement :=
  let s := skip_ws text in
  match read_value (2 * String.length s + 2) s with
  | Some (e, rest) =>
      match skip_ws rest with
      | EmptyString => Ok e
      | String _ _ => Throw JsonError
      end
  | None => Throw JsonError
  end.

End Json.

(* ------------------------------------------------------------------ *)
(** ** What the class obtains from its libraries and from the kernel *)

(** The response types [GetOpenApiSkillResponseType] chooses between. *)
Inductive SkillResponseType : Type :=
| typeof_object
| typeof_PullRequest
| typeof_PullRequest_array
| typeof_IssueResponse
| typeof_IssueResponse_array.

(** What [itemList] holds: boxed properties and boxed elements. *)
Inductive Item : Type :=
| PropertyItem (property : Json.JsonProperty)
| ElementItem (item : Json.JsonElement).

(** Tokenizer and serializer.  [TokenCount] is [TokenUtilities.TokenCount],
    an [int] that counts tokens. *)
Class Host : Type := {
  TokenCount : string -> Z;
  TokenCount_range : forall s, 0 <= TokenCount s <= Int32.MaxValue;
  (** [JsonDocument.Parse] and [JsonNode.Parse] *)
  JsonDocument_Parse : string -> Result Json.JsonElement;
  (** [JsonNode.ToString()] *)
  JsonNode_ToString : Json.JsonElement -> string;
  (** [JsonSerializer.Serialize(itemList)] *)
  Serialize_itemList : list Item -> string;
  (** [JsonSerializer.Deserialize(jsonContent, skillResponseType)] and
      [JsonSerializer.Serialize(skillResponse)] on the plugin models *)
  SkillResponse : Type;
  Deserialize_SkillResponse :
    string -> SkillResponseType -> Result (option SkillResponse);
  Serialize_SkillResponse : SkillResponse -> string;
  (** [JsonSerializer.Deserialize<ProposedPlan>] *)
  Deserialize_ProposedPlan : string -> Result (option ProposedPlan);
  (** [new PlannerOptions()] *)
  DefaultPlannerOptions : PlannerOptions
}.

(** The context a plan leaves behind when it has run. *)
Record SKContext : Type := {
  Context_Result : string;             (* [newPlanContext.Result] *)
  Context_Input : string               (* [newPlanContext.Variables.Input] *)
}.

Record FunctionsView : Type := {
  NativeFunctions : list string;
  SemanticFunctions : list string
}.

Definition IsEmpty {A : Type} (l : list A) : bool :=
  match l with [] => true | _ :: _ => false end.

(** The [Count] of a collection. *)
Definition Count {A : Type} (l : list A) : Z := Z.of_nat (List.length l).

(** [CopilotChatPlanner].  [CreatePlanAsync n goal] is the answer to the
    [n]-th call of one request: a plan, a null reference, or an exception. *)
Record CopilotChatPlanner : Type := {
  Kernel_GetFunctionsView : FunctionsView;
  Planner_PlannerOptions : option PlannerOptions;
  CreatePlanAsync : nat -> string -> Result (option Plan);
  (** [Plan.FromJson(JsonSerializer.Serialize(plan), newPlanContext)] *)
  Plan_FromJson : Plan -> Result Plan;
  (** [plan.InvokeAsync(newPlanContext)] *)
  Plan_InvokeAsync : Plan -> Result SKContext
}.

Inductive Event : Type :=
| CreatePlanCalled (goal : string)
| RetryLogged (message : string)
| PlanInvoked (plan : Plan)
| OptimizerCalled (jsonContent : string) (tokenLimit : Z)
| DebugLogged (message : string).

(** Computations that log events and may throw. *)
Definition Eff (A : Type) : Type := (Result A * list Event)%type.

Definition ret {A : Type} (a : A) : Eff A := (Ok a, []).
Definition lift {A : Type} (r : Result A) : Eff A := (r, []).
Definition emit (ev : Event) : Eff unit := (Ok tt, [ev]).

Definition ebind {A B : Type} (m : Eff A) (k : A -> Eff B) : Eff B :=
  match m with
  | (Ok a, evs) => let '(r, evs') := k a in (r, (evs ++ evs')%list)
  | (Throw e, evs) => (Throw e, evs)
  end.

Notation "x <~ m ;; k" := (ebind m (fun x => k))
  (at level 61, m at next level, right associativity).

(** Short-circuit conjunction and disjunction of operands that may throw. *)
Definition and_then (a b : Result bool) : Result bool :=
  x <- a ;; if x then b else Ok false.

Definition or_else (a b : Result bool) : Result bool :=
  x <- a ;; if x then Ok true else b.

Infix "&&&" := and_then (at level 40, left associativity).
Infix "|||" := or_else (at level 50, left associativity).

(* ------------------------------------------------------------------ *)
(** ** The class *)

Definition PromptPreamble : string := "[RELATED START]".
Definition ResultHeader : string := "RESULT: ".
Definition PromptPostamble : string := "[RELATED END]".

Definition is_KernelException (e : Exception) : bool :=
  match Class e with KernelException _ => true | _ => false end.

(** [IsRetriableError]. *)
Definition IsRetriableError (planner : CopilotChatPlanner) (e : Exception)
  : Result bool :=
  retryOnInvalidPlanError <-
    (Ok (is_PlanningException e)
     &&& ((c <- deref (as_PlanningException (Some e)) ;;
           Ok (is_InvalidPlan c))
          ||| (c <- deref (as_PlanningException (InnerException e)) ;;
               Ok (is_InvalidPlan c)))
     &&& (o <- deref (Planner_PlannerOptions planner) ;;
          Ok (AllowRetriesOnInvalidPlan o))) ;;
  retryOnMissingFunctionError <-
    (Ok (is_KernelException e)
     &&& (c <- deref (as_KernelException (Some e)) ;;
          Ok (is_FunctionNotAvailable c))
     &&& (o <- deref (Planner_PlannerOptions planner) ;;
          Ok (AllowRetries (MissingFunctionError o)))) ;;
  Ok (retryOnMissingFunctionError || retryOnInvalidPlanError).

(** [catch (Exception e) when (this.IsRetriableError(e))]: an exception
    thrown while the filter runs is discarded and the filter counts as
    false, so the handler is not entered. *)
Definition filter_accepts (planner : CopilotChatPlanner) (e : Exception)
  : bool :=
  match IsRetriableError planner e with
  | Ok b => b
  | Throw _ => false
  end.

(** [x--]: the value of the expression and the variable afterwards. *)
Definition post_decrement (x : Z) : Z * Z := (x, Int32.sub x 1).

(** [retriesAvail = e is PlanningException ? 0 : retriesAvail--;]
    The decrement happens first; the assignment then stores the value of
    the conditional expression in the same variable. *)
Definition assign_retriesAvail (e : Exception) (retriesAvail : Z) : Z :=
  if is_PlanningException e then 0
  else
    let '(value, retriesAvail_decremented) := post_decrement retriesAvail in
    let retriesAvail_assigned := value in
    retriesAvail_assigned.

(** [MergeContextIntoPlan]: the loop runs over the entries of [planParams]
    and updates [planParams] in place. *)
Definition MergeContextIntoPlan (variables planParams : ContextVariables)
  : ContextVariables :=
  fold_left
    (fun (planParams : ContextVariables) (param : string * string) =>
       if Str.EqualsIgnoreCase (fst param) "INPUT" then planParams
       else
         match Variables.TryGetValue variables (fst param) with
         | Some value => Variables.Set_ planParams (fst param) value
         | None => planParams
         end)
    planParams planParams.

(** [GetPlanSteps]. *)
Definition GetPlanSteps (plan : Plan) : list string :=
  map (fun step => SkillName step ++ "." ++ Name step) (Steps plan).

Definition GetGithubSkillResponseType (document : Json.JsonElement)
  : SkillResponseType :=
  if Json.is_Array document then typeof_PullRequest_array
  else typeof_PullRequest.

Definition GetJiraPluginResponseType (document : Json.JsonElement)
           (lastSkillFunctionInvoked : string) : SkillResponseType :=
  if String.eqb lastSkillFunctionInvoked "GetIssue" then
    if Json.is_Array document then typeof_IssueResponse_array
    else typeof_IssueResponse
  else typeof_IssueResponse.

(** [GetOpenApiSkillResponseType]: the response type, and the value left
    in [trimSkillResponse]. *)
Definition GetOpenApiSkillResponseType (document : Json.JsonElement)
           (lastSkillInvoked lastSkillFunctionInvoked : string)
  : SkillResponseType * bool :=
  if String.eqb lastSkillInvoked "GitHubPlugin" then
    (GetGithubSkillResponseType document, true)
  else if String.eqb lastSkillInvoked "JiraPlugin" then
    (GetJiraPluginResponseType document lastSkillFunctionInvoked, true)
  else (typeof_object, false).

(** [plan.Steps[^1]]. *)
Definition last_step (plan : Plan) : Result Plan :=
  match rev (Steps plan) with
  | step :: _ => Ok step
  | [] => Throw (mkException ArgumentOutOfRangeException
                   "Index was out of range." None)
  end.

(** The two truncation loops: [xs] in order, each item added while
    [tokenLimit - cost > 0], [break] at the first that is not. *)
Fixpoint Truncate {A : Type} (cost : A -> Z) (box : A -> Item)
         (xs : list A) (tokenLimit : Z) (itemList : list Item)
  : Z * list Item :=
  match xs with
  | [] => (tokenLimit, itemList)
  | x :: rest =>
      let tokenCount := cost x in
      if Int32.sub tokenLimit tokenCount >? 0
      then Truncate cost box rest (Int32.sub tokenLimit tokenCount)
                    (itemList ++ [box x])%list
      else (tokenLimit, itemList)
  end.

Section Skill.

Context {host : Host}.
Variable planner : CopilotChatPlanner.

Definition property_cost (property : Json.JsonProperty) : Z :=
  TokenCount (Json.PropertyRawText property).

Definition item_cost (item : Json.JsonElement) : Z :=
  TokenCount (Json.ToString item).

(** Lines 262-278: the cleaned text, its document, and the skill that
    was invoked last. *)
Definition Optimize_prepare (jsonContent : string) (plan : Plan)
  : Result (string * Json.JsonElement * string) :=
  let jsonContent := Str.RemoveLineBreaks (Str.Trim jsonContent) in
  document <- JsonDocument_Parse jsonContent ;;
  lastStep <- last_step plan ;;
  let lastSkillInvoked := SkillName lastStep in
  let lastSkillFunctionInvoked := Name lastStep in
  let '(skillResponseType, trimSkillResponse) :=
    GetOpenApiSkillResponseType document lastSkillInvoked
                                lastSkillFunctionInvoked in
  if trimSkillResponse then
    skillResponse <- Deserialize_SkillResponse jsonContent
                                               skillResponseType ;;
    let jsonContent :=
      match skillResponse with
      | Some r => Serialize_SkillResponse r
      | None => EmptyString
      end in
    document <- JsonDocument_Parse jsonContent ;;
    Ok (jsonContent, document, lastSkillInvoked)
  else Ok (jsonContent, document, lastSkillInvoked).

(** [Enumerable.First()]. *)
Definition First {A : Type} (xs : list A) : Result A :=
  match xs with
  | x :: _ => Ok x
  | [] => Throw (mkException InvalidOperationException
                   "Sequence contains no elements" None)
  end.

(** Lines 292-313: a root object with exactly one property is replaced
    by the value of that property. *)
Definition Optimize_unwrap (document : Json.JsonElement) (tokenLimit : Z)
  : Result (Z * string * Json.JsonElement) :=
  let resultsDescriptor := EmptyString in
  if Json.is_Object document then
    let propertyCount := Count (Json.EnumerateObject document) in
    if propertyCount =? 1 then
      firstProperty <- First (Json.EnumerateObject document) ;;
      let tokenLimit :=
        Int32.sub tokenLimit
                  (TokenCount (Json.PropertyName firstProperty)) in
      let resultsDescriptor := Json.PropertyName firstProperty ++ ": " in
      let value := Json.PropertyValue firstProperty in
      document <- JsonDocument_Parse (Json.GetRawText value) ;;
      Ok (tokenLimit, resultsDescriptor, document)
    else Ok (tokenLimit, resultsDescriptor, document)
  else Ok (tokenLimit, resultsDescriptor, document).

(** Lines 315-353: the object loop, then the array loop. *)
Definition Optimize_truncate (document : Json.JsonElement) (tokenLimit : Z)
  : Z * list Item :=
  let itemList : list Item := [] in
  let '(tokenLimit, itemList) :=
    if Json.is_Object document
    then Truncate property_cost PropertyItem
                  (Json.EnumerateObject document) tokenLimit itemList
    else (tokenLimit, itemList) in
  if Json.is_Array document
  then Truncate item_cost ElementItem
                (Json.EnumerateArray document) tokenLimit itemList
  else (tokenLimit, itemList).

Definition is_Sequential (o : option PlannerOptions) : bool :=
  match o with
  | Some o => PlanType_eqb (PlannerType o) Sequential
  | None => false
  end.

Definition TooLargeMessage (source : string) : string :=
  "JSON response from " ++ source
    ++ " is too large to be consumed at this time.".

(** Lines 355-357. *)
Definition Optimize_result (resultsDescriptor : string)
           (itemList : list Item) (lastSkillInvoked : string) : string :=
  if Count itemList >? 0
  then resultsDescriptor ++ Serialize_itemList itemList
  else TooLargeMessage
         (if is_Sequential (Planner_PlannerOptions planner)
          then "plan" else lastSkillInvoked).

(** [OptimizeOpenApiSkillJson]. *)
Definition OptimizeOpenApiSkillJson (jsonContent : string) (tokenLimit : Z)
           (plan : Plan) : Result string :=
  '(jsonContent, document, lastSkillInvoked) <-
    Optimize_prepare jsonContent plan ;;
  let jsonContentTokenCount := TokenCount jsonContent in
  if jsonContentTokenCount <? tokenLimit then Ok jsonContent
  else
    '(tokenLimit, resultsDescriptor, document) <-
      Optimize_unwrap document tokenLimit ;;
    let '(_, itemList) := Optimize_truncate document tokenLimit in
    Ok (Optimize_result resultsDescriptor itemList lastSkillInvoked).

(** [JsonNode.Parse]: the null literal gives a null node. *)
Definition JsonNode_Parse (text : string) : Result (option Json.JsonElement) :=
  document <- JsonDocument_Parse text ;;
  match document with
  | Json.JNull => Ok None
  | _ => Ok (Some document)
  end.

Fixpoint find_property (props : list Json.JsonProperty) (name : string)
  : option Json.JsonElement :=
  match props with
  | [] => None
  | p :: rest =>
      if String.eqb (Json.PropertyName p) name
      then match Json.PropertyValue p with
           | Json.JNull => None
           | v => Some v
           end
      else find_property rest name
  end.

(** Two members of one name.  [JsonObject] fills its dictionary from the
    parsed members on the first access, comparing names ordinally. *)
Fixpoint has_duplicate_names (props : list Json.JsonProperty) : bool :=
  match props with
  | [] => false
  | p :: rest =>
      existsb (fun q => String.eqb (Json.PropertyName q) (Json.PropertyName p))
              rest
      || has_duplicate_names rest
  end.

Definition DuplicateKey : Exception :=
  mkException (OtherException "System.ArgumentException")
              "An item with the same key has already been added." None.

(** [jsonNode?[name]]: null on a null node; on an object
    [ArgumentException] when two members share a name, the property (or
    null) otherwise; [InvalidOperationException] on any other node. *)
Definition JsonNode_Item (jsonNode : option Json.JsonElement)
           (name : string) : Result (option Json.JsonElement) :=
  match jsonNode with
  | None => Ok None
  | Some (Json.JObject _ props) =>
      if has_duplicate_names props then Throw DuplicateKey
      else Ok (find_property props name)
  | Some _ => Throw (mkException InvalidOperationException
                       "The node must be of type JsonObject." None)
  end.

(** [node?.ToString() ?? string.Empty]. *)
Definition ToString_or_Empty (node : option Json.JsonElement) : string :=
  match node with
  | Some n => JsonNode_ToString n
  | None => EmptyString
  end.

(** [TryExtractJsonFromOpenApiPlanResult]: the returned flag and the
    [out] parameter. *)
Definition TryExtractJsonFromOpenApiPlanResult
           (openApiSkillResponse : string) : Eff (bool * string) :=
  let body : Result (option string) :=
    jsonNode <- JsonNode_Parse openApiSkillResponse ;;
    contentTypeNode <- JsonNode_Item jsonNode "contentType" ;;
    let contentType := ToString_or_Empty contentTypeNode in
    if Str.StartsWithIgnoreCase contentType "application/json" then
      contentNode <- JsonNode_Item jsonNode "content" ;;
      let content := ToString_or_Empty contentNode in
      if negb (Str.IsNullOrWhiteSpace (Some content))
      then Ok (Some content)
      else Ok None
    else Ok None in
  match body with
  | Ok (Some json) => ret (true, json)
  | Ok None => ret (false, EmptyString)
  | Throw e =>
      match Class e with
      | JsonException =>
          _ <~ emit (DebugLogged
                       "Unable to extract JSON from planner response, it is likely not from an OpenAPI skill.") ;;
          ret (false, EmptyString)
      | InvalidOperationException =>
          _ <~ emit (DebugLogged
                       "Unable to extract JSON from planner response, it may already be proper JSON.") ;;
          ret (false, EmptyString)
      | _ => lift (Throw e)
      end
  end.

(** [context[name]]. *)
Definition Context_Item (context : ContextVariables) (name : string)
  : Result string :=
  match Variables.TryGetValue context name with
  | Some v => Ok v
  | None => Throw (mkException KeyNotFoundException
                     "The given key was not present in the dictionary."
                     None)
  end.

Fixpoint digits_value (s : string) (acc : Z) : option Z :=
  match s with
  | EmptyString => Some acc
  | String c rest =>
      if Json.is_digit c
      then digits_value rest (acc * 10 + (Z.of_nat (nat_of_ascii c) - 48))
      else None
  end.

(** [int.Parse(s, new NumberFormatInfo())]: optional white space, an
    optional sign, decimal digits. *)
Definition Int32_Parse (s : string) : Result Z :=
  let t := Str.TrimNumberWhite s in
  let '(negative, body) :=
    match t with
    | String c rest =>
        if Ascii.eqb c "-" then (true, rest)
        else if Ascii.eqb c "+" then (false, rest)
        else (false, t)
    | EmptyString => (false, t)
    end in
  match body with
  | EmptyString => Throw (mkException FormatException
                            "Input string was not in a correct format." None)
  | String _ _ =>
      match digits_value body 0 with
      | None => Throw (mkException FormatException
                         "Input string was not in a correct format." None)
      | Some v =>
          let z := if negative : bool then - v else v in
          if (Int32.MinValue <=? z) && (z <=? Int32.MaxValue) then Ok z
          else Throw (mkException OverflowException
                        "Value was either too large or too small for an Int32."
                        None)
      end
  end.

(** Lines 95-125: the branch that runs an approved plan. *)
Definition ExecuteBranch (context : ContextVariables)
           (deserializedPlan : ProposedPlan) : Eff string :=
  plan <~ lift (Plan_FromJson planner (ProposedPlan_Plan deserializedPlan)) ;;
  _ <~ emit (PlanInvoked plan) ;;
  newPlanContext <~ lift (Plan_InvokeAsync planner plan) ;;
  let functionsUsed :=
    "FUNCTIONS EXECUTED: " ++ Str.Join "; " (GetPlanSteps plan) ++ "." in
  tokenLimitText <~ lift (Context_Item context "tokenLimit") ;;
  parsed <~ lift (Int32_Parse tokenLimitText) ;;
  let tokenLimit :=
    Int32.sub
      (Int32.sub
         (Int32.sub
            (Int32.sub parsed (TokenCount PromptPreamble))
            (TokenCount PromptPostamble))
         (TokenCount functionsUsed))
      (TokenCount ResultHeader) in
  extracted <~ TryExtractJsonFromOpenApiPlanResult
                 (Context_Result newPlanContext) ;;
  let '(extractJsonFromOpenApi, planResult) := extracted in
  planResult <~
    (if extractJsonFromOpenApi : bool then
       _ <~ emit (OptimizerCalled planResult tokenLimit) ;;
       lift (OptimizeOpenApiSkillJson planResult tokenLimit plan)
     else ret (Context_Input newPlanContext)) ;;
  ret (PromptPreamble ++ Str.LF ++ functionsUsed ++ Str.LF
       ++ ResultHeader ++ Str.Trim planResult ++ Str.LF
       ++ PromptPostamble ++ Str.LF).

(** Line 130. *)
Definition contextString (variables : ContextVariables) : string :=
  Str.Join Str.LF
    (map (fun v : string * string => fst v ++ ": " ++ snd v)
         (filter (fun v : string * string =>
                    negb (String.eqb (fst v) "userIntent"))
                 variables)).

(** Line 142. *)
Definition planner_goal (variables : ContextVariables)
           (userIntent : string) : string :=
  "Given the following context, accomplish the user intent." ++ Str.LF
  ++ "Context:" ++ Str.LF ++ contextString variables ++ Str.LF
  ++ "User Intent:" ++ userIntent.

(** Line 133. *)
Definition effective_options : PlannerOptions :=
  match Planner_PlannerOptions planner with
  | Some o => o
  | None => DefaultPlannerOptions
  end.

(** Lines 134-136. *)
Definition initial_retriesAvail (plannerOptions : PlannerOptions) : Z :=
  if AllowRetries (MissingFunctionError plannerOptions)
  then MaxRetriesAllowed (MissingFunctionError plannerOptions)
  else if AllowRetriesOnInvalidPlan plannerOptions then 1 else 0.

Inductive LoopOutcome : Type :=
| PlanCreated (plan : Plan)
| Propagated (e : Exception)
| StillLooping.

(** A run of the loop: how it ended, the value of [retriesAvail] at that
    point, the exceptions that were caught and retried, and the calls
    and log entries in order. *)
Record LoopRun : Type := {
  Loop_Outcome : LoopOutcome;
  Loop_retriesAvail : Z;
  Loop_Retried : list Exception;
  Loop_Events : list Event
}.

Definition stop (outcome : LoopOutcome) (retriesAvail : Z) : LoopRun :=
  {| Loop_Outcome := outcome;
     Loop_retriesAvail := retriesAvail;
     Loop_Retried := [];
     Loop_Events := [] |}.

Definition logged (ev : Event) (r : LoopRun) : LoopRun :=
  {| Loop_Outcome := Loop_Outcome r;
     Loop_retriesAvail := Loop_retriesAvail r;
     Loop_Retried := Loop_Retried r;
     Loop_Events := ev :: Loop_Events r |}.

Definition retried (e : Exception) (r : LoopRun) : LoopRun :=
  {| Loop_Outcome := Loop_Outcome r;
     Loop_retriesAvail := Loop_retriesAvail r;
     Loop_Retried := e :: Loop_Retried r;
     Loop_Events :=
       RetryLogged ("Retrying CreatePlan on error: " ++ Message e)
       :: Loop_Events r |}.

(** Lines 138-157.  [fuel] bounds the number of iterations that are
    followed; [call] numbers the calls to the planner. *)
Fixpoint CreatePlanLoop (fuel : nat) (goal : string) (call : nat)
         (retriesAvail : Z) : LoopRun :=
  match fuel with
  | O => stop StillLooping retriesAvail
  | S fuel' =>
      logged (CreatePlanCalled goal)
        match CreatePlanAsync planner call goal with
        | Ok (Some plan) => stop (PlanCreated plan) retriesAvail
        | Ok None => CreatePlanLoop fuel' goal (S call) retriesAvail
        | Throw e =>
            if filter_accepts planner e then
              if retriesAvail >? 0 then
                let retriesAvail := assign_retriesAvail e retriesAvail in
                retried e (CreatePlanLoop fuel' goal (S call) retriesAvail)
              else stop (Propagated e) retriesAvail
            else stop (Propagated e) retriesAvail
        end
  end.

(** Lines 159-177, on the plan the loop produced: the plan after the
    merge. *)
Definition merge_into_plan (plannerOptions : PlannerOptions)
           (variables : ContextVariables) (plan : Plan) : Plan :=
  if PlanType_eqb (PlannerType plannerOptions) Action then
    with_Parameters plan (MergeContextIntoPlan variables (Parameters plan))
  else
    with_Steps plan
      (map (fun step =>
              with_Parameters step
                (MergeContextIntoPlan variables (Parameters step)))
           (Steps plan)).

(** What a call leaves behind: the returned string or the exception
    ([None] while the loop is still running), the [ProposedPlan]
    property, and the calls made to the collaborators. *)
Record Run : Type := {
  Returned : option (Result string);
  ProposedPlan_after : option ProposedPlan;
  Events : list Event
}.

(** Lines 129-180: the branch that asks for a new plan. *)
Definition ProposeBranch (fuel : nat) (ProposedPlan_before : option ProposedPlan)
           (userIntent : string) (context : ContextVariables) : Run :=
  let plannerOptions := effective_options in
  let retriesAvail := initial_retriesAvail plannerOptions in
  let loop :=
    CreatePlanLoop fuel (planner_goal context userIntent) 0 retriesAvail in
  match Loop_Outcome loop with
  | StillLooping =>
      {| Returned := None;
         ProposedPlan_after := ProposedPlan_before;
         Events := Loop_Events loop |}
  | Propagated e =>
      {| Returned := Some (Throw e);
         ProposedPlan_after := ProposedPlan_before;
         Events := Loop_Events loop |}
  | PlanCreated plan =>
      if Count (Steps plan) >? 0 then
        {| Returned := Some (Ok EmptyString);
           ProposedPlan_after :=
             Some (mkProposedPlan
                     (merge_into_plan plannerOptions context plan)
                     (PlannerType plannerOptions) NoOp);
           Events := Loop_Events loop |}
      else
        {| Returned := Some (Ok EmptyString);
           ProposedPlan_after := ProposedPlan_before;
           Events := Loop_Events loop |}
  end.

Definition is_Approved (deserializedPlan : option ProposedPlan) : bool :=
  match deserializedPlan with
  | Some p => PlanState_eqb (ProposedPlan_State p) Approved
  | None => false
  end.

(** Lines 89-90: the plan found in the context variables, if any. *)
Definition read_proposedPlan (context : ContextVariables)
  : Result (option ProposedPlan) :=
  let proposedPlanJson := Variables.TryGetValue context "proposedPlan" in
  let planExists :=
    match proposedPlanJson with Some _ => true | None => false end in
  if planExists && negb (Str.IsNullOrWhiteSpace proposedPlanJson) then
    match proposedPlanJson with
    | Some json => Deserialize_ProposedPlan json
    | None => Ok None
    end
  else Ok None.

(** [AcquireExternalInformationAsync]. *)
Definition AcquireExternalInformationAsync (fuel : nat)
           (ProposedPlan_before : option ProposedPlan)
           (userIntent : string) (context : ContextVariables) : Run :=
  let functions := Kernel_GetFunctionsView planner in
  if IsEmpty (NativeFunctions functions)
     && IsEmpty (SemanticFunctions functions)
  then {| Returned := Some (Ok EmptyString);
          ProposedPlan_after := ProposedPlan_before;
          Events := [] |}
  else
    match read_proposedPlan context with
    | Throw e =>
        {| Returned := Some (Throw e);
           ProposedPlan_after := ProposedPlan_before;
           Events := [] |}
    | Ok deserializedPlan =>
        match deserializedPlan with
        | Some approved =>
            if is_Approved deserializedPlan then
              let '(result, events) := ExecuteBranch context approved in
              {| Returned := Some result;
                 ProposedPlan_after := ProposedPlan_before;
                 Events := events |}
            else ProposeBranch fuel ProposedPlan_before userIntent context
        | None => ProposeBranch fuel ProposedPlan_before userIntent context
        end
    end.

End Skill.

(* ------------------------------------------------------------------ *)
(** ** A concrete host, for running the class on examples

    The tokenizer counts characters.  Response models are not trimmed: the
    projection of the plugin responses keeps every field. *)

Module Demo.

Definition CharCount (s : string) : Z :=
  Z.min (Str.Length s) Int32.MaxValue.

(** A boxed [JsonProperty] is written with its public properties, a boxed
    [JsonElement] as the JSON it holds. *)
Definition Serialize_item (i : Item) : string :=
  match i with
  | ElementItem e => Json.WriteTo e
  | PropertyItem p =>
      "{" ++ Str.QUOTE ++ "Value" ++ Str.QUOTE ++ ":"
      ++ Json.WriteTo (Json.PropertyValue p) ++ ","
      ++ Str.QUOTE ++ "Name" ++ Str.QUOTE ++ ":"
      ++ Str.QUOTE ++ Json.PropertyName p ++ Str.QUOTE ++ "}"
  end.

Definition WriteItemList (items : list Item) : string :=
  "[" ++ Str.Join "," (map Serialize_item items) ++ "]".

Definition ReadSkillResponse (jsonContent : string)
           (t : SkillResponseType) : Result (option Json.JsonElement) :=
  document <- Json.Parse jsonContent ;;
  match document with
  | Json.JNull => Ok None
  | _ => Ok (Some document)
  end.

Fixpoint find (props : list Json.JsonProperty) (name : string)
  : option Json.JsonElement :=
  match props with
  | [] => None
  | p :: rest =>
      if String.eqb (Json.PropertyName p) name
      then Some (Json.PropertyValue p)
      else find rest name
  end.

Definition text_of (e : option Json.JsonElement) : string :=
  match e with
  | Some (Json.JString _ v) => v
  | _ => EmptyString
  end.

Definition decode_variable (e : Json.JsonElement) : string * string :=
  let props := Json.EnumerateObject e in
  (text_of (find props "Key"), text_of (find props "Value")).

(** A plan as the kernel writes it: [skill_name], [name], [parameters]
    (a list of Key/Value pairs) and [steps]. *)
Fixpoint decode_plan (depth : nat) (e : Json.JsonElement) : Plan :=
  let props := Json.EnumerateObject e in
  mkPlan (text_of (find props "skill_name"))
         (text_of (find props "name"))
         (match find props "parameters" with
          | Some ps => map decode_variable (Json.EnumerateArray ps)
          | None => []
          end)
         (match depth, find props "steps" with
          | S depth', Some st =>
              map (decode_plan depth') (Json.EnumerateArray st)
          | _, _ => []
          end).

Definition decode_type (e : option Json.JsonElement) : PlanType :=
  match e with
  | Some (Json.JNumber "1") => Sequential
  | _ => Action
  end.

Definition decode_state (e : option Json.JsonElement) : PlanState :=
  match e with
  | Some (Json.JNumber "1") => Approved
  | Some (Json.JNumber "2") => Rejected
  | _ => NoOp
  end.

(** A [ProposedPlan] has the members [proposedPlan], [type], [state];
    text that is not a JSON object (or the null literal) is refused. *)
Definition ReadProposedPlan (json : string)
  : Result (option ProposedPlan) :=
  document <- Json.Parse json ;;
  match document with
  | Json.JNull => Ok None
  | Json.JObject _ props =>
      Ok (Some (mkProposedPlan
                  (match find props "proposedPlan" with
                   | Some p => decode_plan 64 p
                   | None => mkPlan EmptyString EmptyString [] []
                   end)
                  (decode_type (find props "type"))
                  (decode_state (find props "state"))))
  | _ => Throw (mkException JsonException
                  "The JSON value could not be converted." None)
  end.

Definition Defaults : PlannerOptions :=
  {| PlannerType := Action;
     AllowRetriesOnInvalidPlan := true;
     MissingFunctionError :=
       {| AllowRetries := true; MaxRetriesAllowed := 3 |} |}.

Definition CharCount_range (s : string)
  : 0 <= CharCount s <= Int32.MaxValue :=
  conj (Z.min_glb _ _ _ (Nat2Z.is_nonneg _)
          (Zle_bool_imp_le 0 Int32.MaxValue eq_refl))
       (Z.le_min_r _ _).

Definition host : Host :=
  {| TokenCount := CharCount;
     TokenCount_range := CharCount_range;
     JsonDocument_Parse := Json.Parse;
     JsonNode_ToString := Json.NodeToString;
     Serialize_itemList := WriteItemList;
     SkillResponse := Json.JsonElement;
     Deserialize_SkillResponse := ReadSkillResponse;
     Serialize_SkillResponse := Json.WriteTo;
     Deserialize_ProposedPlan := ReadProposedPlan;
     DefaultPlannerOptions := Defaults |}.

End Demo.

(* ------------------------------------------------------------------ *)
(** ** Values used in the examples *)

Module Examples.

(** One step that calls [WebSearch.Search] with a [Query] and a [limit]
    parameter. *)
Definition search_step : Plan :=
  mkPlan "WebSearch" "Search"
         [("INPUT", "kittens"); ("Query", "kittens"); ("limit", "3")] [].

Definition search_plan : Plan :=
  mkPlan "" "" [("INPUT", ""); ("query", "dogs"); ("count", "5")]
         [search_step].

Definition empty_plan : Plan := mkPlan "" "" [("INPUT", "")] [].

Definition calendar_step : Plan :=
  mkPlan "Calendar" "FindEvents" [("INPUT", ""); ("day", "monday")] [].

(** Two steps of different skills: [Calendar.FindEvents], then
    [WebSearch.Search]. *)
Definition two_step_plan : Plan :=
  mkPlan "" "" [("INPUT", "")] [calendar_step; search_step].

Definition missing_function : Exception :=
  mkException (KernelException FunctionNotAvailable)
              "Function not available" None.

Definition invalid_plan : Exception :=
  mkException (PlanningException InvalidPlan) "Plan could not be parsed" None.

(** A planning error that carries no invalid-plan code and no inner
    exception. *)
Definition invalid_goal : Exception :=
  mkException (PlanningException InvalidGoal) "The goal is empty" None.

Definition options (type : PlanType) (onInvalidPlan onMissing : bool)
           (maxRetries : Z) : PlannerOptions :=
  {| PlannerType := type;
     AllowRetriesOnInvalidPlan := onInvalidPlan;
     MissingFunctionError :=
       {| AllowRetries := onMissing; MaxRetriesAllowed := maxRetries |} |}.

(** A planner over a kernel with one native function; [script] answers
    the calls, and a plan that runs returns [response]. *)
Definition planner (plannerOptions : option PlannerOptions)
           (script : nat -> Result (option Plan)) (response : string)
  : CopilotChatPlanner :=
  {| Kernel_GetFunctionsView :=
       {| NativeFunctions := ["WebSearch.Search"];
          SemanticFunctions := [] |};
     Planner_PlannerOptions := plannerOptions;
     CreatePlanAsync := fun call _ => script call;
     Plan_FromJson := fun plan => Ok plan;
     Plan_InvokeAsync :=
       fun _ => Ok {| Context_Result := response;
                      Context_Input := response |} |}.

(** The same planner over a kernel without any function. *)
Definition bare_planner (script : nat -> Result (option Plan))
  : CopilotChatPlanner :=
  {| Kernel_GetFunctionsView :=
       {| NativeFunctions := []; SemanticFunctions := [] |};
     Planner_PlannerOptions := None;
     CreatePlanAsync := fun call _ => script call;
     Plan_FromJson := fun plan => Ok plan;
     Plan_InvokeAsync :=
       fun _ => Ok {| Context_Result := ""; Context_Input := "" |} |}.

Definition always (e : Exception) : nat -> Result (option Plan) :=
  fun _ => Throw e.

Definition ask : ContextVariables :=
  [("INPUT", "find cats"); ("userIntent", "find cats"); ("query", "cats")].

(** The text [{"results": [1,2,3]}]. *)
Definition results_json : string :=
  "{" ++ Str.QUOTE ++ "results" ++ Str.QUOTE ++ ": [1,2,3]}".

(** A JSON member [name] with the string [value]. *)
Definition member (name value : string) : string :=
  Str.QUOTE ++ name ++ Str.QUOTE ++ ":" ++ Str.QUOTE ++ value ++ Str.QUOTE.

(** The response of an OpenAPI skill that carries [content]. *)
Definition json_response (content : string) : string :=
  "{" ++ member "contentType" "application/json" ++ ","
      ++ member "content" content ++ "}".

(** The same response with a second [content] member. *)
Definition duplicate_response (content other : string) : string :=
  "{" ++ member "contentType" "application/json" ++ ","
      ++ member "content" content ++ ","
      ++ member "content" other ++ "}".

(** NO-BREAK SPACE, NEXT LINE and a space. *)
Definition unicode_blank : string :=
  String (ascii_of_nat 160) (String (ascii_of_nat 133) " ").

End Examples.

(* ------------------------------------------------------------------ *)
(** ** Vocabulary of the statements *)

(** An error is of the missing-function class when it is a
    [KernelException] with the code [FunctionNotAvailable]. *)
Definition missing_function_error (e : Exception) : Prop :=
  Class e = KernelException FunctionNotAvailable.

(** An error is of the invalid-plan class when it is a [PlanningException]
    and either its own code or the code of its inner planning exception is
    [InvalidPlan]. *)
Definition invalid_plan_error (e : Exception) : Prop :=
  exists c, Class e = PlanningException c
            /\ (c = InvalidPlan
                \/ as_PlanningException (InnerException e) = Some InvalidPlan).

Definition planning_retries (retried : list Exception) : nat :=
  List.length (filter is_PlanningException retried).

(** An error the classification would accept if the options allowed it. *)
Definition retriable_shaped (e : Exception) : Prop :=
  missing_function_error e \/ invalid_plan_error e.

Definition has_functions (planner : CopilotChatPlanner) : Prop :=
  IsEmpty (NativeFunctions (Kernel_GetFunctionsView planner))
  && IsEmpty (SemanticFunctions (Kernel_GetFunctionsView planner)) = false.

(** What the merge is to leave under a declared parameter. *)
Definition merged_value (variables : ContextVariables)
           (param : string * string) : string :=
  if Str.EqualsIgnoreCase (fst param) "INPUT" then snd param
  else match Variables.TryGetValue variables (fst param) with
       | Some value => value
       | None => snd param
       end.

(** The declared parameters, in their order, each with its merged value. *)
Definition merged (variables planParams : ContextVariables)
  : ContextVariables :=
  map (fun param => (fst param, merged_value variables param)) planParams.

(** The items of a document in the order of the text: the properties of
    an object, the elements of an array, nothing for any other value. *)
Definition document_items (document : Json.JsonElement) : list Item :=
  match document with
  | Json.JObject _ props => map PropertyItem props
  | Json.JArray _ items => map ElementItem items
  | _ => []
  end.

(** The token count the loops compute for an item. *)
Definition Item_cost {host : Host} (i : Item) : Z :=
  match i with
  | PropertyItem property => property_cost property
  | ElementItem item => item_cost item
  end.

(** The limit after the costs of [taken] were subtracted one by one. *)
Definition remaining {host : Host} (tokenLimit : Z) (taken : list Item) : Z :=
  fold_left (fun limit i => Int32.sub limit (Item_cost i)) taken tokenLimit.

(** The sum of the token counts of [taken]. *)
Definition total_cost {host : Host} (taken : list Item) : Z :=
  fold_right (fun i sum => Item_cost i + sum) 0 taken.

(** The token count subtracted when a single root property is unwrapped. *)
Definition unwrap_cost {host : Host} (root : Json.JsonElement) : Z :=
  match root with
  | Json.JObject _ [firstProperty] =>
      TokenCount (Json.PropertyName firstProperty)
  | _ => 0
  end.

(** The documents behind [{"results": [1,2,3]}]. *)
Definition results_array : Json.JsonElement :=
  Json.JArray "[1,2,3]"
              [Json.JNumber "1"; Json.JNumber "2"; Json.JNumber "3"].

Definition results_document : Json.JsonElement :=
  Json.JObject Examples.results_json
    [(Str.QUOTE ++ "results" ++ Str.QUOTE ++ ": [1,2,3]", "results",
      results_array)].

(** The two debug messages of [TryExtractJsonFromOpenApiPlanResult]. *)
Definition not_openapi_message : string :=
  "Unable to extract JSON from planner response, it is likely not from an OpenAPI skill.".

Definition already_json_message : string :=
  "Unable to extract JSON from planner response, it may already be proper JSON.".

(** The line that lists the steps of a plan. *)
Definition functions_used_line (plan : Plan) : string :=
  "FUNCTIONS EXECUTED: " ++ Str.Join "; " (GetPlanSteps plan) ++ ".".

(** The block an executed plan is reported in. *)
Definition related_block (functionsUsed planResult : string) : string :=
  PromptPreamble ++ Str.LF ++ functionsUsed ++ Str.LF
  ++ ResultHeader ++ planResult ++ Str.LF ++ PromptPostamble ++ Str.LF.

(** The limit left for the result of a plan, out of the parsed limit. *)
Definition result_budget {host : Host} (parsed : Z) (plan : Plan) : Z :=
  Int32.sub
    (Int32.sub
       (Int32.sub
          (Int32.sub parsed (TokenCount PromptPreamble))
          (TokenCount PromptPostamble))
       (TokenCount (functions_used_line plan)))
    (TokenCount ResultHeader).

(** Events of the planner, as opposed to those of running a plan. *)
Definition is_planner_event (ev : Event) : bool :=
  match ev with
  | CreatePlanCalled _ | RetryLogged _ => true
  | _ => false
  end.

Definition is_PlanInvoked (ev : Event) : bool :=
  match ev with PlanInvoked _ => true | _ => false end.

(** The text the optimizer works on. *)
Definition cleaned (jsonContent : string) : string :=
  Str.RemoveLineBreaks (Str.Trim jsonContent).

(** The first character, if any, is no white space. *)
Definition starts_clean (s : string) : bool :=
  match s with
  | String c _ => negb (Str.IsWhiteSpace c)
  | EmptyString => true
  end.

(** What lines 105-110 subtract from the parsed limit. *)
Definition block_overhead {host : Host} (plan : Plan) : Z :=
  TokenCount PromptPreamble + TokenCount PromptPostamble
  + TokenCount (functions_used_line plan) + TokenCount ResultHeader.

Definition is_array_type (t : SkillResponseType) : bool :=
  match t with
  | typeof_PullRequest_array | typeof_IssueResponse_array => true
  | _ => false
  end.

(* ------------------------------------------------------------------ *)
(** ** Properties *)

Unset Implicit Arguments.

(** *** 32-bit arithmetic *)

Lemma wrap_exact (z : Z) : Int32.in_range z -> Int32.wrap z = z.
Proof.
  unfold Int32.in_range, Int32.MinValue, Int32.MaxValue, Int32.wrap.
  intros H. rewrite Z.mod_small; lia.
Qed.

Lemma wrap_in_range (z : Z) : Int32.in_range (Int32.wrap z).
Proof.
  unfold Int32.in_range, Int32.MinValue, Int32.MaxValue, Int32.wrap.
  pose proof (Z.mod_pos_bound (z + 2 ^ 31) (2 ^ 32) ltac:(lia)). lia.
Qed.

Lemma sub_exact (a b : Z) :
  Int32.in_range (a - b) -> Int32.sub a b = a - b.
Proof. apply wrap_exact. Qed.

(** *** The retry policy *)

(** Outside the planning-exception case the assignment puts back the value
    the variable had before the decrement. *)
Lemma assign_retriesAvail_other (e : Exception) (retriesAvail : Z) :
  is_PlanningException e = false ->
  assign_retriesAvail e retriesAvail = retriesAvail.
Proof. unfold assign_retriesAvail. intros ->. reflexivity. Qed.

Lemma assign_retriesAvail_planning (e : Exception) (retriesAvail : Z) :
  is_PlanningException e = true ->
  assign_retriesAvail e retriesAvail = 0.
Proof. unfold assign_retriesAvail. intros ->. reflexivity. Qed.

Lemma IsRetriableError_missing_function planner o e :
  Planner_PlannerOptions planner = Some o ->
  missing_function_error e ->
  IsRetriableError planner e = Ok (AllowRetries (MissingFunctionError o)).
Proof.
  unfold missing_function_error, IsRetriableError, is_PlanningException,
    is_KernelException, as_KernelException.
  intros Ho He. rewrite He, Ho. cbn.
  destruct (AllowRetries (MissingFunctionError o)); reflexivity.
Qed.

Lemma IsRetriableError_invalid_plan planner o e :
  Planner_PlannerOptions planner = Some o ->
  invalid_plan_error e ->
  IsRetriableError planner e = Ok (AllowRetriesOnInvalidPlan o).
Proof.
  unfold invalid_plan_error, IsRetriableError, is_PlanningException,
    is_KernelException, as_KernelException.
  intros Ho (c & He & Hc).
  cbn [as_PlanningException]. rewrite He, Ho.
  destruct Hc as [-> | Hin].
  - cbn. destruct (AllowRetriesOnInvalidPlan o); reflexivity.
  - rewrite Hin. cbn.
    destruct (is_InvalidPlan c); cbn;
      destruct (AllowRetriesOnInvalidPlan o); reflexivity.
Qed.

Lemma invalid_plan_is_planning e :
  invalid_plan_error e -> is_PlanningException e = true.
Proof.
  intros (c & He & _). unfold is_PlanningException. now rewrite He.
Qed.

Lemma missing_function_not_planning e :
  missing_function_error e -> is_PlanningException e = false.
Proof.
  unfold missing_function_error, is_PlanningException. now intros ->.
Qed.

(** With no budget left nothing is retried. *)
Lemma CreatePlanLoop_no_budget planner fuel goal call retriesAvail :
  retriesAvail <= 0 ->
  Loop_Retried (CreatePlanLoop planner fuel goal call retriesAvail) = [].
Proof.
  intros Hr. revert call.
  induction fuel as [|fuel IH]; intros call; cbn [CreatePlanLoop].
  - reflexivity.
  - destruct (CreatePlanAsync planner call goal) as [[plan|]|e]; cbn.
    + reflexivity.
    + apply IH.
    + destruct (filter_accepts planner e); [|reflexivity].
      destruct (retriesAvail >? 0) eqn:Hgt; [lia|reflexivity].
Qed.

(** With missing-function retries allowed and a planner that answers every
    call with a missing-function error, no retry lowers [retriesAvail]. *)
Lemma CreatePlanLoop_missing_function planner o goal fuel call retriesAvail :
  Planner_PlannerOptions planner = Some o ->
  AllowRetries (MissingFunctionError o) = true ->
  (forall n, exists e, CreatePlanAsync planner n goal = Throw e
                       /\ missing_function_error e) ->
  retriesAvail > 0 ->
  Loop_Outcome (CreatePlanLoop planner fuel goal call retriesAvail)
  = StillLooping
  /\ Loop_retriesAvail (CreatePlanLoop planner fuel goal call retriesAvail)
     = retriesAvail
  /\ List.length
       (Loop_Retried (CreatePlanLoop planner fuel goal call retriesAvail))
     = fuel.
Proof.
  intros Ho Hallow Hscript Hpos. revert call.
  induction fuel as [|fuel IH]; intros call; cbn [CreatePlanLoop].
  - repeat split.
  - destruct (Hscript call) as (e & Hcall & He). rewrite Hcall.
    unfold filter_accepts.
    rewrite (IsRetriableError_missing_function _ _ _ Ho He), Hallow.
    destruct (retriesAvail >? 0) eqn:Hgt; [|lia].
    rewrite (assign_retriesAvail_other _ _ (missing_function_not_planning _ He)).
    destruct (IH (S call)) as (H1 & H2 & H3).
    cbn. repeat split; auto.
Qed.

(** C1, as the code behaves.  With [MissingFunctionError] set to
    [AllowRetries = true], [MaxRetriesAllowed = 2] and a planner that
    answers every call with a missing-function error, the propose branch
    never returns and never raises: however many iterations are followed,
    every one of them was a retry, [retriesAvail] is still 2, and the
    [ProposedPlan] property is untouched.  The third error is not
    propagated. *)
Theorem missing_function_retries_never_end :
  forall (host : Host) planner o,
    Planner_PlannerOptions planner = Some o ->
    AllowRetries (MissingFunctionError o) = true ->
    MaxRetriesAllowed (MissingFunctionError o) = 2 ->
    (forall n goal, exists e, CreatePlanAsync planner n goal = Throw e
                              /\ missing_function_error e) ->
    forall fuel before userIntent context,
      let loop := CreatePlanLoop planner fuel
                                 (planner_goal context userIntent) 0
                                 (initial_retriesAvail o) in
      Returned (ProposeBranch planner fuel before userIntent context) = None
      /\ ProposedPlan_after
           (ProposeBranch planner fuel before userIntent context)
         = before
      /\ Loop_retriesAvail loop = 2
      /\ List.length (Loop_Retried loop) = fuel.
Proof.
  intros host planner o Ho Hallow Hmax Hscript fuel before userIntent context.
  assert (Hbudget : initial_retriesAvail o = 2)
    by (unfold initial_retriesAvail; now rewrite Hallow).
  cbv zeta. rewrite Hbudget.
  destruct (CreatePlanLoop_missing_function planner o
              (planner_goal context userIntent) fuel 0 2 Ho Hallow
              (fun n => Hscript n _) ltac:(lia)) as (H1 & H2 & H3).
  unfold ProposeBranch, effective_options. rewrite Ho, Hbudget, H1.
  repeat split; assumption.
Qed.

(** The call of C1, followed for five iterations: no result yet, five
    retries, and a budget of 2. *)
Lemma missing_function_retries_never_end_witness :
  let planner :=
    Examples.planner (Some (Examples.options Action true true 2))
                     (Examples.always Examples.missing_function) "" in
  Returned (@ProposeBranch Demo.host planner 5 None "find cats" Examples.ask)
  = None
  /\ List.length
       (Loop_Retried
          (CreatePlanLoop planner 5
                          (planner_goal Examples.ask "find cats") 0 2))
     = 5%nat.
Proof.
  intros planner.
  destruct (missing_function_retries_never_end Demo.host planner
              (Examples.options Action true true 2) eq_refl eq_refl eq_refl
              (fun _ _ => ex_intro _ Examples.missing_function
                            (conj eq_refl eq_refl))
              5%nat None "find cats" Examples.ask) as (H1 & _ & _ & H4).
  split; [exact H1 | exact H4].
Defined.

(** A planning exception that is retried takes the whole budget, so it is
    the last retry of the call. *)
Lemma planning_errors_retried_at_most_once planner fuel goal call retriesAvail :
  (planning_retries
     (Loop_Retried (CreatePlanLoop planner fuel goal call retriesAvail))
   <= 1)%nat.
Proof.
  revert call retriesAvail.
  induction fuel as [|fuel IH]; intros call retriesAvail;
    cbn [CreatePlanLoop].
  - cbn. lia.
  - destruct (CreatePlanAsync planner call goal) as [[plan|]|e]; cbn.
    + lia.
    + apply IH.
    + destruct (filter_accepts planner e); [|cbn; lia].
      destruct (retriesAvail >? 0); [|cbn; lia].
      unfold planning_retries in *. cbn.
      destruct (is_PlanningException e) eqn:He.
      * rewrite (assign_retriesAvail_planning _ _ He).
        rewrite CreatePlanLoop_no_budget by lia. cbn. lia.
      * apply IH.
Qed.

(** Once the loop has ended, following more iterations changes nothing. *)
Lemma CreatePlanLoop_more_fuel planner fuel extra goal call retriesAvail :
  Loop_Outcome (CreatePlanLoop planner fuel goal call retriesAvail)
    <> StillLooping ->
  CreatePlanLoop planner (fuel + extra) goal call retriesAvail
  = CreatePlanLoop planner fuel goal call retriesAvail.
Proof.
  revert call retriesAvail.
  induction fuel as [|fuel IH]; intros call retriesAvail;
    cbn [CreatePlanLoop Nat.add].
  - cbn. congruence.
  - destruct (CreatePlanAsync planner call goal) as [[plan|]|e]; cbn.
    + reflexivity.
    + intros H. now rewrite IH.
    + destruct (filter_accepts planner e); [|reflexivity].
      destruct (retriesAvail >? 0); [|reflexivity].
      cbn. intros H. now rewrite IH.
Qed.

(** C3.  With configured options that allow retries on invalid plans (and
    a retry budget of at least one, as the options class guarantees for
    [MaxRetriesAllowed]), planning exceptions are retried at most once in a
    call, whatever the planner answers and whatever budget is left; and
    when the first two attempts raise invalid-plan errors, the second one
    reaches the caller after exactly one retry, the [ProposedPlan] property
    being left as it was. *)
Theorem invalid_plan_error_is_retried_once :
  forall (host : Host) planner o,
    Planner_PlannerOptions planner = Some o ->
    AllowRetriesOnInvalidPlan o = true ->
    (AllowRetries (MissingFunctionError o) = true ->
     1 <= MaxRetriesAllowed (MissingFunctionError o)) ->
    (forall fuel goal call retriesAvail,
        (planning_retries
           (Loop_Retried (CreatePlanLoop planner fuel goal call retriesAvail))
         <= 1)%nat)
    /\ (forall fuel before userIntent context e1 e2,
           let goal := planner_goal context userIntent in
           CreatePlanAsync planner 0 goal = Throw e1 ->
           invalid_plan_error e1 ->
           CreatePlanAsync planner 1 goal = Throw e2 ->
           invalid_plan_error e2 ->
           let run := ProposeBranch planner (2 + fuel) before userIntent
                                    context in
           Returned run = Some (Throw e2)
           /\ ProposedPlan_after run = before
           /\ Events run
              = [CreatePlanCalled goal;
                 RetryLogged ("Retrying CreatePlan on error: " ++ Message e1);
                 CreatePlanCalled goal]
           /\ Loop_Retried
                (CreatePlanLoop planner (2 + fuel) goal 0
                                (initial_retriesAvail o))
              = [e1]).
Proof.
  intros host planner o Ho Hallow Hvalid. split.
  - intros. apply planning_errors_retried_at_most_once.
  - intros fuel before userIntent context e1 e2 goal H1 He1 H2 He2.
    assert (Hbudget : (initial_retriesAvail o >? 0) = true).
    { unfold initial_retriesAvail. rewrite Hallow.
      destruct (AllowRetries (MissingFunctionError o)); [|reflexivity].
      specialize (Hvalid eq_refl). apply Z.gtb_lt. lia. }
    assert (Hloop :
              CreatePlanLoop planner (2 + fuel) goal 0 (initial_retriesAvail o)
              = logged (CreatePlanCalled goal)
                  (retried e1
                     (logged (CreatePlanCalled goal) (stop (Propagated e2) 0)))).
    { cbn [CreatePlanLoop Nat.add]. rewrite H1. unfold filter_accepts.
      rewrite (IsRetriableError_invalid_plan _ _ _ Ho He1), Hallow, Hbudget.
      rewrite (assign_retriesAvail_planning _ _ (invalid_plan_is_planning _ He1)).
      rewrite H2.
      rewrite (IsRetriableError_invalid_plan _ _ _ Ho He2), Hallow.
      reflexivity. }
    unfold ProposeBranch, effective_options. rewrite Ho.
    fold goal. rewrite Hloop. cbn. repeat split; reflexivity.
Qed.

(** Two invalid-plan errors in a row, with a missing-function budget of
    five still available: one retry, then the error is raised. *)
Lemma invalid_plan_error_is_retried_once_witness :
  let planner :=
    Examples.planner (Some (Examples.options Action true true 5))
                     (Examples.always Examples.invalid_plan) "" in
  let run := @ProposeBranch Demo.host planner 2 None "find cats"
                            Examples.ask in
  Returned run = Some (Throw Examples.invalid_plan)
  /\ ProposedPlan_after run = None
  /\ List.length (Events run) = 3%nat.
Proof.
  intros planner.
  destruct (invalid_plan_error_is_retried_once Demo.host planner
              (Examples.options Action true true 5) eq_refl eq_refl
              (fun _ => ltac:(cbn; lia))) as [_ H].
  destruct (H 0%nat None "find cats" Examples.ask
              Examples.invalid_plan Examples.invalid_plan
              eq_refl
              (ex_intro _ InvalidPlan (conj eq_refl (or_introl eq_refl)))
              eq_refl
              (ex_intro _ InvalidPlan (conj eq_refl (or_introl eq_refl))))
    as (H1 & H2 & H3 & _).
  split; [exact H1 | split; [exact H2 |]].
  exact (f_equal (@List.length Event) H3).
Defined.

(** *** Error classification *)

(** C4.  [IsRetriableError] throws a null-reference exception, instead of
    returning [false], on every planning exception whose own code is not
    [InvalidPlan] and whose inner exception is null or not a planning
    exception; and on every error of a retriable shape when the planner has
    no [PlannerOptions]. *)
Theorem IsRetriableError_dereferences_null :
  forall planner e,
    ((exists c, Class e = PlanningException c /\ c <> InvalidPlan) ->
     as_PlanningException (InnerException e) = None ->
     IsRetriableError planner e = Throw NullReference)
    /\ (retriable_shaped e ->
        Planner_PlannerOptions planner = None ->
        IsRetriableError planner e = Throw NullReference).
Proof.
  intros planner e. split.
  - intros (c & He & Hc) Hinner.
    unfold IsRetriableError, is_PlanningException.
    cbn [as_PlanningException]. rewrite He, Hinner.
    destruct c; try congruence; reflexivity.
  - intros [He | (c & He & Hc)] Hnone.
    + unfold missing_function_error in He.
      unfold IsRetriableError, is_PlanningException, is_KernelException.
      cbn [as_PlanningException as_KernelException].
      rewrite He, Hnone. reflexivity.
    + unfold IsRetriableError, is_PlanningException.
      cbn [as_PlanningException]. rewrite He, Hnone.
      destruct Hc as [-> | Hin].
      * reflexivity.
      * rewrite Hin. destruct c; reflexivity.
Qed.

(** A planning exception with the code [InvalidGoal] and no inner
    exception; and a missing-function error under a planner without
    options. *)
Lemma IsRetriableError_dereferences_null_witness :
  IsRetriableError
    (Examples.planner (Some (Examples.options Action true true 2))
                      (Examples.always Examples.invalid_goal) "")
    Examples.invalid_goal
  = Throw NullReference
  /\ IsRetriableError
       (Examples.planner None (Examples.always Examples.missing_function) "")
       Examples.missing_function
     = Throw NullReference.
Proof.
  split.
  - apply (proj1 (IsRetriableError_dereferences_null _ Examples.invalid_goal)).
    + exists InvalidGoal. split; [reflexivity | discriminate].
    + reflexivity.
  - apply (proj2 (IsRetriableError_dereferences_null _
                    Examples.missing_function)).
    + left. reflexivity.
    + reflexivity.
Defined.

(** *** The fast path and the proposed-plan slot *)

(** C10.  When the kernel exposes neither native nor semantic functions,
    the call returns the empty string at once: no call to the planner, no
    plan run, no optimizer call, and the [ProposedPlan] property is left as
    it was. *)
Theorem no_functions_returns_empty :
  forall (host : Host) planner fuel before userIntent context,
    NativeFunctions (Kernel_GetFunctionsView planner) = [] ->
    SemanticFunctions (Kernel_GetFunctionsView planner) = [] ->
    AcquireExternalInformationAsync planner fuel before userIntent context
    = {| Returned := Some (Ok EmptyString);
         ProposedPlan_after := before;
         Events := [] |}.
Proof.
  intros host planner fuel before userIntent context Hn Hs.
  unfold AcquireExternalInformationAsync. rewrite Hn, Hs. reflexivity.
Qed.

Lemma no_functions_returns_empty_witness :
  @AcquireExternalInformationAsync Demo.host
    (Examples.bare_planner (fun _ => Ok (Some Examples.search_plan)))
    3 None "find cats" Examples.ask
  = {| Returned := Some (Ok EmptyString);
       ProposedPlan_after := None;
       Events := [] |}.
Proof.
  apply (no_functions_returns_empty Demo.host); reflexivity.
Defined.

(** C2, as the code behaves.  When the [proposedPlan] variable is absent,
    empty or white space (that of [char.IsWhiteSpace], the no-break space
    and the next-line character included), nothing is deserialized and the
    call is the propose branch; when it holds other text that the
    deserializer refuses,
    the deserializer's exception leaves the call, before the planner is
    asked for anything. *)
Theorem blank_plan_takes_propose_branch :
  forall (host : Host) planner fuel before userIntent context,
    has_functions planner ->
    (Str.IsNullOrWhiteSpace (Variables.TryGetValue context "proposedPlan")
     = true ->
     AcquireExternalInformationAsync planner fuel before userIntent context
     = ProposeBranch planner fuel before userIntent context)
    /\ (forall json e,
           Variables.TryGetValue context "proposedPlan" = Some json ->
           Str.IsNullOrWhiteSpace (Some json) = false ->
           Deserialize_ProposedPlan json = Throw e ->
           AcquireExternalInformationAsync planner fuel before userIntent
                                           context
           = {| Returned := Some (Throw e);
                ProposedPlan_after := before;
                Events := [] |}).
Proof.
  intros host planner fuel before userIntent context Hf.
  unfold has_functions in Hf. split.
  - intros Hblank.
    unfold AcquireExternalInformationAsync, read_proposedPlan.
    rewrite Hf, Hblank.
    destruct (Variables.TryGetValue context "proposedPlan"); reflexivity.
  - intros json e Hget Hblank Hthrow.
    unfold AcquireExternalInformationAsync, read_proposedPlan.
    rewrite Hf, Hget, Hblank, Hthrow. reflexivity.
Qed.

(** A slot of two spaces, a slot of a no-break space, a next-line
    character and a space, and a slot that holds text which is no JSON. *)
Lemma blank_plan_takes_propose_branch_witness :
  let planner :=
    Examples.planner None (fun _ => Ok (Some Examples.search_plan)) "" in
  @AcquireExternalInformationAsync Demo.host planner 1 None "find cats"
    (("proposedPlan", "  ") :: Examples.ask)
  = @ProposeBranch Demo.host planner 1 None "find cats"
      (("proposedPlan", "  ") :: Examples.ask)
  /\ @AcquireExternalInformationAsync Demo.host planner 1 None "find cats"
       (("proposedPlan", Examples.unicode_blank) :: Examples.ask)
     = @ProposeBranch Demo.host planner 1 None "find cats"
         (("proposedPlan", Examples.unicode_blank) :: Examples.ask)
  /\ @AcquireExternalInformationAsync Demo.host planner 1 None "find cats"
       (("proposedPlan", "no plan") :: Examples.ask)
     = {| Returned := Some (Throw Json.JsonError);
          ProposedPlan_after := None;
          Events := [] |}.
Proof.
  intros planner. split; [|split].
  - apply (proj1 (blank_plan_takes_propose_branch Demo.host planner 1 None
                    "find cats" (("proposedPlan", "  ") :: Examples.ask)
                    eq_refl)).
    reflexivity.
  - apply (proj1 (blank_plan_takes_propose_branch Demo.host planner 1 None
                    "find cats"
                    (("proposedPlan", Examples.unicode_blank) :: Examples.ask)
                    eq_refl)).
    reflexivity.
  - apply (proj2 (blank_plan_takes_propose_branch Demo.host planner 1 None
                    "find cats" (("proposedPlan", "no plan") :: Examples.ask)
                    eq_refl) "no plan" Json.JsonError);
      reflexivity.
Defined.

(** C2 as stated fails: the text [not json] does not deserialize, and the
    call raises the deserializer's exception instead of taking the propose
    branch (which, with this planner, would store a plan and return the
    empty string). *)
Lemma malformed_plan_raises :
  let planner :=
    Examples.planner None (fun _ => Ok (Some Examples.search_plan)) "" in
  let context := ("proposedPlan", "not json") :: Examples.ask in
  @Deserialize_ProposedPlan Demo.host "not json" = Throw Json.JsonError
  /\ Returned (@AcquireExternalInformationAsync Demo.host planner 1 None
                 "find cats" context)
     = Some (Throw Json.JsonError)
  /\ Returned (@ProposeBranch Demo.host planner 1 None "find cats" context)
     = Some (Ok EmptyString).
Proof. repeat split. Qed.

(** C9.  When the loop ends with a plan that has no steps, the propose
    branch returns the empty string and leaves the [ProposedPlan] property
    as it was; and whatever a call does, a [ProposedPlan] it stores wraps a
    plan with at least one step. *)
Theorem zero_step_plan_is_not_stored :
  forall (host : Host) planner fuel before userIntent context,
    (forall plan,
        Loop_Outcome
          (CreatePlanLoop planner fuel (planner_goal context userIntent) 0
                          (initial_retriesAvail (effective_options planner)))
        = PlanCreated plan ->
        Steps plan = [] ->
        Returned (ProposeBranch planner fuel before userIntent context)
        = Some (Ok EmptyString)
        /\ ProposedPlan_after
             (ProposeBranch planner fuel before userIntent context)
           = before)
    /\ (forall stored,
           ProposedPlan_after
             (AcquireExternalInformationAsync planner fuel before userIntent
                                              context)
           = Some stored ->
           before = Some stored
           \/ Steps (ProposedPlan_Plan stored) <> []).
Proof.
  intros host planner fuel before userIntent context. split.
  - intros plan Hloop Hsteps. unfold ProposeBranch.
    rewrite Hloop, Hsteps. cbn. split; reflexivity.
  - intros stored.
    assert (Hpropose :
              ProposedPlan_after
                (ProposeBranch planner fuel before userIntent context)
              = Some stored ->
              before = Some stored \/ Steps (ProposedPlan_Plan stored) <> []).
    { unfold ProposeBranch.
      destruct (Loop_Outcome _) as [plan| |]; cbn; auto.
      destruct (Count (Steps plan) >? 0) eqn:Hcount; cbn; auto.
      intros [= <-]. right. cbn.
      unfold merge_into_plan, with_Parameters, with_Steps.
      destruct (PlanType_eqb _ _); cbn;
        destruct (Steps plan); cbn in *; congruence. }
    unfold AcquireExternalInformationAsync.
    destruct (_ && _); [cbn; auto|].
    destruct (read_proposedPlan context) as [[approved|]|e];
      [| exact Hpropose | cbn; auto].
    unfold is_Approved.
    destruct (PlanState_eqb _ _); [|exact Hpropose].
    destruct (ExecuteBranch planner context approved) as [result events].
    cbn. auto.
Qed.

Lemma zero_step_plan_is_not_stored_witness :
  let planner :=
    Examples.planner None (fun _ => Ok (Some Examples.empty_plan)) "" in
  Returned (@ProposeBranch Demo.host planner 1 None "find cats" Examples.ask)
  = Some (Ok EmptyString)
  /\ ProposedPlan_after
       (@ProposeBranch Demo.host planner 1 None "find cats" Examples.ask)
     = None.
Proof.
  intros planner.
  apply (proj1 (zero_step_plan_is_not_stored Demo.host planner 1 None
                  "find cats" Examples.ask) Examples.empty_plan);
    reflexivity.
Defined.

(** *** Merging the context into the plan *)

Lemma EqualsIgnoreCase_refl (s : string) : Str.EqualsIgnoreCase s s = true.
Proof.
  induction s as [|c s IH]; cbn; [reflexivity|].
  now rewrite Ascii.eqb_refl, IH.
Qed.

Lemma distinct_keys_middle (done todo : ContextVariables) k v :
  Variables.distinct_keys (done ++ (k, v) :: todo)%list = true ->
  forall kv, In kv done -> Str.EqualsIgnoreCase (fst kv) k = false.
Proof.
  induction done as [|[k1 v1] done IH]; cbn; intros H kv Hin; [easy|].
  apply andb_true_iff in H as [Hhead Htail].
  destruct Hin as [<- | Hin].
  - cbn. apply negb_true_iff in Hhead.
    rewrite existsb_app in Hhead. apply orb_false_iff in Hhead as [_ Hhead].
    cbn in Hhead. now apply orb_false_iff in Hhead as [Hhead _].
  - now apply IH.
Qed.

(** [Set] on a key that occurs once replaces the value in place. *)
Lemma Set_in_place (pre post : ContextVariables) k v value :
  (forall kv, In kv pre -> Str.EqualsIgnoreCase (fst kv) k = false) ->
  Variables.Set_ (pre ++ (k, v) :: post)%list k value
  = (pre ++ (k, value) :: post)%list.
Proof.
  induction pre as [|[k1 v1] pre IH]; cbn; intros H.
  - now rewrite EqualsIgnoreCase_refl.
  - pose proof (H (k1, v1) (or_introl eq_refl)) as Hk. cbn in Hk.
    rewrite Hk. f_equal. apply IH. intros kv Hin. apply H. now right.
Qed.

Lemma merged_keys variables planParams :
  Variables.Keys (merged variables planParams) = Variables.Keys planParams.
Proof.
  unfold Variables.Keys, merged. rewrite map_map. reflexivity.
Qed.

Lemma MergeContextIntoPlan_from variables (done todo : ContextVariables) :
  Variables.distinct_keys (done ++ todo)%list = true ->
  fold_left
    (fun (planParams : ContextVariables) (param : string * string) =>
       if Str.EqualsIgnoreCase (fst param) "INPUT" then planParams
       else
         match Variables.TryGetValue variables (fst param) with
         | Some value => Variables.Set_ planParams (fst param) value
         | None => planParams
         end)
    todo (merged variables done ++ todo)%list
  = merged variables (done ++ todo)%list.
Proof.
  revert done.
  induction todo as [|[k v] todo IH]; intros done Hdistinct.
  - cbn. now rewrite !app_nil_r.
  - cbn [fold_left fst].
    assert (Hnext :
              (done ++ (k, v) :: todo = (done ++ [(k, v)]) ++ todo)%list)
      by now rewrite <- app_assoc.
    assert (Hstep :
              (merged variables done ++ (k, merged_value variables (k, v)) :: todo
               = merged variables (done ++ [(k, v)]) ++ todo)%list).
    { unfold merged. rewrite map_app, <- app_assoc. reflexivity. }
    assert (Hpre : forall kv, In kv (merged variables done) ->
                              Str.EqualsIgnoreCase (fst kv) k = false).
    { intros kv Hin. unfold merged in Hin. apply in_map_iff in Hin.
      destruct Hin as (kv0 & <- & Hin0). cbn.
      exact (distinct_keys_middle _ _ _ _ Hdistinct kv0 Hin0). }
    rewrite Hnext in Hdistinct |- *.
    rewrite <- (IH _ Hdistinct), <- Hstep.
    unfold merged_value. cbn [fst snd].
    destruct (Str.EqualsIgnoreCase k "INPUT"); [reflexivity|].
    destruct (Variables.TryGetValue variables k) as [value|];
      [|reflexivity].
    now rewrite Set_in_place.
Qed.

(** On a dictionary the merge keeps every declared parameter, in place,
    with its merged value. *)
Lemma MergeContextIntoPlan_merged variables planParams :
  Variables.distinct_keys planParams = true ->
  MergeContextIntoPlan variables planParams = merged variables planParams.
Proof.
  intros H. exact (MergeContextIntoPlan_from variables [] planParams H).
Qed.

(** C7.  When the loop ends with a plan that has steps, the propose branch
    stores it with the state [NoOp] and the configured type, after the
    merge: for [Action] the parameters of the plan itself, for [Sequential]
    the parameters of every step, are the declared parameters in their
    order, where a parameter other than [INPUT] (in any case) that names a
    context variable has the value of that variable, and every other
    parameter has kept its value.  No parameter is added or removed. *)
Theorem context_is_merged_into_declared_parameters :
  forall (host : Host) planner fuel before userIntent context plan,
    Loop_Outcome
      (CreatePlanLoop planner fuel (planner_goal context userIntent) 0
                      (initial_retriesAvail (effective_options planner)))
    = PlanCreated plan ->
    Steps plan <> [] ->
    Variables.distinct_keys (Parameters plan) = true ->
    (forall step, In step (Steps plan) ->
                  Variables.distinct_keys (Parameters step) = true) ->
    ProposedPlan_after (ProposeBranch planner fuel before userIntent context)
    = Some
        (mkProposedPlan
           match PlannerType (effective_options planner) with
           | Action =>
               with_Parameters plan (merged context (Parameters plan))
           | Sequential =>
               with_Steps plan
                 (map (fun step =>
                         with_Parameters step
                           (merged context (Parameters step)))
                      (Steps plan))
           end
           (PlannerType (effective_options planner)) NoOp)
    /\ Variables.Keys (merged context (Parameters plan))
       = Variables.Keys (Parameters plan)
    /\ (forall step, Variables.Keys (merged context (Parameters step))
                     = Variables.Keys (Parameters step)).
Proof.
  intros host planner fuel before userIntent context plan
         Hloop Hsteps Hplan Hstep.
  split; [|split; [apply merged_keys | intros; apply merged_keys]].
  unfold ProposeBranch. rewrite Hloop.
  assert (Hcount : (Count (Steps plan) >? 0) = true).
  { unfold Count. destruct (Steps plan); [congruence|]. reflexivity. }
  rewrite Hcount. cbn [ProposedPlan_after]. do 2 f_equal.
  unfold merge_into_plan.
  destruct (PlannerType (effective_options planner)); cbn [PlanType_eqb].
  - now rewrite MergeContextIntoPlan_merged.
  - f_equal. apply map_ext_in. intros step Hin.
    now rewrite MergeContextIntoPlan_merged by auto.
Qed.

(** The plan declares [INPUT], [query] and [count], its step [INPUT],
    [Query] and [limit]; the context holds [INPUT], [userIntent] and
    [query].  Under [Action] only [query] of the plan changes; under
    [Sequential] only [Query] of the step does. *)
Lemma context_is_merged_into_declared_parameters_witness :
  let script := fun _ : nat => Ok (Some Examples.search_plan) in
  ProposedPlan_after
    (@ProposeBranch Demo.host (Examples.planner None script "")
                    1 None "find cats" Examples.ask)
  = Some (mkProposedPlan
            (mkPlan "" "" [("INPUT", ""); ("query", "cats"); ("count", "5")]
                    [Examples.search_step])
            Action NoOp)
  /\ ProposedPlan_after
       (@ProposeBranch Demo.host
          (Examples.planner (Some (Examples.options Sequential true true 2))
                            script "")
          1 None "find cats" Examples.ask)
     = Some (mkProposedPlan
               (mkPlan "" "" [("INPUT", ""); ("query", "dogs"); ("count", "5")]
                       [mkPlan "WebSearch" "Search"
                               [("INPUT", "kittens"); ("Query", "cats");
                                ("limit", "3")] []])
               Sequential NoOp).
Proof.
  intros script. split.
  - refine (proj1 (context_is_merged_into_declared_parameters Demo.host
                     (Examples.planner None script "")
                     1 None "find cats" Examples.ask Examples.search_plan
                     eq_refl _ eq_refl _)).
    + discriminate.
    + intros step [<- | []]. reflexivity.
  - refine (proj1 (context_is_merged_into_declared_parameters Demo.host
                     (Examples.planner
                        (Some (Examples.options Sequential true true 2))
                        script "")
                     1 None "find cats" Examples.ask Examples.search_plan
                     eq_refl _ eq_refl _)).
    + discriminate.
    + intros step [<- | []]. reflexivity.
Defined.

(** *** The optimizer *)

Lemma remaining_app {host : Host} tokenLimit (pre post : list Item) :
  remaining tokenLimit (pre ++ post)%list
  = remaining (remaining tokenLimit pre) post.
Proof. unfold remaining. apply fold_left_app. Qed.

(** One loop: the items added are a prefix of the input, each of them fit
    at its turn, and the first item left out did not. *)
Lemma Truncate_greedy {host : Host} {A : Type} (cost : A -> Z)
      (box : A -> Item) :
  (forall x, Item_cost (box x) = cost x) ->
  forall xs tokenLimit itemList,
  exists taken rest,
    xs = (taken ++ rest)%list
    /\ Truncate cost box xs tokenLimit itemList
       = (remaining tokenLimit (map box taken),
          (itemList ++ map box taken)%list)
    /\ (forall pre x post,
           taken = (pre ++ x :: post)%list ->
           Int32.sub (remaining tokenLimit (map box pre)) (cost x) > 0)
    /\ (forall x rest', rest = x :: rest' ->
           Int32.sub (remaining tokenLimit (map box taken)) (cost x) <= 0).
Proof.
  intros Hcost xs.
  induction xs as [|x xs IH]; intros tokenLimit itemList.
  - exists [], []. cbn. rewrite app_nil_r. repeat split.
    + intros pre x post H. destruct pre; discriminate.
    + discriminate.
  - cbn [Truncate].
    destruct (Int32.sub tokenLimit (cost x) >? 0) eqn:Hfit.
    + destruct (IH (Int32.sub tokenLimit (cost x)) (itemList ++ [box x])%list)
        as (taken & rest & -> & Heq & Htaken & Hrest).
      exists (x :: taken), rest.
      assert (Hrem : forall l,
                 remaining tokenLimit (map box (x :: l))
                 = remaining (Int32.sub tokenLimit (cost x)) (map box l)).
      { intros l. cbn. now rewrite Hcost. }
      repeat split.
      * rewrite Heq, Hrem, <- app_assoc. reflexivity.
      * intros pre y post Hsplit. destruct pre as [|p pre].
        -- injection Hsplit as <- _. cbn. lia.
        -- injection Hsplit as <- Hsplit. rewrite Hrem.
           eapply Htaken; eauto.
      * intros y rest' ->. rewrite Hrem. eapply Hrest; eauto.
    + exists [], (x :: xs). cbn. rewrite app_nil_r. repeat split.
      * intros pre y post H. destruct pre; discriminate.
      * intros y rest' [= <- _]. lia.
Qed.

Lemma Optimize_truncate_items {host : Host} document tokenLimit :
  Optimize_truncate document tokenLimit
  = match document with
    | Json.JObject _ props =>
        Truncate property_cost PropertyItem props tokenLimit []
    | Json.JArray _ items =>
        Truncate item_cost ElementItem items tokenLimit []
    | _ => (tokenLimit, [])
    end.
Proof.
  unfold Optimize_truncate. destruct document; cbn; try reflexivity.
  now destruct (Truncate _ _ _ _ _).
Qed.

(** The whole function on a text that is not below the limit. *)
Lemma Optimize_over_budget {host : Host} planner jsonContent tokenLimit plan
      json document last limit' descriptor document' :
  Optimize_prepare jsonContent plan = Ok (json, document, last) ->
  (TokenCount json <? tokenLimit) = false ->
  Optimize_unwrap document tokenLimit = Ok (limit', descriptor, document') ->
  OptimizeOpenApiSkillJson planner jsonContent tokenLimit plan
  = Ok (Optimize_result planner descriptor
                        (snd (Optimize_truncate document' limit')) last).
Proof.
  intros Hprepare Hover Hunwrap. unfold OptimizeOpenApiSkillJson.
  rewrite Hprepare. cbn [bind]. rewrite Hover, Hunwrap. cbn [bind].
  now destruct (Optimize_truncate document' limit').
Qed.

(** The accumulation step on any document. *)
Lemma Optimize_truncate_greedy {host : Host} document tokenLimit :
  exists taken rest,
    document_items document = (taken ++ rest)%list
    /\ Optimize_truncate document tokenLimit
       = (remaining tokenLimit taken, taken)
    /\ (forall pre i post,
           taken = (pre ++ i :: post)%list ->
           Int32.sub (remaining tokenLimit pre) (Item_cost i) > 0)
    /\ (forall i rest', rest = i :: rest' ->
           Int32.sub (remaining tokenLimit taken) (Item_cost i) <= 0).
Proof.
  assert (Hgen : forall (A : Type) (cost : A -> Z) (box : A -> Item)
                        (xs : list A),
             (forall x, Item_cost (box x) = cost x) ->
             exists taken rest,
               map box xs = (taken ++ rest)%list
               /\ Truncate cost box xs tokenLimit []
                  = (remaining tokenLimit taken, taken)
               /\ (forall pre i post,
                      taken = (pre ++ i :: post)%list ->
                      Int32.sub (remaining tokenLimit pre) (Item_cost i) > 0)
               /\ (forall i rest', rest = i :: rest' ->
                      Int32.sub (remaining tokenLimit taken) (Item_cost i)
                      <= 0)).
  { intros A cost box xs Hcost.
    destruct (Truncate_greedy cost box Hcost xs tokenLimit [])
      as (taken & rest & -> & Heq & Htaken & Hrest).
    exists (map box taken), (map box rest). repeat split.
    - apply map_app.
    - exact Heq.
    - intros pre i post Hsplit.
      apply map_eq_app in Hsplit.
      destruct Hsplit as (pre0 & post0 & -> & <- & Hpost).
      destruct post0 as [|x post0]; [discriminate|].
      injection Hpost as <- _. rewrite Hcost. eapply Htaken; eauto.
    - intros i rest' Hsplit. destruct rest as [|x rest]; [discriminate|].
      injection Hsplit as <- _. rewrite Hcost. eapply Hrest; eauto. }
  rewrite Optimize_truncate_items.
  destruct document;
    try (exists [], []; cbn; repeat split;
         [intros pre i post H; destruct pre; discriminate | discriminate]).
  - apply (Hgen _ item_cost ElementItem). reflexivity.
  - apply (Hgen _ property_cost PropertyItem). reflexivity.
Qed.

Lemma Item_cost_range {host : Host} (i : Item) :
  0 <= Item_cost i <= Int32.MaxValue.
Proof. destruct i; apply TokenCount_range. Qed.

Lemma total_cost_nonneg {host : Host} (taken : list Item) :
  0 <= total_cost taken.
Proof.
  induction taken as [|i taken IH]; [cbn; lia|].
  change (0 <= Item_cost i + total_cost taken).
  pose proof (Item_cost_range i). lia.
Qed.

Lemma total_cost_app {host : Host} (pre post : list Item) :
  total_cost (pre ++ post)%list = total_cost pre + total_cost post.
Proof.
  induction pre as [|i pre IH]; [reflexivity|].
  change (Item_cost i + total_cost (pre ++ post)%list
          = Item_cost i + total_cost pre + total_cost post).
  lia.
Qed.

(** As long as the first subtraction stays above [int.MinValue], the limit
    left after a run of kept items is the exact difference, and it is
    positive once an item was kept. *)
Lemma remaining_exact {host : Host} tokenLimit (taken : list Item) :
  Int32.in_range tokenLimit ->
  (forall i, In i taken -> Int32.MinValue <= tokenLimit - Item_cost i) ->
  (forall pre i post,
      taken = (pre ++ i :: post)%list ->
      Int32.sub (remaining tokenLimit pre) (Item_cost i) > 0) ->
  remaining tokenLimit taken = tokenLimit - total_cost taken
  /\ (taken <> [] -> 0 < remaining tokenLimit taken).
Proof.
  intros Hrange.
  induction taken as [|x taken IH] using rev_ind; intros Hfirst Hkept.
  - cbn. split; [lia | congruence].
  - destruct IH as [Hexact Hpos].
    + intros i Hin. apply Hfirst, in_or_app. now left.
    + intros pre i post ->. apply (Hkept pre i (post ++ [x])%list).
      now rewrite <- app_assoc.
    + pose proof (Hkept taken x [] eq_refl) as Hx.
      pose proof (Item_cost_range x) as Hcost.
      pose proof (total_cost_nonneg taken) as Htotal.
      assert (Hmin : Int32.MinValue <= tokenLimit - Item_cost x)
        by (apply Hfirst, in_or_app; right; now left).
      rewrite remaining_app, total_cost_app.
      change (remaining (remaining tokenLimit taken) [x])
        with (Int32.sub (remaining tokenLimit taken) (Item_cost x)).
      change (total_cost [x]) with (Item_cost x + 0).
      assert (Hsub : Int32.sub (remaining tokenLimit taken) (Item_cost x)
                     = remaining tokenLimit taken - Item_cost x).
      { apply sub_exact. rewrite Hexact.
        unfold Int32.in_range, Int32.MaxValue, Int32.MinValue in *.
        destruct taken as [|y taken'].
        - cbn in *. lia.
        - specialize (Hpos ltac:(discriminate)). lia. }
      rewrite Hsub in Hx |- *. split; [lia | intros _; lia].
Qed.

(** The test of the loop in exact arithmetic. *)
Lemma fit_test_exact {host : Host} tokenLimit (pre : list Item) (i : Item) :
  Int32.in_range tokenLimit ->
  (forall j, In j pre -> Int32.MinValue <= tokenLimit - Item_cost j) ->
  Int32.MinValue <= tokenLimit - Item_cost i ->
  (forall pre0 j post,
      pre = (pre0 ++ j :: post)%list ->
      Int32.sub (remaining tokenLimit pre0) (Item_cost j) > 0) ->
  Int32.sub (remaining tokenLimit pre) (Item_cost i)
  = tokenLimit - total_cost pre - Item_cost i.
Proof.
  intros Hrange Hfirst Hi Hkept.
  destruct (remaining_exact tokenLimit pre Hrange Hfirst Hkept)
    as [Hexact Hpos].
  pose proof (Item_cost_range i) as Hcost.
  pose proof (total_cost_nonneg pre) as Htotal.
  rewrite <- Hexact. apply sub_exact. rewrite Hexact.
  unfold Int32.in_range, Int32.MaxValue, Int32.MinValue in *.
  destruct pre as [|y pre'].
  - cbn in *. lia.
  - specialize (Hpos ltac:(discriminate)). lia.
Qed.

(** C6.  The accumulation step takes the items of an object or an array in
    the order of the text: the items kept are a prefix of them; an item is
    kept, and its cost subtracted from the limit, exactly when the limit
    minus its cost is strictly positive; the loop ends at the first item
    for which it is not, and no later item is looked at.  The subtraction
    is the one of [int]; it is the exact difference whenever the first one
    stays above [int.MinValue], in particular for every limit that is not
    negative.  On an over-budget text the function returns the items kept
    (or the fallback when there are none). *)
Theorem accumulation_is_greedy_and_ordered :
  forall (host : Host) planner document tokenLimit,
  exists taken rest,
    document_items document = (taken ++ rest)%list
    /\ Optimize_truncate document tokenLimit
       = (remaining tokenLimit taken, taken)
    /\ (forall pre i post,
           taken = (pre ++ i :: post)%list ->
           Int32.sub (remaining tokenLimit pre) (Item_cost i) > 0)
    /\ (forall i rest', rest = i :: rest' ->
           Int32.sub (remaining tokenLimit taken) (Item_cost i) <= 0)
    /\ (Int32.in_range tokenLimit ->
        (forall i, In i (document_items document) ->
                   Int32.MinValue <= tokenLimit - Item_cost i) ->
        remaining tokenLimit taken = tokenLimit - total_cost taken
        /\ (forall pre i post,
               taken = (pre ++ i :: post)%list ->
               tokenLimit - total_cost pre - Item_cost i > 0)
        /\ (forall i rest', rest = i :: rest' ->
               tokenLimit - total_cost taken - Item_cost i <= 0))
    /\ (forall jsonContent plan json root last limit descriptor,
           Optimize_prepare jsonContent plan = Ok (json, root, last) ->
           (TokenCount json <? limit) = false ->
           Optimize_unwrap root limit
           = Ok (tokenLimit, descriptor, document) ->
           OptimizeOpenApiSkillJson planner jsonContent limit plan
           = Ok (Optimize_result planner descriptor taken last)).
Proof.
  intros host planner document tokenLimit.
  destruct (Optimize_truncate_greedy document tokenLimit)
    as (taken & rest & H1 & H2 & H3 & H4).
  exists taken, rest.
  split; [exact H1 | split; [exact H2 | split; [exact H3 | split;
    [exact H4 | split]]]].
  - intros Hrange Hfirst.
    assert (Htaken : forall i, In i taken ->
                               Int32.MinValue <= tokenLimit - Item_cost i).
    { intros i Hin. apply Hfirst. rewrite H1. apply in_or_app. now left. }
    split; [apply (remaining_exact tokenLimit taken Hrange Htaken H3)|].
    split.
    + intros pre i post Hsplit.
      rewrite <- (fit_test_exact tokenLimit pre i Hrange).
      * exact (H3 pre i post Hsplit).
      * intros j Hin. apply Htaken. rewrite Hsplit.
        apply in_or_app. now left.
      * apply Htaken. rewrite Hsplit. apply in_or_app. right. now left.
      * intros pre0 j post0 Hpre.
        apply (H3 pre0 j (post0 ++ i :: post)%list).
        rewrite Hsplit, Hpre, <- app_assoc. reflexivity.
    + intros i rest' Hrest.
      rewrite <- (fit_test_exact tokenLimit taken i Hrange Htaken).
      * exact (H4 i rest' Hrest).
      * apply Hfirst. rewrite H1, Hrest. apply in_or_app. right. now left.
      * exact H3.
  - intros jsonContent plan json root last limit descriptor Hp Ho Hu.
    rewrite (Optimize_over_budget planner _ _ _ _ _ _ _ _ _ Hp Ho Hu).
    now rewrite H2.
Qed.

(** The array of C6: elements of 3, 2 and 1 characters, a limit of 4. *)
Lemma accumulation_is_greedy_and_ordered_witness :
  let planner := Examples.planner None (fun _ => Ok None) "" in
  let array :=
    Json.JArray "[100,20,3]"
                [Json.JNumber "100"; Json.JNumber "20"; Json.JNumber "3"] in
  map (@Item_cost Demo.host) (document_items array) = [3; 2; 1]
  /\ @Optimize_truncate Demo.host array 4
     = (1, [ElementItem (Json.JNumber "100")])
  /\ @OptimizeOpenApiSkillJson Demo.host planner "[100,20,3]" 4
                               Examples.search_plan
     = Ok "[100]".
Proof.
  intros planner array.
  destruct (accumulation_is_greedy_and_ordered Demo.host planner array 4)
    as (taken & rest & _ & H2 & _ & _ & _ & H5).
  assert (Htaken : taken = [ElementItem (Json.JNumber "100")]).
  { assert (H : snd (@Optimize_truncate Demo.host array 4) = taken)
      by now rewrite H2.
    rewrite <- H. reflexivity. }
  split; [reflexivity | split].
  - rewrite H2, Htaken. reflexivity.
  - rewrite (H5 "[100,20,3]" Examples.search_plan "[100,20,3]" array
                "WebSearch" 4 EmptyString eq_refl eq_refl eq_refl).
    rewrite Htaken. reflexivity.
Defined.

Lemma Optimize_unwrap_limit {host : Host} root tokenLimit limit descriptor
      document :
  Int32.in_range tokenLimit ->
  Optimize_unwrap root tokenLimit = Ok (limit, descriptor, document) ->
  limit = Int32.sub tokenLimit (unwrap_cost root).
Proof.
  intros Hrange. unfold Optimize_unwrap, unwrap_cost, Int32.sub.
  assert (Hsame : tokenLimit = Int32.wrap (tokenLimit - 0))
    by (rewrite Z.sub_0_r; symmetry; now apply wrap_exact).
  destruct root; cbn [Json.is_Object]; try (intros [= <- _ _]; exact Hsame).
  cbn [Json.EnumerateObject].
  destruct props as [|p [|q props]].
  - cbn. intros [= <- _ _]. exact Hsame.
  - cbn [Count List.length Z.of_nat Z.eqb Pos.of_succ_nat Pos.eqb First bind].
    destruct (JsonDocument_Parse _); cbn [bind]; [|discriminate].
    now intros [= <- _ _].
  - destruct (Count _ =? 1) eqn:E.
    + apply Z.eqb_eq in E. unfold Count in E. cbn [List.length] in E. lia.
    + intros [= <- _ _]. exact Hsame.
Qed.

(** With a limit that is not positive, and a first subtraction that stays
    above [int.MinValue], no item is kept. *)
Lemma Optimize_truncate_nothing_fits {host : Host} document limit :
  limit <= 0 ->
  Int32.in_range limit ->
  (forall i, In i (document_items document) ->
             Int32.MinValue <= limit - Item_cost i) ->
  snd (Optimize_truncate document limit) = [].
Proof.
  intros Hle Hrange Hfirst. rewrite Optimize_truncate_items.
  assert (Hgen : forall (A : Type) (cost : A -> Z) (box : A -> Item)
                        (xs : list A),
             (forall x, Item_cost (box x) = cost x) ->
             (forall x, 0 <= cost x) ->
             (forall i, In i (map box xs) ->
                        Int32.MinValue <= limit - Item_cost i) ->
             snd (Truncate cost box xs limit []) = []).
  { intros A cost box xs Hcost Hpos Hin.
    destruct xs as [|x xs]; [reflexivity|]. cbn [Truncate].
    specialize (Hin (box x) (or_introl eq_refl)). rewrite Hcost in Hin.
    specialize (Hpos x).
    rewrite sub_exact
      by (unfold Int32.in_range, Int32.MaxValue in *; lia).
    destruct (limit - cost x >? 0) eqn:E; [lia | reflexivity]. }
  destruct document; try reflexivity.
  - apply (Hgen _ item_cost ElementItem); auto.
    intros x. apply TokenCount_range.
  - apply (Hgen _ property_cost PropertyItem); auto.
    intros x. apply TokenCount_range.
Qed.

Lemma Optimize_prepare_last {host : Host} jsonContent plan json root last
      earlier lastStep :
  Steps plan = (earlier ++ [lastStep])%list ->
  Optimize_prepare jsonContent plan = Ok (json, root, last) ->
  last = SkillName lastStep.
Proof.
  intros Hsteps. unfold Optimize_prepare, last_step.
  rewrite Hsteps, rev_app_distr. cbn [rev app].
  destruct (JsonDocument_Parse _) as [document|e]; cbn [bind];
    [|discriminate].
  destruct (GetOpenApiSkillResponseType _ _ _) as [type [|]].
  - destruct (Deserialize_SkillResponse _ _) as [response|e]; cbn [bind];
      [|discriminate].
    destruct (JsonDocument_Parse _) as [typed|e]; cbn [bind];
      [|discriminate].
    now intros [= _ _ <-].
  - now intros [= _ _ <-].
Qed.

(** C8, as the code behaves.  When the text is over budget and the
    accumulation keeps no item, the function ends with the fixed message;
    the message names [plan] when the planner is configured as
    [Sequential], and otherwise (an [Action] planner, or no options at
    all) the skill of the last step of the plan.  A limit that is zero or
    negative gives this result as long as the subtractions of the name's
    and of an item's token count stay at or above [int.MinValue]. *)
Theorem nothing_selected_gives_fallback :
  forall (host : Host) planner jsonContent tokenLimit plan earlier lastStep
         json root last limit descriptor document,
    Steps plan = (earlier ++ [lastStep])%list ->
    Optimize_prepare jsonContent plan = Ok (json, root, last) ->
    Optimize_unwrap root tokenLimit = Ok (limit, descriptor, document) ->
    let source :=
      match Planner_PlannerOptions planner with
      | Some plannerOptions =>
          match PlannerType plannerOptions with
          | Sequential => "plan"
          | Action => SkillName lastStep
          end
      | None => SkillName lastStep
      end in
    let fallback :=
      "JSON response from " ++ source
      ++ " is too large to be consumed at this time." in
    ((TokenCount json <? tokenLimit) = false ->
     snd (Optimize_truncate document limit) = [] ->
     OptimizeOpenApiSkillJson planner jsonContent tokenLimit plan
     = Ok fallback)
    /\ (tokenLimit <= 0 ->
        Int32.in_range tokenLimit ->
        (forall i, In i (document_items document) ->
                   Int32.MinValue
                   <= tokenLimit - unwrap_cost root - Item_cost i) ->
        snd (Optimize_truncate document limit) = []
        /\ OptimizeOpenApiSkillJson planner jsonContent tokenLimit plan
           = Ok fallback).
Proof.
  intros host planner jsonContent tokenLimit plan earlier lastStep json root
         last limit descriptor document Hsteps Hprepare Hunwrap source
         fallback.
  pose proof (Optimize_prepare_last _ _ _ _ _ _ _ Hsteps Hprepare) as Hlast.
  assert (Hempty : (TokenCount json <? tokenLimit) = false ->
                   snd (Optimize_truncate document limit) = [] ->
                   OptimizeOpenApiSkillJson planner jsonContent tokenLimit plan
                   = Ok fallback).
  { intros Hover Hnone.
    rewrite (Optimize_over_budget planner _ _ _ _ _ _ _ _ _
               Hprepare Hover Hunwrap), Hnone.
    unfold Optimize_result, TooLargeMessage, is_Sequential, fallback, source.
    cbn [Count List.length Z.of_nat Z.gtb Z.compare]. rewrite Hlast.
    destruct (Planner_PlannerOptions planner) as [plannerOptions|];
      [|reflexivity].
    destruct (PlannerType plannerOptions); reflexivity. }
  split; [exact Hempty|].
  intros Hle Hrange Hfirst.
  pose proof (TokenCount_range json) as Hjson.
  assert (Hnone : snd (Optimize_truncate document limit) = []).
  { destruct (document_items document) as [|i items] eqn:Hitems.
    - rewrite Optimize_truncate_items.
      destruct document; try reflexivity; cbn in Hitems.
      + destruct items; [reflexivity | discriminate].
      + destruct props; [reflexivity | discriminate].
    - pose proof (Optimize_unwrap_limit _ _ _ _ _ Hrange Hunwrap) as Hlimit.
      assert (Hcost : 0 <= unwrap_cost root <= Int32.MaxValue).
      { unfold unwrap_cost. destruct root; try (cbn; lia).
        destruct props as [|p [|q props]]; try (cbn; lia).
        apply TokenCount_range. }
      assert (Hi : 0 <= Item_cost i)
        by (destruct i; apply TokenCount_range).
      pose proof (Hfirst i (or_introl eq_refl)) as Hfirst_i.
      rewrite sub_exact in Hlimit
        by (unfold Int32.in_range, Int32.MaxValue in *; lia).
      apply Optimize_truncate_nothing_fits.
      + lia.
      + unfold Int32.in_range, Int32.MaxValue in *. lia.
      + rewrite Hitems. intros i' Hin. specialize (Hfirst i' Hin). lia. }
  split; [exact Hnone|].
  apply Hempty; [apply Z.ltb_ge; lia | exact Hnone].
Qed.

(** A plan of two steps, [Calendar.FindEvents] then [WebSearch.Search]:
    under an [Action] planner and a limit of -5, and under a planner
    without options and a limit of 0, the message names [WebSearch], the
    skill of the last step; under a [Sequential] planner, with an array
    that is too large for a limit of 3, it names the plan. *)
Lemma nothing_selected_gives_fallback_witness :
  @OptimizeOpenApiSkillJson Demo.host
    (Examples.planner (Some (Examples.options Action true true 2))
                      (fun _ => Ok None) "")
    "[100,20,3]" (-5) Examples.two_step_plan
  = Ok "JSON response from WebSearch is too large to be consumed at this time."
  /\ @OptimizeOpenApiSkillJson Demo.host
       (Examples.planner None (fun _ => Ok None) "")
       "[100,20,3]" 0 Examples.two_step_plan
     = Ok "JSON response from WebSearch is too large to be consumed at this time."
  /\ @OptimizeOpenApiSkillJson Demo.host
       (Examples.planner (Some (Examples.options Sequential true true 2))
                         (fun _ => Ok None) "")
       "[100,20,3]" 3 Examples.two_step_plan
     = Ok "JSON response from plan is too large to be consumed at this time.".
Proof.
  assert (Hfirst : forall tokenLimit,
             -5 <= tokenLimit ->
             forall i,
               In i (document_items
                       (Json.JArray "[100,20,3]"
                          [Json.JNumber "100"; Json.JNumber "20";
                           Json.JNumber "3"])) ->
               Int32.MinValue
               <= tokenLimit
                  - @unwrap_cost Demo.host
                      (Json.JArray "[100,20,3]"
                         [Json.JNumber "100"; Json.JNumber "20";
                          Json.JNumber "3"])
                  - @Item_cost Demo.host i).
  { intros tokenLimit Hlimit i Hin. cbn in Hin.
    destruct Hin as [<- | [<- | [<- | []]]];
      cbn; unfold Int32.MinValue; lia. }
  split; [|split].
  - refine (proj2 (proj2 (nothing_selected_gives_fallback Demo.host
                            (Examples.planner
                               (Some (Examples.options Action true true 2))
                               (fun _ => Ok None) "")
                            "[100,20,3]" (-5) Examples.two_step_plan
                            [Examples.calendar_step] Examples.search_step
                            "[100,20,3]" _ "WebSearch" (-5) EmptyString _
                            eq_refl eq_refl eq_refl) _ _ _)).
    + lia.
    + unfold Int32.in_range, Int32.MinValue, Int32.MaxValue. lia.
    + apply Hfirst. lia.
  - refine (proj2 (proj2 (nothing_selected_gives_fallback Demo.host
                            (Examples.planner None (fun _ => Ok None) "")
                            "[100,20,3]" 0 Examples.two_step_plan
                            [Examples.calendar_step] Examples.search_step
                            "[100,20,3]" _ "WebSearch" 0 EmptyString _
                            eq_refl eq_refl eq_refl) _ _ _)).
    + lia.
    + unfold Int32.in_range, Int32.MinValue, Int32.MaxValue. lia.
    + apply Hfirst. lia.
  - refine (proj1 (nothing_selected_gives_fallback Demo.host
                     (Examples.planner
                        (Some (Examples.options Sequential true true 2))
                        (fun _ => Ok None) "")
                     "[100,20,3]" 3 Examples.two_step_plan
                     [Examples.calendar_step] Examples.search_step
                     "[100,20,3]" _ "WebSearch" 3 EmptyString _
                     eq_refl eq_refl eq_refl) _ _); reflexivity.
Defined.

(** C8 as stated fails at the far end of [int].  The limit -2147483647 is
    negative, yet the first subtraction [tokenLimit - 3] wraps around to
    2147483646, the test [> 0] succeeds, the whole array is kept and the
    function returns it instead of the message.  The same happens through
    the skill: a request limit of -2147483575 leaves, after the overhead
    of 73 tokens, a limit of [int.MinValue], and the block carries the
    array. *)
Lemma wrapped_limit_keeps_items :
  let planner :=
    Examples.planner (Some (Examples.options Action true true 2))
                     (fun _ => Ok None)
                     (Examples.json_response "[100,20,3]") in
  -2147483647 <= 0
  /\ Int32.sub (-2147483647) 3 = 2147483646
  /\ List.length
       (snd (@Optimize_truncate Demo.host
               (Json.JArray "[100,20,3]"
                  [Json.JNumber "100"; Json.JNumber "20"; Json.JNumber "3"])
               (-2147483647)))
     = 3%nat
  /\ @OptimizeOpenApiSkillJson Demo.host planner
       "[100,20,3]" (-2147483647) Examples.two_step_plan
     = Ok "[100,20,3]"
  /\ @OptimizeOpenApiSkillJson Demo.host planner
       "[100,20,3]" (-2147483647) Examples.two_step_plan
     <> Ok "JSON response from WebSearch is too large to be consumed at this time."
  /\ @ExecuteBranch Demo.host planner [("tokenLimit", "-2147483575")]
       (mkProposedPlan Examples.search_plan Action Approved)
     = (Ok (related_block "FUNCTIONS EXECUTED: WebSearch.Search."
                          "[100,20,3]"),
        [PlanInvoked Examples.search_plan;
         OptimizerCalled "[100,20,3]" Int32.MinValue]).
Proof.
  intros planner.
  split; [lia|]. split; [reflexivity|]. split; [reflexivity|].
  split; [reflexivity|]. split; [discriminate|]. reflexivity.
Qed.

Lemma results_json_is_clean :
  Str.RemoveLineBreaks (Str.Trim Examples.results_json)
  = Examples.results_json.
Proof. reflexivity. Qed.

Lemma Optimize_prepare_untyped {host : Host} jsonContent plan lastStep
      document :
  last_step plan = Ok lastStep ->
  String.eqb (SkillName lastStep) "GitHubPlugin" = false ->
  String.eqb (SkillName lastStep) "JiraPlugin" = false ->
  JsonDocument_Parse (Str.RemoveLineBreaks (Str.Trim jsonContent))
  = Ok document ->
  Optimize_prepare jsonContent plan
  = Ok (Str.RemoveLineBreaks (Str.Trim jsonContent), document,
        SkillName lastStep).
Proof.
  intros Hlast Hgithub Hjira Hparse.
  unfold Optimize_prepare, GetOpenApiSkillResponseType.
  rewrite Hparse. cbn [bind]. rewrite Hlast. cbn [bind].
  rewrite Hgithub, Hjira. reflexivity.
Qed.

(** C5, as the code behaves.  For the text [{"results": [1,2,3]}] and a
    last skill without a response model: with a limit above the token count
    of the text, the text is returned as it is; the root property is
    unwrapped into [results: [1,2,3]] when the token count of the text is
    not below the limit and the limit, less the counts of the name and of
    the three elements, is still positive. *)
Theorem results_text_under_and_over_budget :
  forall (host : Host) planner tokenLimit plan lastStep,
    last_step plan = Ok lastStep ->
    String.eqb (SkillName lastStep) "GitHubPlugin" = false ->
    String.eqb (SkillName lastStep) "JiraPlugin" = false ->
    JsonDocument_Parse Examples.results_json = Ok results_document ->
    (TokenCount Examples.results_json < tokenLimit ->
     OptimizeOpenApiSkillJson planner Examples.results_json tokenLimit plan
     = Ok Examples.results_json)
    /\ (tokenLimit <= TokenCount Examples.results_json ->
        JsonDocument_Parse "[1,2,3]" = Ok results_array ->
        Serialize_itemList (document_items results_array) = "[1,2,3]" ->
        tokenLimit - TokenCount "results" - TokenCount "1" - TokenCount "2"
        - TokenCount "3" > 0 ->
        OptimizeOpenApiSkillJson planner Examples.results_json tokenLimit plan
        = Ok "results: [1,2,3]").
Proof.
  intros host planner tokenLimit plan lastStep Hlast Hgithub Hjira Hparse.
  pose proof (Optimize_prepare_untyped Examples.results_json plan lastStep
                results_document Hlast Hgithub Hjira) as Hprepare.
  rewrite results_json_is_clean in Hprepare. specialize (Hprepare Hparse).
  split.
  - intros Hunder. unfold OptimizeOpenApiSkillJson.
    rewrite Hprepare. cbn [bind].
    apply Z.ltb_lt in Hunder. now rewrite Hunder.
  - intros Hover Harray Hserialize Hfit.
    pose proof (TokenCount_range Examples.results_json) as Hjson.
    pose proof (TokenCount_range "results") as Hname.
    pose proof (TokenCount_range "1") as H1.
    pose proof (TokenCount_range "2") as H2.
    pose proof (TokenCount_range "3") as H3.
    assert (Hunwrap :
              Optimize_unwrap results_document tokenLimit
              = Ok (tokenLimit - TokenCount "results", "results: ",
                    results_array)).
    { unfold Optimize_unwrap, results_document.
      cbn [Json.is_Object Json.EnumerateObject Count List.length Z.of_nat
           Z.eqb Pos.of_succ_nat Pos.eqb First bind Json.PropertyValue
           Json.PropertyName Json.GetRawText results_array fst snd].
      rewrite Harray. cbn [bind].
      rewrite sub_exact
        by (unfold Int32.in_range, Int32.MinValue, Int32.MaxValue in *; lia).
      reflexivity. }
    assert (Hoverb : (TokenCount Examples.results_json <? tokenLimit) = false)
      by (apply Z.ltb_ge; lia).
    rewrite (Optimize_over_budget planner _ _ _ _ _ _ _ _ _ Hprepare
               Hoverb Hunwrap).
    rewrite Optimize_truncate_items. unfold results_array at 1.
    cbn [Truncate app]. unfold item_cost.
    cbn [Json.ToString Json.GetRawText].
    repeat
      (rewrite sub_exact
         by (unfold Int32.in_range, Int32.MinValue, Int32.MaxValue in *; lia);
       match goal with
       | |- context [?a >? 0] =>
           replace (a >? 0) with true by (symmetry; apply Z.gtb_lt; lia)
       end).
    cbn [snd]. unfold Optimize_result.
    cbn [Count List.length Z.of_nat Z.gtb Z.compare Pos.of_succ_nat].
    change [ElementItem (Json.JNumber "1"); ElementItem (Json.JNumber "2");
            ElementItem (Json.JNumber "3")]
      with (document_items results_array).
    rewrite Hserialize. reflexivity.
Qed.

(** With the character-counting tokenizer the text costs 20 tokens: a
    limit of 1000 returns it unchanged, a limit of 15 unwraps it. *)
Lemma results_text_under_and_over_budget_witness :
  let planner := Examples.planner None (fun _ => Ok None) "" in
  @OptimizeOpenApiSkillJson Demo.host planner Examples.results_json 1000
                            Examples.search_plan
  = Ok Examples.results_json
  /\ @OptimizeOpenApiSkillJson Demo.host planner Examples.results_json 15
                               Examples.search_plan
     = Ok "results: [1,2,3]".
Proof.
  intros planner. split.
  - refine (proj1 (results_text_under_and_over_budget Demo.host planner 1000
                     Examples.search_plan Examples.search_step
                     eq_refl eq_refl eq_refl eq_refl) _).
    reflexivity.
  - refine (proj2 (results_text_under_and_over_budget Demo.host planner 15
                     Examples.search_plan Examples.search_step
                     eq_refl eq_refl eq_refl eq_refl) _ eq_refl eq_refl _).
    + vm_compute. discriminate.
    + reflexivity.
Defined.

(** C5 as stated fails: with a limit of 1000, far above the 20 tokens of
    the text, the function returns the text itself and not the unwrapped
    form. *)
Lemma ample_budget_returns_text_unchanged :
  @OptimizeOpenApiSkillJson Demo.host
    (Examples.planner None (fun _ => Ok None) "")
    Examples.results_json 1000 Examples.search_plan
  = Ok Examples.results_json
  /\ @TokenCount Demo.host Examples.results_json = 20
  /\ Examples.results_json <> "results: [1,2,3]".
Proof.
  split; [reflexivity | split; [reflexivity | discriminate]].
Qed.

(* ------------------------------------------------------------------ *)
(** ** Further properties of the retry policy *)

Lemma filter_accepts_inv planner e :
  filter_accepts planner e = true ->
  exists o,
    Planner_PlannerOptions planner = Some o
    /\ ((missing_function_error e
         /\ AllowRetries (MissingFunctionError o) = true)
        \/ (invalid_plan_error e /\ AllowRetriesOnInvalidPlan o = true)).
Proof.
  unfold filter_accepts, IsRetriableError, missing_function_error,
    invalid_plan_error, is_PlanningException, is_KernelException.
  destruct e as [cls msg inner].
  cbn [Class InnerException as_PlanningException as_KernelException].
  destruct (Planner_PlannerOptions planner) as [o|].
  - intros H. exists o. split; [reflexivity|].
    destruct cls as [c|c| | | | | | | |name]; cbn in H; try discriminate.
    + right.
      destruct c; cbn in H;
        try (destruct (as_PlanningException inner) as [[]|] eqn:Hinner;
             cbn in H; try discriminate);
        (split; [eexists; split; [reflexivity|auto] |]);
        destruct (AllowRetriesOnInvalidPlan o); cbn in H;
          congruence.
    + left. destruct c; cbn in H; try discriminate.
      split; [reflexivity|].
      destruct (AllowRetries (MissingFunctionError o)); cbn in H; congruence.
  - intros H. exfalso.
    destruct cls as [c|c| | | | | | | |name]; cbn in H; try discriminate.
    + destruct c; cbn in H; try discriminate;
        destruct (as_PlanningException inner) as [[]|]; cbn in H;
          discriminate.
    + destruct c; cbn in H; discriminate.
Qed.

(** X1.  The handler of the loop is entered for an exception exactly when
    the planner has options and the exception is a missing-function error
    with [MissingFunctionError.AllowRetries] set, or an invalid-plan error
    with [AllowRetriesOnInvalidPlan] set. *)
Theorem retry_filter_accepts_classified_errors_only :
  forall planner e,
    filter_accepts planner e = true
    <-> exists o,
        Planner_PlannerOptions planner = Some o
        /\ ((missing_function_error e
             /\ AllowRetries (MissingFunctionError o) = true)
            \/ (invalid_plan_error e /\ AllowRetriesOnInvalidPlan o = true)).
Proof.
  intros planner e. split; [apply filter_accepts_inv|].
  intros (o & Ho & [[He Hflag] | [He Hflag]]); unfold filter_accepts.
  - now rewrite (IsRetriableError_missing_function _ _ _ Ho He), Hflag.
  - now rewrite (IsRetriableError_invalid_plan _ _ _ Ho He), Hflag.
Qed.

(** Where no exception passes the filter, the loop retries nothing, and an
    exception thrown by the planner ends it at once. *)
Lemma CreatePlanLoop_without_filter planner :
  (forall e, filter_accepts planner e = false) ->
  forall fuel goal call retriesAvail,
    Loop_Retried (CreatePlanLoop planner fuel goal call retriesAvail) = []
    /\ (forall e, CreatePlanAsync planner call goal = Throw e ->
                  CreatePlanLoop planner (S fuel) goal call retriesAvail
                  = logged (CreatePlanCalled goal)
                           (stop (Propagated e) retriesAvail)).
Proof.
  intros Hfilter fuel goal call retriesAvail. split.
  - revert call. induction fuel as [|fuel IH]; intros call;
      cbn [CreatePlanLoop]; [reflexivity|].
    destruct (CreatePlanAsync planner call goal) as [[plan|]|e]; cbn;
      [reflexivity | apply IH | now rewrite Hfilter].
  - intros e He. cbn [CreatePlanLoop]. now rewrite He, Hfilter.
Qed.

(** X2.  A planner without [PlannerOptions] never retries: the budget is
    computed from the default options, but every error the planner throws
    leaves the loop at its first occurrence, unchanged. *)
Theorem null_options_never_retry :
  forall planner,
    Planner_PlannerOptions planner = None ->
    forall fuel goal call retriesAvail,
      Loop_Retried (CreatePlanLoop planner fuel goal call retriesAvail) = []
      /\ (forall e, CreatePlanAsync planner call goal = Throw e ->
                    CreatePlanLoop planner (S fuel) goal call retriesAvail
                    = logged (CreatePlanCalled goal)
                             (stop (Propagated e) retriesAvail)).
Proof.
  intros planner Hnone. apply CreatePlanLoop_without_filter.
  intros e. destruct (filter_accepts planner e) eqn:H; [|reflexivity].
  apply filter_accepts_inv in H. destruct H as (o & Ho & _). congruence.
Qed.

(** The default options of the example host allow three missing-function
    retries; without configured options the first error is raised. *)
Lemma null_options_never_retry_witness :
  let planner :=
    Examples.planner None (Examples.always Examples.missing_function) "" in
  @initial_retriesAvail (@effective_options Demo.host planner) = 3
  /\ Returned (@ProposeBranch Demo.host planner 4 None "find cats"
                              Examples.ask)
     = Some (Throw Examples.missing_function).
Proof.
  intros planner. split; [reflexivity|].
  destruct (null_options_never_retry planner eq_refl 3
              (planner_goal Examples.ask "find cats") 0 3) as [_ H].
  unfold ProposeBranch.
  change (@initial_retriesAvail (@effective_options Demo.host planner))
    with 3.
  rewrite (H Examples.missing_function eq_refl). reflexivity.
Defined.

(** X3.  With both retry switches off nothing is retried either. *)
Theorem disabled_retries_never_retry :
  forall planner o,
    Planner_PlannerOptions planner = Some o ->
    AllowRetriesOnInvalidPlan o = false ->
    AllowRetries (MissingFunctionError o) = false ->
    initial_retriesAvail o = 0
    /\ forall fuel goal call retriesAvail,
        Loop_Retried (CreatePlanLoop planner fuel goal call retriesAvail) = []
        /\ (forall e, CreatePlanAsync planner call goal = Throw e ->
                      CreatePlanLoop planner (S fuel) goal call retriesAvail
                      = logged (CreatePlanCalled goal)
                               (stop (Propagated e) retriesAvail)).
Proof.
  intros planner o Ho Hinvalid Hmissing. split.
  - unfold initial_retriesAvail. now rewrite Hmissing, Hinvalid.
  - apply CreatePlanLoop_without_filter.
    intros e. destruct (filter_accepts planner e) eqn:H; [|reflexivity].
    apply filter_accepts_inv in H.
    destruct H as (o' & Ho' & [[_ H] | [_ H]]); congruence.
Qed.

Lemma disabled_retries_never_retry_witness :
  let planner :=
    Examples.planner (Some (Examples.options Action false false 7))
                     (Examples.always Examples.invalid_plan) "" in
  Loop_Outcome (CreatePlanLoop planner 3 "goal" 0 0)
  = Propagated Examples.invalid_plan.
Proof.
  intros planner.
  destruct (disabled_retries_never_retry planner
              (Examples.options Action false false 7)
              eq_refl eq_refl eq_refl) as [_ H].
  destruct (H 2%nat "goal" 0%nat 0) as [_ H'].
  rewrite (H' Examples.invalid_plan eq_refl). reflexivity.
Defined.

(** X4.  A planning exception that is retried is the last retry of the
    call: every exception retried before it is of another class, and
    [retriesAvail] ends at 0. *)
Theorem planning_retry_is_the_last :
  forall planner fuel goal call retriesAvail pre e post,
    Loop_Retried (CreatePlanLoop planner fuel goal call retriesAvail)
    = (pre ++ e :: post)%list ->
    is_PlanningException e = true ->
    post = []
    /\ Loop_retriesAvail (CreatePlanLoop planner fuel goal call retriesAvail)
       = 0.
Proof.
  intros planner fuel goal.
  assert (Hzero : forall fuel call,
             Loop_retriesAvail (CreatePlanLoop planner fuel goal call 0) = 0).
  { induction fuel0 as [|fuel0 IH]; intros call; cbn [CreatePlanLoop];
      [reflexivity|].
    destruct (CreatePlanAsync planner call goal) as [[plan|]|e]; cbn;
      [reflexivity | apply IH |].
    destruct (filter_accepts planner e); reflexivity. }
  induction fuel as [|fuel IH]; intros call retriesAvail pre e post;
    cbn [CreatePlanLoop].
  - cbn. intros H. destruct pre; discriminate.
  - destruct (CreatePlanAsync planner call goal) as [[plan|]|e0]; cbn.
    + intros H. destruct pre; discriminate.
    + apply IH.
    + destruct (filter_accepts planner e0);
        [|cbn; intros H; destruct pre; discriminate].
      destruct (retriesAvail >? 0);
        [|cbn; intros H; destruct pre; discriminate].
      cbn. destruct (is_PlanningException e0) eqn:He0.
      * rewrite (assign_retriesAvail_planning _ _ He0).
        rewrite CreatePlanLoop_no_budget by lia.
        intros H _. destruct pre as [|x [|y pre]]; try discriminate.
        injection H as <- <-. split; [reflexivity | apply Hzero].
      * rewrite (assign_retriesAvail_other _ _ He0).
        intros H He. destruct pre as [|x pre].
        -- injection H as <- _. congruence.
        -- injection H as _ H. exact (IH _ _ _ _ _ H He).
Qed.

(** A missing-function error, then an invalid plan, then a missing
    function again: the first two are retried, and the third error is
    raised although the budget was 5. *)
Lemma planning_retry_is_the_last_witness :
  let planner :=
    Examples.planner
      (Some (Examples.options Action true true 5))
      (fun call => match call with
                   | 1%nat => Throw Examples.invalid_plan
                   | _ => Throw Examples.missing_function
                   end) "" in
  Loop_Retried (CreatePlanLoop planner 9 "goal" 0 5)
  = [Examples.missing_function; Examples.invalid_plan]
  /\ Loop_retriesAvail (CreatePlanLoop planner 9 "goal" 0 5) = 0.
Proof.
  intros planner. split; [reflexivity|].
  exact (proj2 (planning_retry_is_the_last planner 9 "goal" 0 5
                  [Examples.missing_function] Examples.invalid_plan []
                  eq_refl eq_refl)).
Defined.

(** X5.  What the propose branch raises is an exception the planner threw,
    unchanged, and the plan it stores comes from a plan the planner
    returned: the loop ends only on an answer of the planner to one of the
    calls made. *)
Theorem loop_outcome_comes_from_the_planner :
  forall planner fuel goal call retriesAvail,
    (forall e,
        Loop_Outcome (CreatePlanLoop planner fuel goal call retriesAvail)
        = Propagated e ->
        exists n, (call <= n < call + fuel)%nat
                  /\ CreatePlanAsync planner n goal = Throw e
                  /\ (filter_accepts planner e = false
                      \/ Loop_retriesAvail
                           (CreatePlanLoop planner fuel goal call retriesAvail)
                         <= 0))
    /\ (forall plan,
           Loop_Outcome (CreatePlanLoop planner fuel goal call retriesAvail)
           = PlanCreated plan ->
           exists n, (call <= n < call + fuel)%nat
                     /\ CreatePlanAsync planner n goal = Ok (Some plan)).
Proof.
  intros planner fuel goal.
  induction fuel as [|fuel IH]; intros call retriesAvail;
    cbn [CreatePlanLoop].
  - split; cbn; discriminate.
  - destruct (CreatePlanAsync planner call goal) as [[plan|]|e0] eqn:Hcall;
      cbn.
    + split; [discriminate|]. intros plan' [= <-].
      exists call. split; [lia | exact Hcall].
    + destruct (IH (S call) retriesAvail) as [H1 H2]. split.
      * intros e He. destruct (H1 e He) as (n & Hn & Hrest).
        exists n. split; [lia | exact Hrest].
      * intros p Hp. destruct (H2 p Hp) as (n & Hn & Hrest).
        exists n. split; [lia | exact Hrest].
    + destruct (filter_accepts planner e0) eqn:Hfilter.
      * destruct (retriesAvail >? 0) eqn:Hgt.
        -- cbn.
           destruct (IH (S call) (assign_retriesAvail e0 retriesAvail))
             as [H1 H2].
           split.
           ++ intros e He. destruct (H1 e He) as (n & Hn & Hrest).
              exists n. split; [lia | exact Hrest].
           ++ intros p Hp. destruct (H2 p Hp) as (n & Hn & Hrest).
              exists n. split; [lia | exact Hrest].
        -- cbn. split; [|discriminate]. intros e [= <-].
           exists call. split; [lia|]. split; [exact Hcall|].
           right. lia.
      * cbn. split; [|discriminate]. intros e [= <-].
        exists call. split; [lia|]. split; [exact Hcall|]. now left.
Qed.

(** X6.  A planner that answers with a null plan is asked again, and the
    answer costs no retry: while it keeps answering null the loop goes on,
    nothing is logged as a retry and [retriesAvail] stays as it was, even
    at 0. *)
Theorem null_plan_is_asked_again :
  forall planner goal,
    (forall n, CreatePlanAsync planner n goal = Ok None) ->
    forall fuel call retriesAvail,
      CreatePlanLoop planner fuel goal call retriesAvail
      = {| Loop_Outcome := StillLooping;
           Loop_retriesAvail := retriesAvail;
           Loop_Retried := [];
           Loop_Events := repeat (CreatePlanCalled goal) fuel |}.
Proof.
  intros planner goal Hnull.
  induction fuel as [|fuel IH]; intros call retriesAvail;
    cbn [CreatePlanLoop repeat]; [reflexivity|].
  now rewrite Hnull, IH.
Qed.

Lemma null_plan_is_asked_again_witness :
  Loop_Events
    (CreatePlanLoop
       (Examples.planner (Some (Examples.options Action false false 0))
                         (fun _ => Ok None) "")
       3 "goal" 0 0)
  = [CreatePlanCalled "goal"; CreatePlanCalled "goal";
     CreatePlanCalled "goal"].
Proof.
  rewrite (null_plan_is_asked_again
             (Examples.planner (Some (Examples.options Action false false 0))
                               (fun _ => Ok None) "")
             "goal" (fun _ => eq_refl) 3 0 0).
  reflexivity.
Defined.

(** X7.  The propose branch only talks to the planner: its events are
    calls of [CreatePlanAsync], all with the same goal text, and retry
    warnings; it runs no plan and calls no optimizer.  There is one warning
    per exception retried, and never more warnings than calls. *)
Theorem propose_branch_only_asks_the_planner :
  forall (host : Host) planner fuel before userIntent context,
    let run := ProposeBranch planner fuel before userIntent context in
    let loop := CreatePlanLoop planner fuel
                               (planner_goal context userIntent) 0
                               (initial_retriesAvail
                                  (effective_options planner)) in
    (forall ev, In ev (Events run) ->
                ev = CreatePlanCalled (planner_goal context userIntent)
                \/ exists e, In e (Loop_Retried loop)
                             /\ ev = RetryLogged
                                       ("Retrying CreatePlan on error: "
                                        ++ Message e))
    /\ List.length
         (filter (fun ev => match ev with RetryLogged _ => true | _ => false end)
                 (Events run))
       = List.length (Loop_Retried loop)
    /\ (List.length (Loop_Retried loop) <= fuel)%nat.
Proof.
  intros host planner fuel before userIntent context run loop.
  assert (Hevents : Events run = Loop_Events loop).
  { unfold run, ProposeBranch. fold loop.
    destruct (Loop_Outcome loop) as [plan| |]; try reflexivity.
    destruct (Count (Steps plan) >? 0); reflexivity. }
  rewrite Hevents. unfold loop.
  generalize (initial_retriesAvail (effective_options planner)) as r.
  generalize (planner_goal context userIntent) as goal.
  generalize 0%nat as call. clear.
  induction fuel as [|fuel IH]; intros call goal r; cbn [CreatePlanLoop].
  - cbn. repeat split; [intros ev [] | lia].
  - destruct (CreatePlanAsync planner call goal) as [[plan|]|e]; cbn.
    + repeat split; [|lia]. intros ev [<- | []]. now left.
    + destruct (IH (S call) goal r) as (H1 & H2 & H3).
      repeat split; [| exact H2 | lia].
      intros ev [<- | Hin]; [now left | now apply H1].
    + destruct (filter_accepts planner e);
        [|cbn; repeat split; [|lia]; intros ev [<- | []]; now left].
      destruct (r >? 0);
        [|cbn; repeat split; [|lia]; intros ev [<- | []]; now left].
      destruct (IH (S call) goal (assign_retriesAvail e r)) as (H1 & H2 & H3).
      cbn. repeat split; [| now rewrite H2 | lia].
      intros ev [<- | [<- | Hin]].
      * now left.
      * right. exists e. split; [now left | reflexivity].
      * destruct (H1 ev Hin) as [-> | (e' & He' & ->)]; [now left|].
        right. exists e'. split; [now right | reflexivity].
Qed.

(* ------------------------------------------------------------------ *)
(** ** Further properties of the merge *)

Lemma EqualsIgnoreCase_sym (a b : string) :
  Str.EqualsIgnoreCase a b = Str.EqualsIgnoreCase b a.
Proof.
  revert b. induction a as [|x a IH]; intros [|y b]; cbn; try reflexivity.
  now rewrite IH, Ascii.eqb_sym.
Qed.

Lemma EqualsIgnoreCase_trans (a b c : string) :
  Str.EqualsIgnoreCase a b = true ->
  Str.EqualsIgnoreCase b c = true ->
  Str.EqualsIgnoreCase a c = true.
Proof.
  revert b c. induction a as [|x a IH]; intros [|y b] [|z c]; cbn;
    try discriminate; try reflexivity.
  intros Hab Hbc.
  apply andb_true_iff in Hab as [Hxy Hab].
  apply andb_true_iff in Hbc as [Hyz Hbc].
  apply Ascii.eqb_eq in Hxy. apply Ascii.eqb_eq in Hyz.
  rewrite Hxy, Hyz, Ascii.eqb_refl. cbn. eapply IH; eauto.
Qed.

(** [Set] leaves the value under every other name as it was. *)
Lemma TryGetValue_Set_other (vars : ContextVariables) n m value :
  Str.EqualsIgnoreCase n m = false ->
  Variables.TryGetValue (Variables.Set_ vars n value) m
  = Variables.TryGetValue vars m.
Proof.
  intros Hnm. induction vars as [|[k v] vars IH]; cbn.
  - now rewrite Hnm.
  - destruct (Str.EqualsIgnoreCase k n) eqn:Hkn; cbn.
    + destruct (Str.EqualsIgnoreCase k m) eqn:Hkm; [|reflexivity].
      rewrite EqualsIgnoreCase_sym in Hkn.
      now rewrite (EqualsIgnoreCase_trans _ _ _ Hkn Hkm) in Hnm.
    + now rewrite IH.
Qed.

(** [Set] under a name that is a key keeps the keys. *)
Lemma Set_keeps_keys (vars : ContextVariables) name value :
  In name (Variables.Keys vars) ->
  Variables.Keys (Variables.Set_ vars name value) = Variables.Keys vars.
Proof.
  induction vars as [|[k v] vars IH]; cbn; [easy|].
  intros Hin. destruct (Str.EqualsIgnoreCase k name) eqn:Hk; cbn.
  - reflexivity.
  - destruct Hin as [-> | Hin].
    + now rewrite EqualsIgnoreCase_refl in Hk.
    + f_equal. now apply IH.
Qed.

(** X8.  When no declared parameter other than [INPUT] names a context
    variable, in particular when the context is empty, the merge leaves the
    parameters exactly as they were. *)
Theorem merge_without_matching_variable_changes_nothing :
  forall variables planParams,
    (forall param,
        In param planParams ->
        Str.EqualsIgnoreCase (fst param) "INPUT" = false ->
        Variables.TryGetValue variables (fst param) = None) ->
    MergeContextIntoPlan variables planParams = planParams.
Proof.
  intros variables planParams. unfold MergeContextIntoPlan.
  generalize planParams at 3 4 as acc.
  induction planParams as [|param todo IH]; intros acc Hnone;
    cbn [fold_left]; [reflexivity|].
  rewrite IH by (intros p Hp; apply Hnone; now right).
  destruct (Str.EqualsIgnoreCase (fst param) "INPUT") eqn:Hinput;
    [reflexivity|].
  now rewrite (Hnone param (or_introl eq_refl) Hinput).
Qed.

Lemma merge_without_matching_variable_changes_nothing_witness :
  MergeContextIntoPlan [] (Parameters Examples.search_plan)
  = Parameters Examples.search_plan
  /\ MergeContextIntoPlan [("INPUT", "find cats"); ("other", "x")]
                          (Parameters Examples.search_plan)
     = Parameters Examples.search_plan.
Proof.
  split.
  - apply merge_without_matching_variable_changes_nothing.
    intros param _ _. reflexivity.
  - apply merge_without_matching_variable_changes_nothing.
    intros param [<- | [<- | [<- | []]]]; cbn; intros H;
      first [discriminate H | reflexivity].
Defined.

(** X9.  The merge never adds, removes, renames or reorders a parameter,
    whatever the parameters and the context are: the keys after the merge
    are the keys before it. *)
Theorem merge_keeps_the_declared_names :
  forall variables planParams,
    Variables.Keys (MergeContextIntoPlan variables planParams)
    = Variables.Keys planParams.
Proof.
  intros variables planParams. unfold MergeContextIntoPlan.
  assert (Hgen : forall todo acc,
             (forall param, In param todo ->
                            In (fst param) (Variables.Keys acc)) ->
             Variables.Keys
               (fold_left
                  (fun (planParams : ContextVariables)
                       (param : string * string) =>
                     if Str.EqualsIgnoreCase (fst param) "INPUT"
                     then planParams
                     else
                       match Variables.TryGetValue variables (fst param) with
                       | Some value =>
                           Variables.Set_ planParams (fst param) value
                       | None => planParams
                       end)
                  todo acc)
             = Variables.Keys acc).
  { induction todo as [|param todo IH]; intros acc Hin; cbn [fold_left];
      [reflexivity|].
    assert (Hstep :
              Variables.Keys
                (if Str.EqualsIgnoreCase (fst param) "INPUT" then acc
                 else match Variables.TryGetValue variables (fst param) with
                      | Some value => Variables.Set_ acc (fst param) value
                      | None => acc
                      end)
              = Variables.Keys acc).
    { destruct (Str.EqualsIgnoreCase (fst param) "INPUT"); [reflexivity|].
      destruct (Variables.TryGetValue variables (fst param)); [|reflexivity].
      apply Set_keeps_keys, Hin. now left. }
    rewrite IH; [exact Hstep|].
    intros p Hp. rewrite Hstep. apply Hin. now right. }
  apply Hgen. intros param Hin. unfold Variables.Keys. now apply in_map.
Qed.

(** X10.  The context's [INPUT] never replaces a parameter: whatever is
    found under [INPUT] (in any case) after the merge is what was there
    before. *)
Theorem merge_never_touches_input :
  forall variables planParams name,
    Str.EqualsIgnoreCase name "INPUT" = true ->
    Variables.TryGetValue (MergeContextIntoPlan variables planParams) name
    = Variables.TryGetValue planParams name.
Proof.
  intros variables planParams name Hname. unfold MergeContextIntoPlan.
  generalize planParams at 2 3 as acc.
  induction planParams as [|param todo IH]; intros acc; cbn [fold_left];
    [reflexivity|].
  rewrite IH.
  destruct (Str.EqualsIgnoreCase (fst param) "INPUT") eqn:Hinput;
    [reflexivity|].
  destruct (Variables.TryGetValue variables (fst param)); [|reflexivity].
  apply TryGetValue_Set_other.
  destruct (Str.EqualsIgnoreCase (fst param) name) eqn:Hpn; [|reflexivity].
  now rewrite (EqualsIgnoreCase_trans _ _ _ Hpn Hname) in Hinput.
Qed.

Lemma merge_never_touches_input_witness :
  Variables.TryGetValue
    (MergeContextIntoPlan Examples.ask (Parameters Examples.search_step))
    "input"
  = Some "kittens".
Proof.
  rewrite (merge_never_touches_input Examples.ask
             (Parameters Examples.search_step) "input" eq_refl).
  reflexivity.
Defined.

Lemma distinct_keys_merged variables planParams :
  Variables.distinct_keys (merged variables planParams)
  = Variables.distinct_keys planParams.
Proof.
  assert (Hexists : forall k (l : ContextVariables),
             existsb (fun kv => Str.EqualsIgnoreCase k (fst kv))
                     (merged variables l)
             = existsb (fun kv => Str.EqualsIgnoreCase k (fst kv)) l).
  { intros k l. induction l as [|[k' v'] l IHl]; cbn; [reflexivity|].
    now rewrite <- IHl. }
  induction planParams as [|[k v] planParams IH]; cbn; [reflexivity|].
  fold (merged variables planParams). now rewrite IH, Hexists.
Qed.

(** X11.  On a dictionary of parameters the merge is idempotent, and its
    result is again a dictionary: merging the same context a second time
    changes nothing. *)
Theorem merge_is_idempotent :
  forall variables planParams,
    Variables.distinct_keys planParams = true ->
    Variables.distinct_keys (MergeContextIntoPlan variables planParams) = true
    /\ MergeContextIntoPlan variables
         (MergeContextIntoPlan variables planParams)
       = MergeContextIntoPlan variables planParams.
Proof.
  intros variables planParams Hdistinct.
  rewrite (MergeContextIntoPlan_merged _ _ Hdistinct).
  assert (Hd : Variables.distinct_keys (merged variables planParams) = true)
    by now rewrite distinct_keys_merged.
  split; [exact Hd|].
  rewrite (MergeContextIntoPlan_merged _ _ Hd).
  unfold merged. rewrite map_map. apply map_ext. intros [k v]. cbn.
  f_equal. unfold merged_value. cbn.
  destruct (Str.EqualsIgnoreCase k "INPUT"); [reflexivity|].
  now destruct (Variables.TryGetValue variables k).
Qed.

Lemma merge_is_idempotent_witness :
  MergeContextIntoPlan Examples.ask
    (MergeContextIntoPlan Examples.ask (Parameters Examples.search_plan))
  = MergeContextIntoPlan Examples.ask (Parameters Examples.search_plan).
Proof.
  exact (proj2 (merge_is_idempotent Examples.ask
                  (Parameters Examples.search_plan) eq_refl)).
Defined.

(** X12.  Merging the context into a plan changes parameter values only:
    the steps keep their number, their skill and function names and their
    order, so the list [GetPlanSteps] reports is the same; for [Action] the
    steps are untouched altogether, for any other type the plan's own
    parameters are. *)
Theorem merge_into_plan_keeps_the_steps :
  forall plannerOptions variables plan,
    let merged_plan := merge_into_plan plannerOptions variables plan in
    GetPlanSteps merged_plan = GetPlanSteps plan
    /\ List.length (Steps merged_plan) = List.length (Steps plan)
    /\ SkillName merged_plan = SkillName plan
    /\ Name merged_plan = Name plan
    /\ (PlannerType plannerOptions = Action ->
        Steps merged_plan = Steps plan)
    /\ (PlannerType plannerOptions <> Action ->
        Parameters merged_plan = Parameters plan
        /\ map Steps (Steps merged_plan) = map Steps (Steps plan)).
Proof.
  intros plannerOptions variables plan. cbv zeta.
  unfold merge_into_plan, GetPlanSteps.
  destruct (PlannerType plannerOptions); cbn [PlanType_eqb];
    destruct plan as [skill name parameters steps]; cbn.
  - repeat split; congruence.
  - rewrite !map_map, length_map. cbn.
    split; [reflexivity|]. split; [reflexivity|]. split; [reflexivity|].
    split; [reflexivity|]. split; [discriminate|].
    intros _. split; reflexivity.
Qed.

(* ------------------------------------------------------------------ *)
(** ** Further properties of the extraction of JSON *)

(** The function, by the document the response parses to. *)
Lemma TryExtract_cases {host : Host} (response : string) :
  TryExtractJsonFromOpenApiPlanResult response
  = match JsonDocument_Parse response with
    | Throw e =>
        match Class e with
        | JsonException =>
            (Ok (false, EmptyString), [DebugLogged not_openapi_message])
        | InvalidOperationException =>
            (Ok (false, EmptyString), [DebugLogged already_json_message])
        | _ => (Throw e, [])
        end
    | Ok Json.JNull => (Ok (false, EmptyString), [])
    | Ok (Json.JObject _ props) =>
        if has_duplicate_names props then (Throw DuplicateKey, [])
        else if Str.StartsWithIgnoreCase
                  (ToString_or_Empty (find_property props "contentType"))
                  "application/json"
        then
          if Str.IsNullOrWhiteSpace
               (Some (ToString_or_Empty (find_property props "content")))
          then (Ok (false, EmptyString), [])
          else (Ok (true, ToString_or_Empty (find_property props "content")),
                [])
        else (Ok (false, EmptyString), [])
    | Ok _ => (Ok (false, EmptyString), [DebugLogged already_json_message])
    end.
Proof.
  unfold TryExtractJsonFromOpenApiPlanResult, JsonNode_Parse.
  destruct (JsonDocument_Parse response) as [document|e]; cbn [bind].
  - destruct document; try reflexivity.
    cbn [JsonNode_Item bind].
    destruct (has_duplicate_names props); [reflexivity|].
    cbn [bind].
    destruct (Str.StartsWithIgnoreCase _ _); [|reflexivity].
    cbn [bind].
    destruct (Str.IsNullOrWhiteSpace _); reflexivity.
  - destruct e as [cls msg inner]. destruct cls; reflexivity.
Qed.

(** X13.  Whatever the response, the extraction either fails quietly or
    succeeds with something to use: the [out] string is empty when the
    function returns [false] and is not blank when it returns [true].  Two
    kinds of exception leave the function, both before anything is logged:
    those the parser throws that are neither [JsonException] nor
    [InvalidOperationException], and the [ArgumentException] of a JSON
    object with two members of one name, which neither [catch] clause
    handles; such an object always raises it. *)
Theorem extraction_result_is_usable :
  forall (host : Host) response,
    (forall found json events,
        TryExtractJsonFromOpenApiPlanResult response
        = (Ok (found, json), events) ->
        (found = false -> json = EmptyString)
        /\ (found = true ->
            Str.IsNullOrWhiteSpace (Some json) = false /\ events = []))
    /\ (forall e events,
           TryExtractJsonFromOpenApiPlanResult response = (Throw e, events) ->
           events = []
           /\ ((JsonDocument_Parse response = Throw e
                /\ Class e <> JsonException
                /\ Class e <> InvalidOperationException)
               \/ (exists raw props,
                      JsonDocument_Parse response = Ok (Json.JObject raw props)
                      /\ has_duplicate_names props = true
                      /\ Class e = OtherException "System.ArgumentException")))
    /\ (forall raw props,
           JsonDocument_Parse response = Ok (Json.JObject raw props) ->
           has_duplicate_names props = true ->
           TryExtractJsonFromOpenApiPlanResult response
           = (Throw DuplicateKey, [])).
Proof.
  intros host response. rewrite TryExtract_cases.
  destruct (JsonDocument_Parse response) as [document|e].
  - split; [|split].
    + intros found json events H.
      destruct document;
        try (injection H as <- <- <-; split; [reflexivity | discriminate]).
      destruct (has_duplicate_names props); [discriminate|].
      destruct (Str.StartsWithIgnoreCase _ _);
        [|injection H as <- <- <-; split; [reflexivity | discriminate]].
      destruct (Str.IsNullOrWhiteSpace _) eqn:Hblank;
        injection H as <- <- <-.
      * split; [reflexivity | discriminate].
      * split; [discriminate | intros _; split; [exact Hblank | reflexivity]].
    + intros e events H. destruct document; try discriminate.
      destruct (has_duplicate_names props) eqn:Hduplicate.
      * injection H as <- <-. split; [reflexivity|].
        right. exists raw, props. repeat split. exact Hduplicate.
      * destruct (Str.StartsWithIgnoreCase _ _); [|discriminate].
        destruct (Str.IsNullOrWhiteSpace _); discriminate.
    + intros raw props H Hduplicate. injection H as ->.
      now rewrite Hduplicate.
  - split; [|split].
    + intros found json events H.
      destruct (Class e); try discriminate;
        injection H as <- <- <-; split; [reflexivity | discriminate
                                        | reflexivity | discriminate].
    + intros e' events H.
      destruct (Class e) eqn:Hclass; try discriminate;
        injection H as <- <-; (split; [reflexivity|]); left;
        repeat split; congruence.
    + discriminate.
Qed.

(** A response with two [content] members raises the exception of the
    duplicate name; what a response with one hands out is not blank. *)
Lemma extraction_result_is_usable_witness :
  @TryExtractJsonFromOpenApiPlanResult Demo.host
    (Examples.duplicate_response "[100,20,3]" "[1]")
  = (Throw DuplicateKey, [])
  /\ Str.IsNullOrWhiteSpace (Some "[100,20,3]") = false.
Proof.
  split.
  - exact (proj2 (proj2 (extraction_result_is_usable Demo.host
                           (Examples.duplicate_response "[100,20,3]" "[1]")))
                 _ _ eq_refl eq_refl).
  - exact (proj1 (proj2 (proj1 (extraction_result_is_usable Demo.host
                                  (Examples.json_response "[100,20,3]"))
                               true "[100,20,3]" [] eq_refl)
                        eq_refl)).
Defined.

(** X14.  A response that is not a JSON object is never taken for JSON:
    text the parser refuses with a [JsonException], and JSON that is an
    array, a string, a number or a boolean, make the function return
    [false] with an empty string and one debug message; the null literal
    does the same without a message. *)
Theorem only_json_objects_are_extracted :
  forall (host : Host) response,
    (forall e, JsonDocument_Parse response = Throw e ->
               Class e = JsonException ->
               TryExtractJsonFromOpenApiPlanResult response
               = (Ok (false, EmptyString), [DebugLogged not_openapi_message]))
    /\ (forall document,
           JsonDocument_Parse response = Ok document ->
           Json.is_Object document = false ->
           TryExtractJsonFromOpenApiPlanResult response
           = (Ok (false, EmptyString),
              match document with
              | Json.JNull => []
              | _ => [DebugLogged already_json_message]
              end)).
Proof.
  intros host response. rewrite TryExtract_cases. split.
  - intros e -> ->. reflexivity.
  - intros document -> Hobject.
    destruct document; try reflexivity. discriminate.
Qed.

(** Text that is no JSON, and a JSON array. *)
Lemma only_json_objects_are_extracted_witness :
  @TryExtractJsonFromOpenApiPlanResult Demo.host "three cats were found"
  = (Ok (false, EmptyString), [DebugLogged not_openapi_message])
  /\ @TryExtractJsonFromOpenApiPlanResult Demo.host "[1,2,3]"
     = (Ok (false, EmptyString), [DebugLogged already_json_message]).
Proof.
  split.
  - exact (proj1 (only_json_objects_are_extracted Demo.host
                    "three cats were found")
                 Json.JsonError eq_refl eq_refl).
  - exact (proj2 (only_json_objects_are_extracted Demo.host "[1,2,3]")
                 (Json.JArray "[1,2,3]"
                    [Json.JNumber "1"; Json.JNumber "2"; Json.JNumber "3"])
                 eq_refl eq_refl).
Defined.



(* ------------------------------------------------------------------ *)
(** ** Further properties of the branch that runs a plan *)

(** The branch, step by step. *)
Lemma ExecuteBranch_steps {host : Host} planner context approved :
  ExecuteBranch planner context approved
  = match Plan_FromJson planner (ProposedPlan_Plan approved) with
    | Throw e => (Throw e, [])
    | Ok plan =>
        match Plan_InvokeAsync planner plan with
        | Throw e => (Throw e, [PlanInvoked plan])
        | Ok newPlanContext =>
            match Context_Item context "tokenLimit" with
            | Throw e => (Throw e, [PlanInvoked plan])
            | Ok text =>
                match Int32_Parse text with
                | Throw e => (Throw e, [PlanInvoked plan])
                | Ok parsed =>
                    match TryExtractJsonFromOpenApiPlanResult
                            (Context_Result newPlanContext) with
                    | (Throw e, events) => (Throw e, PlanInvoked plan :: events)
                    | (Ok (false, _), events) =>
                        (Ok (related_block
                               (functions_used_line plan)
                               (Str.Trim (Context_Input newPlanContext))),
                         PlanInvoked plan :: events)
                    | (Ok (true, json), events) =>
                        (match OptimizeOpenApiSkillJson
                                 planner json (result_budget parsed plan)
                                 plan with
                         | Ok planResult =>
                             Ok (related_block (functions_used_line plan)
                                               (Str.Trim planResult))
                         | Throw e => Throw e
                         end,
                         PlanInvoked plan
                         :: (events
                             ++ [OptimizerCalled
                                   json (result_budget parsed plan)])%list)
                    end
                end
            end
        end
    end.
Proof.
  unfold ExecuteBranch, ebind, lift, emit, ret, result_budget,
    related_block, functions_used_line.
  destruct (Plan_FromJson planner _) as [plan|e]; [|reflexivity].
  destruct (Plan_InvokeAsync planner plan) as [newPlanContext|e];
    [|reflexivity].
  destruct (Context_Item context "tokenLimit") as [text|e]; [|reflexivity].
  destruct (Int32_Parse text) as [parsed|e]; [|reflexivity].
  destruct (TryExtractJsonFromOpenApiPlanResult _)
    as [[[[|] json]|e] events]; cbn [app].
  - destruct (OptimizeOpenApiSkillJson _ _ _ _); cbn;
      now rewrite ?app_nil_r.
  - cbn. now rewrite ?app_nil_r.
  - reflexivity.
Qed.

Lemma TryExtract_events {host : Host} response :
  forallb (fun ev => match ev with DebugLogged _ => true | _ => false end)
          (snd (TryExtractJsonFromOpenApiPlanResult response))
  = true.
Proof.
  rewrite TryExtract_cases.
  destruct (JsonDocument_Parse response) as [document|e].
  - destruct document; try reflexivity.
    destruct (has_duplicate_names props); [reflexivity|].
    destruct (Str.StartsWithIgnoreCase _ _); [|reflexivity].
    destruct (Str.IsNullOrWhiteSpace _); reflexivity.
  - destruct (Class e); reflexivity.
Qed.

(** X16.  Free text is never cut to the token limit.  When the result of
    the plan is not a JSON object (text the parser refuses, or a JSON
    array or scalar), the block carries the whole input of the plan's
    context, trimmed, whatever limit the request gives, and the optimizer
    is not called. *)
Theorem free_text_result_is_returned_whole :
  forall (host : Host) planner context approved plan newPlanContext text
         parsed,
    Plan_FromJson planner (ProposedPlan_Plan approved) = Ok plan ->
    Plan_InvokeAsync planner plan = Ok newPlanContext ->
    Variables.TryGetValue context "tokenLimit" = Some text ->
    Int32_Parse text = Ok parsed ->
    ((exists e, JsonDocument_Parse (Context_Result newPlanContext) = Throw e
                /\ Class e = JsonException)
     \/ (exists document,
            JsonDocument_Parse (Context_Result newPlanContext) = Ok document
            /\ Json.is_Object document = false)) ->
    fst (ExecuteBranch planner context approved)
    = Ok (related_block (functions_used_line plan)
                        (Str.Trim (Context_Input newPlanContext)))
    /\ forall json limit,
        ~ In (OptimizerCalled json limit)
             (snd (ExecuteBranch planner context approved)).
Proof.
  intros host planner context approved plan newPlanContext text parsed
         Hplan Hrun Hlimit Hparsed Hresult.
  rewrite ExecuteBranch_steps, Hplan, Hrun.
  unfold Context_Item. rewrite Hlimit, Hparsed.
  assert (Hextract :
            exists events,
              TryExtractJsonFromOpenApiPlanResult
                (Context_Result newPlanContext)
              = (Ok (false, EmptyString), events)
              /\ forall json limit, ~ In (OptimizerCalled json limit) events).
  { rewrite TryExtract_cases.
    destruct Hresult as [(e & -> & ->) | (document & -> & Hobject)].
    - eexists. split; [reflexivity|]. intros json limit [H | []].
      discriminate.
    - destruct document; try discriminate;
        (eexists; split; [reflexivity|]);
        intros json limit H; cbn in H; intuition discriminate. }
  destruct Hextract as (events & -> & Hevents).
  split; [reflexivity|].
  intros json limit [H | H]; [discriminate | now apply Hevents in H].
Qed.

(** A plan whose result is plain text, under a limit of 0. *)
Lemma free_text_result_is_returned_whole_witness :
  let planner :=
    Examples.planner None (fun _ => Ok None)
                     "  three cats were found in the garden  " in
  fst (@ExecuteBranch Demo.host planner [("tokenLimit", "0")]
         (mkProposedPlan Examples.search_plan Action Approved))
  = Ok (related_block "FUNCTIONS EXECUTED: WebSearch.Search."
                      "three cats were found in the garden").
Proof.
  intros planner.
  refine (proj1 (free_text_result_is_returned_whole Demo.host planner
                   [("tokenLimit", "0")]
                   (mkProposedPlan Examples.search_plan Action Approved)
                   Examples.search_plan _ "0" 0
                   eq_refl eq_refl eq_refl eq_refl _)).
  left. exists Json.JsonError. split; reflexivity.
Defined.

(** X17.  The plan runs before the token limit is looked at.  An exception
    of the reload leaves the branch before anything ran; after that the
    plan has been invoked when an exception of the executor, a missing
    [tokenLimit] variable ([KeyNotFoundException]) or a [tokenLimit] that
    is no integer (the exception of [int.Parse]) ends the call. *)
Theorem plan_runs_before_the_limit_is_read :
  forall (host : Host) planner context approved,
    (forall e, Plan_FromJson planner (ProposedPlan_Plan approved) = Throw e ->
               ExecuteBranch planner context approved = (Throw e, []))
    /\ (forall plan,
           Plan_FromJson planner (ProposedPlan_Plan approved) = Ok plan ->
           (forall e, Plan_InvokeAsync planner plan = Throw e ->
                      ExecuteBranch planner context approved
                      = (Throw e, [PlanInvoked plan]))
           /\ (forall newPlanContext,
                  Plan_InvokeAsync planner plan = Ok newPlanContext ->
                  (Variables.TryGetValue context "tokenLimit" = None ->
                   exists e,
                     Class e = KeyNotFoundException
                     /\ ExecuteBranch planner context approved
                        = (Throw e, [PlanInvoked plan]))
                  /\ (forall text e,
                         Variables.TryGetValue context "tokenLimit"
                         = Some text ->
                         Int32_Parse text = Throw e ->
                         ExecuteBranch planner context approved
                         = (Throw e, [PlanInvoked plan])))).
Proof.
  intros host planner context approved. split.
  - intros e He. now rewrite ExecuteBranch_steps, He.
  - intros plan Hplan. split.
    + intros e He. now rewrite ExecuteBranch_steps, Hplan, He.
    + intros newPlanContext Hrun. split.
      * intros Hnone. eexists. split; [|
          rewrite ExecuteBranch_steps, Hplan, Hrun; unfold Context_Item;
          rewrite Hnone; reflexivity].
        reflexivity.
      * intros text e Htext He.
        rewrite ExecuteBranch_steps, Hplan, Hrun. unfold Context_Item.
        now rewrite Htext, He.
Qed.

Lemma Loop_Events_are_planner_events planner fuel goal call retriesAvail :
  forallb is_planner_event
          (Loop_Events (CreatePlanLoop planner fuel goal call retriesAvail))
  = true.
Proof.
  revert call retriesAvail.
  induction fuel as [|fuel IH]; intros call retriesAvail;
    cbn [CreatePlanLoop]; [reflexivity|].
  destruct (CreatePlanAsync planner call goal) as [[plan|]|e]; cbn;
    [reflexivity | apply IH |].
  destruct (filter_accepts planner e); [|reflexivity].
  destruct (retriesAvail >? 0); [|reflexivity].
  cbn. apply IH.
Qed.

Lemma ProposeBranch_events {host : Host} planner fuel before userIntent
      context :
  forallb is_planner_event
          (Events (ProposeBranch planner fuel before userIntent context))
  = true.
Proof.
  unfold ProposeBranch.
  destruct (Loop_Outcome _) as [plan| |];
    try apply Loop_Events_are_planner_events.
  destruct (Count (Steps plan) >? 0); apply Loop_Events_are_planner_events.
Qed.

Lemma debug_events_are_not_planner_events (events : list Event) :
  forallb (fun ev => match ev with DebugLogged _ => true | _ => false end)
          events = true ->
  forallb (fun ev => negb (is_planner_event ev)) events = true
  /\ forallb (fun ev => negb (is_PlanInvoked ev)) events = true.
Proof.
  induction events as [|ev events IH]; cbn; [easy|].
  intros H. apply andb_true_iff in H as [Hev H].
  destruct (IH H) as [H1 H2]. rewrite H1, H2.
  destruct ev; try discriminate. easy.
Qed.

(** The events of the branch that runs a plan: no planner event, and the
    plan is invoked at most once, first of all. *)
Lemma ExecuteBranch_events {host : Host} planner context approved :
  forallb (fun ev => negb (is_planner_event ev))
          (snd (ExecuteBranch planner context approved)) = true
  /\ (snd (ExecuteBranch planner context approved) = []
      \/ exists plan rest,
          Plan_FromJson planner (ProposedPlan_Plan approved) = Ok plan
          /\ snd (ExecuteBranch planner context approved)
             = PlanInvoked plan :: rest
          /\ forallb (fun ev => negb (is_PlanInvoked ev)) rest = true).
Proof.
  rewrite ExecuteBranch_steps.
  destruct (Plan_FromJson planner _) as [plan|e]; [|split; [reflexivity|]; now left].
  assert (Hright : forall rest result,
             forallb (fun ev => negb (is_planner_event ev)) rest = true ->
             forallb (fun ev => negb (is_PlanInvoked ev)) rest = true ->
             forallb (fun ev => negb (is_planner_event ev))
                     (snd (result : Result string, PlanInvoked plan :: rest))
             = true
             /\ (snd (result, PlanInvoked plan :: rest) = []
                 \/ exists plan0 rest0,
                     Ok plan = Ok plan0
                     /\ snd (result, PlanInvoked plan :: rest)
                        = PlanInvoked plan0 :: rest0
                     /\ forallb (fun ev => negb (is_PlanInvoked ev)) rest0
                        = true)).
  { intros rest result H1 H2. cbn. split; [exact H1|].
    right. exists plan, rest. auto. }
  destruct (Plan_InvokeAsync planner plan) as [newPlanContext|e];
    [|now apply Hright].
  destruct (Context_Item context "tokenLimit") as [text|e];
    [|now apply Hright].
  destruct (Int32_Parse text) as [parsed|e]; [|now apply Hright].
  pose proof (TryExtract_events (Context_Result newPlanContext)) as Hdebug.
  destruct (TryExtractJsonFromOpenApiPlanResult _)
    as [[[[|] json]|e] events]; cbn [snd] in Hdebug;
    destruct (debug_events_are_not_planner_events _ Hdebug) as [H1 H2];
    apply Hright; rewrite ?forallb_app, ?H1, ?H2; reflexivity.
Qed.

Lemma PlanState_eqb_Approved (state : PlanState) :
  PlanState_eqb state Approved = true -> state = Approved.
Proof. destruct state; cbn; congruence. Qed.

(** X18.  A call either plans or runs a plan, never both, and it runs a
    plan only on approval.  Either every event of the call is an event of
    the planner; or none is, the [ProposedPlan] property is left as it
    was, and the context held a plan that deserialized with the state
    [Approved].  A plan that was invoked is the reload of that approved
    plan, and it is invoked once. *)
Theorem a_call_plans_or_runs_an_approved_plan :
  forall (host : Host) planner fuel before userIntent context,
    let run := AcquireExternalInformationAsync planner fuel before userIntent
                                               context in
    (forallb is_planner_event (Events run) = true
     \/ (forallb (fun ev => negb (is_planner_event ev)) (Events run) = true
         /\ ProposedPlan_after run = before
         /\ exists approved,
             read_proposedPlan context = Ok (Some approved)
             /\ ProposedPlan_State approved = Approved))
    /\ (forall plan,
           In (PlanInvoked plan) (Events run) ->
           exists approved rest,
             read_proposedPlan context = Ok (Some approved)
             /\ ProposedPlan_State approved = Approved
             /\ Plan_FromJson planner (ProposedPlan_Plan approved) = Ok plan
             /\ Events run = PlanInvoked plan :: rest
             /\ forallb (fun ev => negb (is_PlanInvoked ev)) rest = true).
Proof.
  intros host planner fuel before userIntent context run.
  assert (Hplanner : forall events plan,
             forallb is_planner_event events = true ->
             ~ In (PlanInvoked plan) events).
  { intros events plan Hall Hin.
    rewrite forallb_forall in Hall. specialize (Hall _ Hin). discriminate. }
  unfold run, AcquireExternalInformationAsync.
  destruct (_ && _); [split; [now left | intros plan []]|].
  destruct (read_proposedPlan context) as [[approved|]|e] eqn:Hread;
    [| split; [left; apply ProposeBranch_events
              | intros plan Hin;
                now apply (Hplanner _ _ (ProposeBranch_events _ _ _ _ _)) in Hin]
     | split; [now left | intros plan []]].
  unfold is_Approved.
  destruct (PlanState_eqb (ProposedPlan_State approved) Approved) eqn:Hstate;
    [| split; [left; apply ProposeBranch_events
              | intros plan Hin;
                now apply (Hplanner _ _ (ProposeBranch_events _ _ _ _ _)) in Hin]].
  apply PlanState_eqb_Approved in Hstate.
  destruct (ExecuteBranch_events planner context approved) as [Hnone Hshape].
  destruct (ExecuteBranch planner context approved) as [result events].
  cbn [snd Events ProposedPlan_after] in *. split.
  - right. split; [exact Hnone|]. split; [reflexivity|].
    exists approved. split; [reflexivity | exact Hstate].
  - intros plan Hin.
    destruct Hshape as [-> | (plan0 & rest & Hplan & -> & Hrest)];
      [destruct Hin|].
    destruct Hin as [[= <-] | Hin].
    + exists approved, rest. repeat split; assumption.
    + exfalso. rewrite forallb_forall in Hrest.
      specialize (Hrest _ Hin). discriminate.
Qed.

(** X19.  What a call returns is either the empty string or one complete
    block: the preamble line, the line of the steps of the plan that was
    invoked, the result line with a trimmed result, and the postamble
    line.  The empty string comes with no plan run, the block with the plan
    it names. *)
Theorem a_call_returns_nothing_or_a_whole_block :
  forall (host : Host) planner fuel before userIntent context text,
    let run := AcquireExternalInformationAsync planner fuel before userIntent
                                               context in
    Returned run = Some (Ok text) ->
    (text = EmptyString
     /\ forallb (fun ev => negb (is_PlanInvoked ev)) (Events run) = true)
    \/ exists plan planResult rest,
        Events run = PlanInvoked plan :: rest
        /\ text = related_block (functions_used_line plan)
                                (Str.Trim planResult).
Proof.
  intros host planner fuel before userIntent context text run.
  assert (Hpropose :
            Returned (ProposeBranch planner fuel before userIntent context)
            = Some (Ok text) ->
            text = EmptyString
            /\ forallb (fun ev => negb (is_PlanInvoked ev))
                       (Events (ProposeBranch planner fuel before userIntent
                                              context))
               = true).
  { intros H. split.
    - unfold ProposeBranch in H.
      destruct (Loop_Outcome _) as [plan| |]; try discriminate.
      destruct (Count (Steps plan) >? 0); cbn in H; congruence.
    - pose proof (ProposeBranch_events planner fuel before userIntent context)
        as Hall.
      rewrite forallb_forall in Hall |- *. intros ev Hin.
      specialize (Hall ev Hin). now destruct ev. }
  unfold run, AcquireExternalInformationAsync.
  destruct (_ && _); [cbn; intros [= <-]; now left|].
  destruct (read_proposedPlan context) as [[approved|]|e];
    [| intros H; left; now apply Hpropose | discriminate].
  unfold is_Approved.
  destruct (PlanState_eqb _ _); [| intros H; left; now apply Hpropose].
  rewrite ExecuteBranch_steps.
  destruct (Plan_FromJson planner _) as [plan|e]; [|discriminate].
  destruct (Plan_InvokeAsync planner plan) as [newPlanContext|e];
    [|discriminate].
  destruct (Context_Item context "tokenLimit") as [limit|e]; [|discriminate].
  destruct (Int32_Parse limit) as [parsed|e]; [|discriminate].
  destruct (TryExtractJsonFromOpenApiPlanResult _)
    as [[[[|] json]|e] events]; cbn [Returned Events]; [| |discriminate].
  - destruct (OptimizeOpenApiSkillJson _ _ _ _) as [planResult|e];
      [|discriminate].
    intros [= <-]. right. eauto.
  - intros [= <-]. right. eauto.
Qed.

Lemma a_call_returns_nothing_or_a_whole_block_witness :
  let planner := Examples.planner None (fun _ => Ok None) " found 3 cats " in
  let context :=
    [("tokenLimit", "100");
     ("proposedPlan",
      "{" ++ Str.QUOTE ++ "state" ++ Str.QUOTE ++ ":1}")] in
  exists plan rest,
    Events (@AcquireExternalInformationAsync Demo.host planner 1 None
              "find cats" context)
    = PlanInvoked plan :: rest
    /\ Returned (@AcquireExternalInformationAsync Demo.host planner 1 None
                   "find cats" context)
       = Some (Ok (related_block (functions_used_line plan) "found 3 cats")).
Proof.
  intros planner context.
  destruct (a_call_returns_nothing_or_a_whole_block Demo.host planner 1 None
              "find cats" context
              (related_block "FUNCTIONS EXECUTED: ." "found 3 cats") eq_refl)
    as [[H _] | (plan & planResult & rest & Hevents & Htext)];
    [discriminate H|].
  exists (mkPlan "" "" [] []), rest. split.
  - rewrite Hevents. f_equal.
    assert (H : hd_error
                  (Events (@AcquireExternalInformationAsync Demo.host planner
                             1 None "find cats" context))
                = Some (PlanInvoked (mkPlan "" "" [] [])))
      by reflexivity.
    rewrite Hevents in H. now injection H as <-.
  - reflexivity.
Defined.

(* ------------------------------------------------------------------ *)
(** ** Further properties of the optimizer *)

Lemma append_nil_r (s : string) : s ++ EmptyString = s.
Proof. induction s as [|c s IH]; cbn; [reflexivity | now rewrite IH]. Qed.

Lemma append_assoc (a b c : string) : (a ++ b) ++ c = a ++ (b ++ c).
Proof. induction a as [|x a IH]; cbn; [reflexivity | now rewrite IH]. Qed.

Lemma rev_onto_append (s acc : string) :
  Str.rev_onto s acc = Str.Reverse s ++ acc.
Proof.
  unfold Str.Reverse. revert acc.
  induction s as [|c s IH]; intros acc; cbn; [reflexivity|].
  rewrite IH, (IH (String c EmptyString)), append_assoc. reflexivity.
Qed.

Lemma Reverse_cons (c : ascii) (s : string) :
  Str.Reverse (String c s) = Str.Reverse s ++ String c EmptyString.
Proof. unfold Str.Reverse at 1. cbn. apply rev_onto_append. Qed.

Lemma Reverse_append (a b : string) :
  Str.Reverse (a ++ b) = Str.Reverse b ++ Str.Reverse a.
Proof.
  induction a as [|c a IH].
  - change (Str.Reverse b = Str.Reverse b ++ EmptyString).
    now rewrite append_nil_r.
  - change (String c a ++ b) with (String c (a ++ b)).
    now rewrite !Reverse_cons, IH, append_assoc.
Qed.

Lemma Reverse_involutive (s : string) : Str.Reverse (Str.Reverse s) = s.
Proof.
  induction s as [|c s IH]; [reflexivity|].
  now rewrite Reverse_cons, Reverse_append, IH.
Qed.

Lemma TrimStart_fix (s : string) :
  starts_clean s = true -> Str.TrimStart s = s.
Proof.
  destruct s as [|c s]; cbn; [reflexivity|].
  now destruct (Str.IsWhiteSpace c).
Qed.

Lemma TrimStart_clean (s : string) : starts_clean (Str.TrimStart s) = true.
Proof.
  induction s as [|c s IH]; cbn; [reflexivity|].
  destruct (Str.IsWhiteSpace c) eqn:Hc; [exact IH|]. cbn. now rewrite Hc.
Qed.

Lemma TrimStart_split (s : string) :
  exists white, s = white ++ Str.TrimStart s.
Proof.
  induction s as [|c s [white IH]]; cbn; [now exists EmptyString|].
  destruct (Str.IsWhiteSpace c).
  - exists (String c white). cbn. now rewrite <- IH.
  - now exists EmptyString.
Qed.

Lemma starts_clean_append (a b : string) :
  starts_clean (a ++ b) = true -> starts_clean a = true.
Proof. destruct a; [reflexivity | exact (fun H => H)]. Qed.

Lemma Trim_fix (s : string) :
  starts_clean s = true ->
  starts_clean (Str.Reverse s) = true ->
  Str.Trim s = s.
Proof.
  intros Hstart Hend. unfold Str.Trim, Str.TrimEnd.
  now rewrite (TrimStart_fix s Hstart), (TrimStart_fix _ Hend),
    Reverse_involutive.
Qed.

Lemma Trim_clean (s : string) :
  starts_clean (Str.Trim s) = true
  /\ starts_clean (Str.Reverse (Str.Trim s)) = true.
Proof.
  unfold Str.Trim, Str.TrimEnd. rewrite Reverse_involutive.
  split; [|apply TrimStart_clean].
  destruct (TrimStart_split (Str.Reverse (Str.TrimStart s))) as [white H].
  apply (f_equal Str.Reverse) in H.
  rewrite Reverse_involutive, Reverse_append in H.
  apply (starts_clean_append _ (Str.Reverse white)).
  rewrite <- H. apply TrimStart_clean.
Qed.

Lemma RemoveLineBreaks_append (a b : string) :
  Str.RemoveLineBreaks (a ++ b)
  = Str.RemoveLineBreaks a ++ Str.RemoveLineBreaks b.
Proof.
  induction a as [|c a IH]; cbn; [reflexivity|].
  destruct (_ || _)%bool; cbn; now rewrite IH.
Qed.

Lemma RemoveLineBreaks_idempotent (s : string) :
  Str.RemoveLineBreaks (Str.RemoveLineBreaks s) = Str.RemoveLineBreaks s.
Proof.
  induction s as [|c s IH]; cbn; [reflexivity|].
  destruct (_ || _)%bool eqn:Hc; [exact IH|]. cbn. now rewrite Hc, IH.
Qed.

Lemma RemoveLineBreaks_Reverse (s : string) :
  Str.RemoveLineBreaks (Str.Reverse s)
  = Str.Reverse (Str.RemoveLineBreaks s).
Proof.
  induction s as [|c s IH]; [reflexivity|].
  rewrite Reverse_cons, RemoveLineBreaks_append, IH.
  cbn [Str.RemoveLineBreaks].
  destruct (_ || _)%bool.
  - now rewrite append_nil_r.
  - now rewrite Reverse_cons.
Qed.

Lemma line_break_is_white (c : ascii) :
  ((nat_of_ascii c =? 10) || (nat_of_ascii c =? 13))%nat = true ->
  Str.IsWhiteSpace c = true.
Proof.
  unfold Str.IsWhiteSpace. intros H.
  apply orb_true_iff in H as [H | H]; apply Nat.eqb_eq in H; now rewrite H.
Qed.

Lemma RemoveLineBreaks_clean (s : string) :
  starts_clean s = true -> starts_clean (Str.RemoveLineBreaks s) = true.
Proof.
  destruct s as [|c s]; cbn; [reflexivity|]. intros Hc.
  destruct (_ || _)%bool eqn:Hbreak.
  - apply line_break_is_white in Hbreak. now rewrite Hbreak in Hc.
  - exact Hc.
Qed.

(** Cleaning a text a second time changes nothing. *)
Lemma cleaned_idempotent (s : string) :
  cleaned (cleaned s) = cleaned s
  /\ Str.Trim (cleaned s) = cleaned s
  /\ Str.RemoveLineBreaks (cleaned s) = cleaned s.
Proof.
  destruct (Trim_clean s) as [Hstart Hend].
  assert (Htrim : Str.Trim (cleaned s) = cleaned s).
  { unfold cleaned. apply Trim_fix.
    - now apply RemoveLineBreaks_clean.
    - rewrite <- RemoveLineBreaks_Reverse. now apply RemoveLineBreaks_clean. }
  assert (Hbreaks : Str.RemoveLineBreaks (cleaned s) = cleaned s)
    by apply RemoveLineBreaks_idempotent.
  repeat split; try assumption.
  unfold cleaned at 1. now rewrite Htrim.
Qed.

(** X20.  The optimizer is idempotent on what it returns under budget.
    For a last skill without a response model, a result returned because
    the cleaned text costs less than the limit is that cleaned text: it
    has no line break and no white space around it, and optimizing it
    again with the same limit and plan returns it unchanged. *)
Theorem optimizer_is_idempotent_under_budget :
  forall (host : Host) planner jsonContent tokenLimit plan lastStep result,
    last_step plan = Ok lastStep ->
    String.eqb (SkillName lastStep) "GitHubPlugin" = false ->
    String.eqb (SkillName lastStep) "JiraPlugin" = false ->
    TokenCount (cleaned jsonContent) < tokenLimit ->
    OptimizeOpenApiSkillJson planner jsonContent tokenLimit plan = Ok result ->
    result = cleaned jsonContent
    /\ Str.Trim result = result
    /\ Str.RemoveLineBreaks result = result
    /\ OptimizeOpenApiSkillJson planner result tokenLimit plan = Ok result.
Proof.
  intros host planner jsonContent tokenLimit plan lastStep result
         Hlast Hgithub Hjira Hunder Hresult.
  destruct (cleaned_idempotent jsonContent) as (Hclean & Htrim & Hbreaks).
  apply Z.ltb_lt in Hunder.
  destruct (JsonDocument_Parse (cleaned jsonContent)) as [document|e]
    eqn:Hparse.
  - pose proof (Optimize_prepare_untyped jsonContent plan lastStep document
                  Hlast Hgithub Hjira Hparse) as Hprepare.
    fold (cleaned jsonContent) in Hprepare.
    assert (Hfirst : result = cleaned jsonContent).
    { unfold OptimizeOpenApiSkillJson in Hresult.
      rewrite Hprepare in Hresult. cbn [bind] in Hresult.
      rewrite Hunder in Hresult. congruence. }
    subst result. repeat split; try assumption.
    assert (Hparse' : JsonDocument_Parse
                        (Str.RemoveLineBreaks
                           (Str.Trim (cleaned jsonContent)))
                      = Ok document).
    { fold (cleaned (cleaned jsonContent)). now rewrite Hclean. }
    pose proof (Optimize_prepare_untyped (cleaned jsonContent) plan lastStep
                  document Hlast Hgithub Hjira Hparse') as Hprepare'.
    fold (cleaned (cleaned jsonContent)) in Hprepare'.
    rewrite Hclean in Hprepare'.
    unfold OptimizeOpenApiSkillJson. rewrite Hprepare'. cbn [bind].
    now rewrite Hunder.
  - exfalso. unfold OptimizeOpenApiSkillJson, Optimize_prepare in Hresult.
    fold (cleaned jsonContent) in Hresult.
    rewrite Hparse in Hresult. discriminate.
Qed.

(** A text with line breaks and white space around it, under a limit of
    100. *)
Lemma optimizer_is_idempotent_under_budget_witness :
  let planner := Examples.planner None (fun _ => Ok None) "" in
  let text := "  [1," ++ Str.LF ++ "2,3]  " in
  @OptimizeOpenApiSkillJson Demo.host planner text 100 Examples.search_plan
  = Ok "[1,2,3]"
  /\ @OptimizeOpenApiSkillJson Demo.host planner "[1,2,3]" 100
                               Examples.search_plan
     = Ok "[1,2,3]".
Proof.
  intros planner text.
  split; [reflexivity|].
  refine (proj2 (proj2 (proj2
            (optimizer_is_idempotent_under_budget Demo.host planner text 100
               Examples.search_plan Examples.search_step "[1,2,3]"
               eq_refl eq_refl eq_refl _ eq_refl)))).
  reflexivity.
Defined.

(** X21.  What the accumulation keeps fits in the limit it was given.  As
    long as the first subtraction stays above [int.MinValue], the token
    counts of the items kept add up to less than the limit, the limit left
    is the exact difference, and it is positive. *)
Theorem kept_items_cost_less_than_the_limit :
  forall (host : Host) document tokenLimit,
    Int32.in_range tokenLimit ->
    (forall i, In i (document_items document) ->
               Int32.MinValue <= tokenLimit - Item_cost i) ->
    snd (Optimize_truncate document tokenLimit) <> [] ->
    total_cost (snd (Optimize_truncate document tokenLimit)) < tokenLimit
    /\ fst (Optimize_truncate document tokenLimit)
       = tokenLimit - total_cost (snd (Optimize_truncate document tokenLimit))
    /\ 0 < fst (Optimize_truncate document tokenLimit).
Proof.
  intros host document tokenLimit Hrange Hfirst.
  destruct (Optimize_truncate_greedy document tokenLimit)
    as (taken & rest & Hitems & -> & Hkept & _).
  cbn [fst snd]. intros Hsome.
  assert (Htaken : forall i, In i taken ->
                             Int32.MinValue <= tokenLimit - Item_cost i).
  { intros i Hin. apply Hfirst. rewrite Hitems. apply in_or_app. now left. }
  destruct (remaining_exact tokenLimit taken Hrange Htaken Hkept)
    as [Hexact Hpos].
  specialize (Hpos Hsome). rewrite Hexact in *. repeat split; lia.
Qed.

(** Elements of 3, 2 and 1 tokens under a limit of 6: the first two are
    kept, for 5 tokens, and 1 is left. *)
Lemma kept_items_cost_less_than_the_limit_witness :
  let array :=
    Json.JArray "[100,20,3]"
                [Json.JNumber "100"; Json.JNumber "20"; Json.JNumber "3"] in
  @total_cost Demo.host (snd (@Optimize_truncate Demo.host array 6)) < 6
  /\ fst (@Optimize_truncate Demo.host array 6) = 1.
Proof.
  intros array.
  destruct (kept_items_cost_less_than_the_limit Demo.host array 6)
    as (H1 & H2 & _).
  - unfold Int32.in_range, Int32.MinValue, Int32.MaxValue. lia.
  - intros i [<- | [<- | [<- | []]]]; vm_compute; discriminate.
  - discriminate.
  - split; [exact H1 | reflexivity].
Defined.

(** X22.  What makes the optimizer throw before it looks at the limit: a
    text the parser refuses leaves with the parser's exception whatever
    the plan is; a text that parses, with a plan that has no step, leaves
    with [ArgumentOutOfRangeException]. *)
Theorem optimizer_needs_json_and_a_step :
  forall (host : Host) planner jsonContent tokenLimit plan,
    (forall e, JsonDocument_Parse (cleaned jsonContent) = Throw e ->
               OptimizeOpenApiSkillJson planner jsonContent tokenLimit plan
               = Throw e)
    /\ (forall document,
           JsonDocument_Parse (cleaned jsonContent) = Ok document ->
           Steps plan = [] ->
           exists e,
             Class e = ArgumentOutOfRangeException
             /\ OptimizeOpenApiSkillJson planner jsonContent tokenLimit plan
                = Throw e).
Proof.
  intros host planner jsonContent tokenLimit plan.
  unfold OptimizeOpenApiSkillJson, Optimize_prepare.
  fold (cleaned jsonContent). split.
  - intros e ->. reflexivity.
  - intros document -> Hsteps. unfold last_step. rewrite Hsteps.
    eexists. split; [|reflexivity]. reflexivity.
Qed.

(** X23.  The choice of the response model.  The response is trimmed
    exactly when the last skill is named [GitHubPlugin] or [JiraPlugin]
    (compared as they are written); otherwise the type is [object].  An
    array type is chosen only for a document that is an array, and for
    [JiraPlugin] only after the function [GetIssue]. *)
Theorem response_model_follows_the_last_skill :
  forall document lastSkillInvoked lastSkillFunctionInvoked,
    let chosen :=
      GetOpenApiSkillResponseType document lastSkillInvoked
                                  lastSkillFunctionInvoked in
    (snd chosen = true
     <-> lastSkillInvoked = "GitHubPlugin" \/ lastSkillInvoked = "JiraPlugin")
    /\ (snd chosen = false -> fst chosen = typeof_object)
    /\ (is_array_type (fst chosen) = true ->
        Json.is_Array document = true
        /\ (lastSkillInvoked = "JiraPlugin" ->
            lastSkillFunctionInvoked = "GetIssue"))
    /\ (Json.is_Array document = true ->
        lastSkillInvoked = "GitHubPlugin" ->
        fst chosen = typeof_PullRequest_array).
Proof.
  intros document lastSkillInvoked lastSkillFunctionInvoked. cbv zeta.
  unfold GetOpenApiSkillResponseType, GetGithubSkillResponseType,
    GetJiraPluginResponseType.
  destruct (String.eqb lastSkillInvoked "GitHubPlugin") eqn:Hgithub.
  - apply String.eqb_eq in Hgithub. subst. cbn [fst snd].
    repeat split; auto; try discriminate.
    + destruct (Json.is_Array document); [reflexivity | discriminate].
    + intros ->. reflexivity.
  - apply String.eqb_neq in Hgithub.
    destruct (String.eqb lastSkillInvoked "JiraPlugin") eqn:Hjira.
    + apply String.eqb_eq in Hjira. subst. cbn [fst snd].
      repeat split; auto; try discriminate; try congruence.
      * destruct (String.eqb lastSkillFunctionInvoked "GetIssue");
          [|discriminate].
        destruct (Json.is_Array document); [reflexivity | discriminate].
      * intros _.
        destruct (String.eqb lastSkillFunctionInvoked "GetIssue") eqn:Hf;
          [now apply String.eqb_eq in Hf | discriminate].
    + apply String.eqb_neq in Hjira. cbn [fst snd].
      repeat split; try discriminate; try congruence.
      intros [H | H]; congruence.
Qed.

(** The four subtractions of lines 105-110 in exact arithmetic. *)
Lemma result_budget_exact {host : Host} parsed plan :
  Int32.in_range parsed ->
  Int32.MinValue <= parsed - block_overhead plan ->
  result_budget parsed plan = parsed - block_overhead plan
  /\ result_budget parsed plan <= parsed
  /\ (parsed < block_overhead plan -> result_budget parsed plan < 0).
Proof.
  intros Hrange Hmin.
  pose proof (TokenCount_range PromptPreamble) as H1.
  pose proof (TokenCount_range PromptPostamble) as H2.
  pose proof (TokenCount_range (functions_used_line plan)) as H3.
  pose proof (TokenCount_range ResultHeader) as H4.
  unfold block_overhead in *.
  assert (Hexact :
            result_budget parsed plan
            = parsed - (TokenCount PromptPreamble + TokenCount PromptPostamble
                        + TokenCount (functions_used_line plan)
                        + TokenCount ResultHeader)).
  { unfold result_budget.
    rewrite (sub_exact parsed (TokenCount PromptPreamble))
      by (unfold Int32.in_range, Int32.MinValue, Int32.MaxValue in *; lia).
    rewrite (sub_exact (parsed - TokenCount PromptPreamble)
                       (TokenCount PromptPostamble))
      by (unfold Int32.in_range, Int32.MinValue, Int32.MaxValue in *; lia).
    rewrite (sub_exact (parsed - TokenCount PromptPreamble
                        - TokenCount PromptPostamble)
                       (TokenCount (functions_used_line plan)))
      by (unfold Int32.in_range, Int32.MinValue, Int32.MaxValue in *; lia).
    rewrite sub_exact
      by (unfold Int32.in_range, Int32.MinValue, Int32.MaxValue in *; lia).
    lia. }
  rewrite Hexact. repeat split; lia.
Qed.

Lemma Int32_Parse_in_range (text : string) (parsed : Z) :
  Int32_Parse text = Ok parsed -> Int32.in_range parsed.
Proof.
  unfold Int32_Parse, Int32.in_range.
  destruct (match Str.TrimNumberWhite text with
            | String c rest =>
                if Ascii.eqb c "-" then (true, rest)
                else if Ascii.eqb c "+" then (false, rest)
                else (false, Str.TrimNumberWhite text)
            | EmptyString => (false, Str.TrimNumberWhite text)
            end) as [negative body].
  destruct body as [|c body]; [discriminate|].
  destruct (digits_value (String c body) 0) as [v|]; [|discriminate].
  destruct (_ && _)%bool eqn:Hrange; [|discriminate].
  intros [= <-]. apply andb_true_iff in Hrange as [Hlow Hhigh].
  apply Z.leb_le in Hlow. apply Z.leb_le in Hhigh. lia.
Qed.

(** X24.  The limit handed to the optimizer is the limit of the request
    less the token counts of the preamble, the postamble, the line of the
    steps and the result header.  As long as that difference stays above
    [int.MinValue] it is exact: the optimizer never gets more than the
    request allows, and it gets a negative limit when the overhead is
    larger than the request's limit. *)
Theorem optimizer_limit_is_the_request_limit_less_the_overhead :
  forall (host : Host) planner context approved plan text parsed json limit,
    Plan_FromJson planner (ProposedPlan_Plan approved) = Ok plan ->
    Variables.TryGetValue context "tokenLimit" = Some text ->
    Int32_Parse text = Ok parsed ->
    Int32.MinValue <= parsed - block_overhead plan ->
    In (OptimizerCalled json limit)
       (snd (ExecuteBranch planner context approved)) ->
    limit = parsed - block_overhead plan
    /\ limit <= parsed
    /\ (parsed < block_overhead plan -> limit < 0).
Proof.
  intros host planner context approved plan text parsed json limit
         Hplan Htext Hparsed Hmin Hin.
  assert (Hlimit : limit = result_budget parsed plan).
  { rewrite ExecuteBranch_steps, Hplan in Hin.
    unfold Context_Item in Hin. rewrite Htext, Hparsed in Hin.
    destruct (Plan_InvokeAsync planner plan) as [newPlanContext|e];
      [|destruct Hin as [H | []]; discriminate].
    pose proof (TryExtract_events (Context_Result newPlanContext)) as Hdebug.
    assert (Hnot : forall events,
               forallb (fun ev => match ev with
                                  | DebugLogged _ => true
                                  | _ => false
                                  end) events = true ->
               ~ In (OptimizerCalled json limit) events).
    { intros events Hall H. rewrite forallb_forall in Hall.
      specialize (Hall _ H). discriminate. }
    destruct (TryExtractJsonFromOpenApiPlanResult _)
      as [[[[|] found]|e] events]; cbn [snd] in Hdebug, Hin;
      (destruct Hin as [H | Hin]; [discriminate|]).
    - apply in_app_or in Hin. destruct Hin as [Hin | [H | []]].
      + now apply Hnot in Hin.
      + congruence.
    - now apply Hnot in Hin.
    - now apply Hnot in Hin. }
  rewrite Hlimit.
  exact (result_budget_exact parsed plan (Int32_Parse_in_range _ _ Hparsed)
           Hmin).
Qed.

(** A JSON response under a request limit of 80 characters: the four
    fixed parts take 15 + 13 + 37 + 8 tokens, and 7 are left. *)
Lemma optimizer_limit_is_the_request_limit_less_the_overhead_witness :
  let response :=
    "{" ++ Str.QUOTE ++ "contentType" ++ Str.QUOTE ++ ":"
    ++ Str.QUOTE ++ "application/json" ++ Str.QUOTE ++ ","
    ++ Str.QUOTE ++ "content" ++ Str.QUOTE ++ ":"
    ++ Str.QUOTE ++ "[100,20,3]" ++ Str.QUOTE ++ "}" in
  let planner := Examples.planner None (fun _ => Ok None) response in
  let approved := mkProposedPlan Examples.search_plan Action Approved in
  snd (@ExecuteBranch Demo.host planner [("tokenLimit", " 80 ")] approved)
  = [PlanInvoked Examples.search_plan; OptimizerCalled "[100,20,3]" 7]
  /\ 7 = 80 - @block_overhead Demo.host Examples.search_plan.
Proof.
  intros response planner approved. split; [reflexivity|].
  refine (proj1 (optimizer_limit_is_the_request_limit_less_the_overhead
                   Demo.host planner [("tokenLimit", " 80 ")] approved
                   Examples.search_plan " 80 " 80 "[100,20,3]" 7
                   eq_refl eq_refl eq_refl _ _)).
  - vm_compute. discriminate.
  - right. left. reflexivity.
Defined.
